(** * Real-Time Retail Analytics: anomaly detection and RFM segmentation

    A shallow embedding of [anomaly_detector.py] and
    [customer_segmentation.py].  A pandas DataFrame is a list of labelled
    rows (the label is the row's index value), a float64 is a primitive
    binary64 float, an int64 or a nanosecond timestamp is a [Z], and Python
    code that can raise lives in the error monad [PyResult].  The sklearn
    models (StandardScaler, IsolationForest, KMeans) are library code: they
    are section variables, deterministic because the source fixes
    [random_state=42]. *)

From Stdlib Require Import ZArith List Bool String Ascii Lia PeanoNat.
From Stdlib Require Import Floats DecimalString.
From Stdlib Require OrderedTypeEx.
From Stdlib Require Import Sorted.
Import ListNotations.

Set Warnings "-inexact-float".

Local Open Scope Z_scope.

(** ** Python exceptions and the error monad *)

(** The exceptions met in the two classes; [ModelError] stands for
    whatever a sklearn model raises. *)
Inductive PyExn : Type :=
| ValueError (msg : string)
| KeyError (key : string)
| TypeError (msg : string)
| IndexError (msg : string)
| ParserError (msg : string)
| ModelError (msg : string).

Inductive PyResult (A : Type) : Type :=
| Ok (a : A)
| Raise (e : PyExn).

Arguments Ok {A} a.
Arguments Raise {A} e.

Definition bind {A B : Type} (m : PyResult A) (k : A -> PyResult B)
  : PyResult B :=
  match m with
  | Ok a => k a
  | Raise e => Raise e
  end.

Notation "x <- m ;; k" := (bind m (fun x => k))
  (at level 61, m at next level, right associativity).

(** [try: body / except Exception as e: handler e] *)
Definition try_except {A : Type} (body : PyResult A) (handler : PyExn -> A)
  : A :=
  match body with
  | Ok a => a
  | Raise e => handler e
  end.

Fixpoint mapM {A B : Type} (f : A -> PyResult B) (l : list A)
  : PyResult (list B) :=
  match l with
  | [] => Ok []
  | a :: l' => b <- f a ;; bs <- mapM f l' ;; Ok (b :: bs)
  end.

(** ** float64 arithmetic as numpy and pandas use it *)

Module Np.

(** An int64 as a float64, rounded to nearest as numpy does. *)
Definition of_Z (z : Z) : float :=
  match z with
  | Z0 => 0%float
  | Zpos _ => PrimFloat.of_uint63 (Uint63.of_Z z)
  | Zneg p => PrimFloat.opp (PrimFloat.of_uint63 (Uint63.of_Z (Zpos p)))
  end.

Definition of_nat (n : nat) : float := of_Z (Z.of_nat n).

(** Python's [a > b] and [a < b] on floats: false as soon as one is NaN. *)
Definition gt (a b : float) : bool := PrimFloat.ltb b a.
Definition lt (a b : float) : bool := PrimFloat.ltb a b.
Definition le (a b : float) : bool := PrimFloat.leb a b.
Definition ge (a b : float) : bool := PrimFloat.leb b a.

Definition isnan (x : float) : bool := PrimFloat.is_nan x.
Definition isinf (x : float) : bool := PrimFloat.is_infinity x.

Definition notna (l : list float) : list float :=
  filter (fun x => negb (isnan x)) l.

(** Left-to-right accumulation; numpy adds pairwise above eight elements,
    which can differ in the last bit and in nothing the theorems use. *)
Definition sum (l : list float) : float :=
  fold_left PrimFloat.add l 0%float.

(** [Series.mean()], with [skipna=True]. *)
Definition mean (l : list float) : float :=
  let v := notna l in
  match v with
  | [] => PrimFloat.nan
  | _ => PrimFloat.div (sum v) (of_nat (List.length v))
  end.

(** [Series.var()] with [ddof=1]: NaN when at most one value is present. *)
Definition var (l : list float) : float :=
  let v := notna l in
  match v with
  | [] | [_] => PrimFloat.nan
  | _ =>
      let avg := PrimFloat.div (sum v) (of_nat (List.length v)) in
      let sqr := map (fun x => let d := PrimFloat.sub avg x in
                               PrimFloat.mul d d) v in
      PrimFloat.div (sum sqr) (of_nat (List.length v - 1))
  end.

(** [Series.std()] with [ddof=1]. *)
Definition std (l : list float) : float := PrimFloat.sqrt (var l).

Fixpoint insert_sorted (x : float) (l : list float) : list float :=
  match l with
  | [] => [x]
  | y :: l' => if le x y then x :: l else y :: insert_sorted x l'
  end.

Definition sort (l : list float) : list float :=
  fold_right insert_sorted [] l.

(** The largest [k <= bound] with [float k <= x]: [floor x] as an index. *)
Fixpoint floor_index (x : float) (bound : nat) : nat :=
  match bound with
  | O => O
  | S b => if le (of_nat bound) x then bound else floor_index x b
  end.

(** numpy's [_lerp]. *)
Definition lerp (a b t : float) : float :=
  let diff_b_a := PrimFloat.sub b a in
  if ge t 0.5%float
  then PrimFloat.sub b (PrimFloat.mul diff_b_a (PrimFloat.sub 1%float t))
  else PrimFloat.add a (PrimFloat.mul diff_b_a t).

(** [Series.quantile(q)], linear interpolation, missing values dropped.
    pandas hands [q * 100] to [np.percentile], which divides by 100. *)
Definition quantile (l : list float) (q : float) : float :=
  let v := sort (notna l) in
  match v with
  | [] => PrimFloat.nan
  | _ =>
      let n := List.length v in
      let q := PrimFloat.div (PrimFloat.mul q 100%float) 100%float in
      let virtual_index := PrimFloat.mul (of_nat (n - 1)) q in
      let previous := floor_index virtual_index (n - 1) in
      let next := Nat.min (S previous) (n - 1) in
      let gamma := PrimFloat.sub virtual_index (of_nat previous) in
      lerp (nth previous v PrimFloat.nan) (nth next v PrimFloat.nan) gamma
  end.

(** [Series.median()]: the middle value, or the mean of the two middle
    ones. *)
Definition median (l : list float) : float :=
  let v := sort (notna l) in
  match v with
  | [] => PrimFloat.nan
  | _ =>
      let n := List.length v in
      if Nat.even n
      then PrimFloat.div
             (PrimFloat.add (nth (n / 2 - 1) v PrimFloat.nan)
                            (nth (n / 2) v PrimFloat.nan)) 2%float
      else nth (n / 2) v PrimFloat.nan
  end.

(** [np.rint]: round to the nearest integer, ties to even. *)
Definition rint (x : float) : float :=
  let two52 := 4503599627370496%float in
  if le two52 (PrimFloat.abs x) then x
  else if lt x 0%float
       then PrimFloat.add (PrimFloat.sub x two52) two52
       else PrimFloat.sub (PrimFloat.add x two52) two52.

(** [np.round(x, 2)]. *)
Definition round2 (x : float) : float :=
  PrimFloat.div (rint (PrimFloat.mul x 100%float)) 100%float.

(** [Series.max()], missing values skipped; NaN when none is left. *)
Definition max (l : list float) : float :=
  match notna l with
  | [] => PrimFloat.nan
  | x :: rest => fold_left (fun m y => if gt y m then y else m) rest x
  end.

End Np.

(** ** The pandas operations the two classes use *)

Module Pd.

(** A cell of the [timestamp] column: a datetime, which pandas keeps as
    nanoseconds since the epoch, or a value [pd.to_datetime] rejects. *)
Inductive RawTimestamp : Type :=
| Timestamp (ns : Z)
| Unparseable (text : string).

Definition to_datetime_cell (t : RawTimestamp) : PyResult Z :=
  match t with
  | Timestamp ns => Ok ns
  | Unparseable text => Raise (ParserError text)
  end.

(** [pd.to_datetime(column)]: raises as soon as one cell does not parse. *)
Definition to_datetime (col : list RawTimestamp) : PyResult (list Z) :=
  mapM to_datetime_cell col.

Definition ns_per_minute : Z := 60 * 1000000000.
Definition ns_per_hour : Z := 60 * ns_per_minute.
Definition ns_per_day : Z := 24 * ns_per_hour.

(** [.dt.hour], [.dt.minute], [.dt.dayofweek] (Monday is 0; the epoch was a
    Thursday). *)
Definition hour (ns : Z) : Z := (ns mod ns_per_day) / ns_per_hour.
Definition minute (ns : Z) : Z := (ns mod ns_per_hour) / ns_per_minute.
Definition dayofweek (ns : Z) : Z := (ns / ns_per_day + 3) mod 7.

(** [Timedelta.days]: whole days, rounded towards minus infinity. *)
Definition days (delta_ns : Z) : Z := delta_ns / ns_per_day.

(** A DataFrame: its rows in order, each with its index label.  Labels may
    repeat (pandas allows it). *)
Definition Frame (R : Type) : Type := list (Z * R).

Definition index {R : Type} (df : Frame R) : list Z := map fst df.
Definition rows {R : Type} (df : Frame R) : list R := map snd df.
Definition column {R A : Type} (f : R -> A) (df : Frame R) : list A :=
  map (fun r => f (snd r)) df.

(** [df.empty] *)
Definition empty {R : Type} (df : Frame R) : bool :=
  match df with
  | [] => true
  | _ => false
  end.

(** [df[mask]]: boolean indexing with a mask aligned with the rows. *)
Fixpoint select {R : Type} (df : Frame R) (mask : list bool) : Frame R :=
  match df, mask with
  | r :: df', b :: mask' =>
      if b then r :: select df' mask' else select df' mask'
  | _, _ => []
  end.

(** [df.loc[label]] inside [df.loc[list]]: every row that carries the
    label, [KeyError] when none does. *)
Definition loc_label {R : Type} (df : Frame R) (label : Z)
  : PyResult (Frame R) :=
  match filter (fun r => fst r =? label) df with
  | [] => Raise (KeyError "label not in index"%string)
  | found => Ok found
  end.

(** [df.loc[labels]] *)
Definition loc {R : Type} (df : Frame R) (labels : list Z)
  : PyResult (Frame R) :=
  found <- mapM (loc_label df) labels ;;
  Ok (List.concat found).

(** [df.iloc[positions]] *)
Definition iloc {R : Type} (df : Frame R) (positions : list nat)
  : PyResult (Frame R) :=
  mapM (fun p => match nth_error df p with
                 | Some r => Ok r
                 | None => Raise (IndexError "positional indexer out of bounds"%string)
                 end) positions.

(** [set(labels)] turned back into a list.  Python does not specify the
    order; the rows are sorted afterwards and no theorem depends on it. *)
Definition set_of (labels : list Z) : list Z := nodup Z.eq_dec labels.

(** Stable insertion into a list kept in descending order of the key; a
    NaN key goes last, as in [sort_values(ascending=False)]. *)
Fixpoint insert_desc {A : Type} (key : A -> float) (x : A) (l : list A)
  : list A :=
  match l with
  | [] => [x]
  | y :: l' =>
      if Np.isnan (key x) then y :: insert_desc key x l'
      else if Np.isnan (key y) then x :: l
      else if Np.lt (key x) (key y) then y :: insert_desc key x l'
      else x :: l
  end.

Definition sort_values_desc {A : Type} (key : A -> float) (l : list A)
  : list A :=
  fold_right (insert_desc key) [] l.

Fixpoint insert_string (s : string) (l : list string) : list string :=
  match l with
  | [] => [s]
  | t :: l' =>
      match String.compare s t with
      | Lt => s :: l
      | Eq => l
      | Gt => t :: insert_string s l'
      end
  end.

(** The order of the keys: [a] comes strictly before [b]. *)
Definition before (a b : string) : Prop := String.compare a b = Lt.

(** The distinct values of a column, sorted: the groups of a [groupby] and
    the columns of [get_dummies]. *)
Definition sorted_unique (col : list string) : list string :=
  fold_right insert_string [] col.

Fixpoint insert_label (z : Z) (l : list Z) : list Z :=
  match l with
  | [] => [z]
  | t :: l' =>
      match Z.compare z t with
      | Lt => z :: l
      | Eq => l
      | Gt => t :: insert_label z l'
      end
  end.

(** The same for an integer column. *)
Definition sorted_unique_labels (col : list Z) : list Z :=
  fold_right insert_label [] col.

(** [np.linspace(0, 1, q + 1)]: [i * step], the last point set to 1. *)
Definition linspace01 (q : nat) : list float :=
  let step := PrimFloat.div 1%float (Np.of_nat q) in
  map (fun i => if (i =? q)%nat then 1%float
                else PrimFloat.mul (Np.of_nat i) step)
      (seq 0 (S q)).

(** Two cells that [algos.unique] takes for one value: equal floats, or
    two NaN. *)
Definition same_value (x y : float) : bool :=
  PrimFloat.eqb x y || (Np.isnan x && Np.isnan y).

(** [algos.unique]: first occurrences, in order. *)
Fixpoint unique (l : list float) : list float :=
  match l with
  | [] => []
  | x :: l' => x :: filter (fun y => negb (same_value y x)) (unique l')
  end.

(** [bins.searchsorted(x, side='left')] on sorted bins. *)
Definition searchsorted_left (bins : list float) (x : float) : nat :=
  List.length (filter (fun b => Np.lt b x) bins).

Definition bin_labels_error : PyExn :=
  ValueError "Bin labels must be one fewer than the number of bin edges"%string.

(** [pd.qcut(x, q, labels=labels, duplicates='drop')], that is [qcut]
    followed by [_bins_to_cuts] with [include_lowest=True]: the label of
    each value, [None] for a missing one. *)
Definition qcut (x : list float) (q : nat) (labels : list Z)
  : PyResult (list (option Z)) :=
  let quantiles := linspace01 q in
  let bins := map (Np.quantile x) quantiles in
  let unique_bins := unique bins in
  let bins :=
    if (List.length unique_bins <? List.length bins)%nat
       && negb (List.length bins =? 2)%nat
    then unique_bins else bins in
  let ids :=
    map (fun v =>
           if PrimFloat.eqb v (nth 0 bins PrimFloat.nan) then 1%nat
           else searchsorted_left bins v) x in
  let na_mask :=
    map (fun p : float * nat =>
           Np.isnan (fst p)
           || (snd p =? List.length bins)%nat || (snd p =? 0)%nat)
        (combine x ids) in
  if negb (List.length labels =? List.length bins - 1)%nat
  then Raise bin_labels_error
  else
    Ok (map (fun p : nat * bool =>
               if snd p then None else nth_error labels (fst p - 1)%nat)
            (combine ids na_mask)).

(** [Series.rank(method='first')]: ranks from 1, ties in order of
    appearance. *)
Fixpoint rank_first_from (seen rest : list Z) (all : list Z) : list float :=
  match rest with
  | [] => []
  | v :: rest' =>
      Np.of_nat (1 + List.length (filter (fun u => u <? v) all)
                 + List.length (filter (fun u => u =? v) seen))
      :: rank_first_from (seen ++ [v]) rest' all
  end.

Definition rank_first (col : list Z) : list float :=
  rank_first_from [] col col.

(** [pd.get_dummies(column)]: one indicator per distinct value and row. *)
Definition get_dummies (col : list string) : list (list bool) :=
  let values := sorted_unique col in
  map (fun c => map (fun v => String.eqb c v) values) col.

(** [shape[1]] of [get_dummies(column)] *)
Definition dummies_width (col : list string) : nat :=
  List.length (sorted_unique col).

(** Stable insertion into a list kept in descending order of the
    counts. *)
Fixpoint insert_count {A : Type} (x : A * Z) (l : list (A * Z))
  : list (A * Z) :=
  match l with
  | [] => [x]
  | y :: l' => if snd y <? snd x then x :: l else y :: insert_count x l'
  end.

(** [Series.value_counts()]: every distinct value with the number of its
    occurrences, most frequent first.  pandas leaves the order of equal
    counts open; here they stay in order of first appearance. *)
Definition value_counts {A : Type} (eq_dec : forall x y : A, {x = y} + {x <> y})
    (col : list A) : list (A * Z) :=
  fold_right insert_count []
    (map (fun v => (v, Z.of_nat (count_occ eq_dec col v)))
         (nodup eq_dec col)).

(** [Series.nunique()] *)
Definition nunique (col : list string) : Z :=
  Z.of_nat (List.length (nodup string_dec col)).

(** [x.min()] on a column of datetimes. *)
Definition earliest (stamps : list Z) : Z :=
  match stamps with
  | [] => 0
  | s :: rest => fold_left Z.min rest s
  end.

(** [series.dt.hour] on a column that has not been converted: the
    accessor exists on datetimes only.  pandas raises an [AttributeError]
    there, which is filed under [TypeError] here. *)
Definition dt_hour (col : list RawTimestamp) : PyResult (list Z) :=
  mapM (fun cell =>
          match cell with
          | Timestamp ns => Ok (hour ns)
          | Unparseable _ =>
              Raise (TypeError
                "Can only use .dt accessor with datetimelike values"%string)
          end) col.

End Pd.

(** ** Transaction records *)

Record Transaction : Type := {
  transaction_id : string;
  timestamp : Pd.RawTimestamp;
  store_id : string;
  product_name : string;
  category : string;
  unit_price : float;
  quantity : Z;
  subtotal : float;
  tax_amount : float;
  total_amount : float;
  payment_method : string;
  customer_id : string
}.

(** ** [class AnomalyDetector] *)

Module AnomalyDetector.

(** A row of a detection result: the transaction, the columns the
    statistical method adds to its copy of the table (absent from the
    results of the other methods), and the score. *)
Record AnomalyRecord : Type := {
  txn : Transaction;
  amount_zscore : option float;
  quantity_zscore : option float;
  hour : option Z;
  anomaly_score : float
}.

Definition FeatureRow : Type := list float.

Definition of_bool (b : bool) : float := if b then 1%float else 0%float.

Definition numerical_features (t : Transaction) (ns : Z) : FeatureRow :=
  [ total_amount t; Np.of_Z (quantity t); unit_price t; subtotal t;
    tax_amount t; Np.of_Z (Pd.hour ns); Np.of_Z (Pd.dayofweek ns);
    Np.of_Z (Pd.minute ns) ].

(** [pd.concat([features, encoded], axis=1)] when [encoded.shape[1] <= cap] *)
Definition concat_encoded (cap : nat) (col : list string)
    (features : list FeatureRow) : list FeatureRow :=
  if (Pd.dummies_width col <=? cap)%nat
  then map (fun p => fst p ++ map of_bool (snd p))
           (combine features (Pd.get_dummies col))
  else features.

(** [features.replace([np.inf, -np.inf], np.nan)] *)
Definition replace_inf (features : list FeatureRow) : list FeatureRow :=
  map (map (fun x => if Np.isinf x then PrimFloat.nan else x)) features.

(** [features.median()]: one median per column. *)
Definition medians (features : list FeatureRow) : list float :=
  match features with
  | [] => []
  | r :: _ =>
      map (fun j => Np.median (map (fun row => nth j row PrimFloat.nan)
                                   features))
          (seq 0 (List.length r))
  end.

(** [features.fillna(features.median())] *)
Definition fillna (features : list FeatureRow) (fill : list float)
  : list FeatureRow :=
  map (fun row => map (fun p => if Np.isnan (fst p) then snd p else fst p)
                      (combine row fill)) features.

Definition prepare_features_body (data : Pd.Frame Transaction)
  : PyResult (Pd.Frame FeatureRow) :=
  stamps <- Pd.to_datetime (Pd.column timestamp data) ;;
  let features :=
    map (fun p => numerical_features (fst p) (snd p))
        (combine (Pd.rows data) stamps) in
  let features := concat_encoded 10 (Pd.column category data) features in
  let features := concat_encoded 20 (Pd.column store_id data) features in
  let features :=
    concat_encoded 10 (Pd.column payment_method data) features in
  let features := replace_inf features in
  let features := fillna features (medians features) in
  Ok (combine (Pd.index data) features).

(** [_prepare_features]: any exception gives the empty DataFrame. *)
Definition _prepare_features (data : Pd.Frame Transaction)
  : Pd.Frame FeatureRow :=
  try_except (prepare_features_body data) (fun _ => []).

(** [np.where(labels == v)[0]] *)
Fixpoint where_eq (v : Z) (labels : list Z) (position : nat) : list nat :=
  match labels with
  | [] => []
  | x :: labels' =>
      if x =? v then position :: where_eq v labels' (S position)
      else where_eq v labels' (S position)
  end.

(** [array[positions]] *)
Definition take (scores : list float) (positions : list nat)
  : PyResult (list float) :=
  mapM (fun p => match nth_error scores p with
                 | Some s => Ok s
                 | None => Raise (IndexError "index out of bounds"%string)
                 end) positions.

Definition plain (score : float) (r : Z * Transaction)
  : Z * AnomalyRecord :=
  (fst r, {| txn := snd r; amount_zscore := None; quantity_zscore := None;
             hour := None; anomaly_score := score |}).

Definition score_of (r : Z * AnomalyRecord) : float := anomaly_score (snd r).

(** [abs((x - mean) / std)] *)
Definition zscore (mean std x : float) : float :=
  PrimFloat.abs (PrimFloat.div (PrimFloat.sub x mean) std).

(** [if not found.empty: anomalies_list.append(found.index)] *)
Definition append_index (anomalies_list : list (list Z)) (found : list Z)
  : list (list Z) :=
  match found with
  | [] => anomalies_list
  | _ => anomalies_list ++ [found]
  end.

(** The four rules of [_statistical_detection], each as the index of the
    rows it selects. *)
Definition amount_anomalies (data : Pd.Frame Transaction) : list Z :=
  let amounts := Pd.column total_amount data in
  let amount_mean := Np.mean amounts in
  let amount_std := Np.std amounts in
  if Np.gt amount_std 0%float
  then Pd.index (Pd.select data
         (map (fun x => Np.gt (zscore amount_mean amount_std x) 3%float)
              amounts))
  else [].

Definition iqr_anomalies (data : Pd.Frame Transaction) : list Z :=
  let amounts := Pd.column total_amount data in
  let Q1 := Np.quantile amounts 0.25%float in
  let Q3 := Np.quantile amounts 0.75%float in
  let IQR := PrimFloat.sub Q3 Q1 in
  if Np.gt IQR 0%float
  then
    let lower_bound := PrimFloat.sub Q1 (PrimFloat.mul 3%float IQR) in
    let upper_bound := PrimFloat.add Q3 (PrimFloat.mul 3%float IQR) in
    Pd.index (Pd.select data
      (map (fun x => Np.lt x lower_bound || Np.gt x upper_bound) amounts))
  else [].

Definition quantity_anomalies (data : Pd.Frame Transaction) : list Z :=
  let quantities := map Np.of_Z (Pd.column quantity data) in
  let quantity_mean := Np.mean quantities in
  let quantity_std := Np.std quantities in
  if Np.gt quantity_std 0%float
  then Pd.index (Pd.select data
         (map (fun x => Np.gt (zscore quantity_mean quantity_std x) 3%float)
              quantities))
  else [].

Definition time_anomalies (data : Pd.Frame Transaction) (stamps : list Z)
  : list Z :=
  Pd.index (Pd.select data
    (map (fun ns => (Pd.hour ns <? 6) || (Pd.hour ns >? 23)) stamps)).

(** A label is flagged when one of the four rules selects it. *)
Definition flagged (data : Pd.Frame Transaction) (stamps : list Z) (l : Z)
  : Prop :=
  In l (amount_anomalies data) \/ In l (iqr_anomalies data) \/
  In l (quantity_anomalies data) \/ In l (time_anomalies data stamps).

(** The copy of the table with the columns the method has added. *)
Definition with_columns (data : Pd.Frame Transaction) (stamps : list Z)
  : Pd.Frame AnomalyRecord :=
  let amounts := Pd.column total_amount data in
  let amount_mean := Np.mean amounts in
  let amount_std := Np.std amounts in
  let quantities := map Np.of_Z (Pd.column quantity data) in
  let quantity_mean := Np.mean quantities in
  let quantity_std := Np.std quantities in
  map (fun p =>
         let r := fst p in
         (fst r,
          {| txn := snd r;
             amount_zscore :=
               if Np.gt amount_std 0%float
               then Some (zscore amount_mean amount_std
                                 (total_amount (snd r)))
               else None;
             quantity_zscore :=
               if Np.gt quantity_std 0%float
               then Some (zscore quantity_mean quantity_std
                                 (Np.of_Z (quantity (snd r))))
               else None;
             hour := Some (Pd.hour (snd p));
             anomaly_score := PrimFloat.nan |}))
      (combine data stamps).

(** [anomalies['anomaly_score'] = anomalies['amount_zscore']] when the
    column exists, [1.0] otherwise. *)
Definition set_score (r : Z * AnomalyRecord) : Z * AnomalyRecord :=
  (fst r,
   {| txn := txn (snd r);
      amount_zscore := amount_zscore (snd r);
      quantity_zscore := quantity_zscore (snd r);
      hour := hour (snd r);
      anomaly_score := match amount_zscore (snd r) with
                       | Some z => z
                       | None => 1%float
                       end |}).

Definition statistical_body (data : Pd.Frame Transaction)
  : PyResult (Pd.Frame AnomalyRecord) :=
  let anomalies_list := [] in
  let anomalies_list := append_index anomalies_list (amount_anomalies data) in
  let anomalies_list := append_index anomalies_list (iqr_anomalies data) in
  let anomalies_list :=
    append_index anomalies_list (quantity_anomalies data) in
  stamps <- Pd.to_datetime (Pd.column timestamp data) ;;
  let anomalies_list :=
    append_index anomalies_list (time_anomalies data stamps) in
  match anomalies_list with
  | [] => Ok []
  | _ =>
      let all_anomaly_indices := Pd.set_of (List.concat anomalies_list) in
      anomalies <- Pd.loc (with_columns data stamps) all_anomaly_indices ;;
      Ok (Pd.sort_values_desc score_of (map set_score anomalies))
  end.

(** [_statistical_detection]: any exception gives the empty DataFrame. *)
Definition _statistical_detection (data : Pd.Frame Transaction)
  : Pd.Frame AnomalyRecord :=
  try_except (statistical_body data) (fun _ => []).

(** The fitted sklearn objects of [__init__].  [fit_predict] and
    [decision_function] belong to one IsolationForest; the second takes the
    data the forest was fitted on as well. *)
Section Models.

Variable scaler_fit_transform : list FeatureRow -> PyResult (list FeatureRow).
Variable fit_predict : list FeatureRow -> PyResult (list Z).
Variable decision_function :
  list FeatureRow -> list FeatureRow -> PyResult (list float).

Definition isolation_forest_body (data : Pd.Frame Transaction)
    (features_df : Pd.Frame FeatureRow) : PyResult (Pd.Frame AnomalyRecord) :=
  if (List.length features_df <? 10)%nat then Ok []
  else
    features_scaled <- scaler_fit_transform (Pd.rows features_df) ;;
    anomaly_labels <- fit_predict features_scaled ;;
    anomaly_scores <- decision_function features_scaled features_scaled ;;
    let anomaly_indices := where_eq (-1) anomaly_labels 0 in
    match anomaly_indices with
    | [] => Ok []
    | _ =>
        anomalies <- Pd.iloc data anomaly_indices ;;
        scores <- take anomaly_scores anomaly_indices ;;
        let anomalies :=
          map (fun p => plain (PrimFloat.abs (snd p)) (fst p))
              (combine anomalies scores) in
        Ok (Pd.sort_values_desc score_of anomalies)
    end.

(** [_isolation_forest_detection]: any exception gives the empty
    DataFrame. *)
Definition _isolation_forest_detection (data : Pd.Frame Transaction)
    (features_df : Pd.Frame FeatureRow) : Pd.Frame AnomalyRecord :=
  try_except (isolation_forest_body data features_df) (fun _ => []).

Definition method_error : PyExn :=
  ValueError
    "Method must be 'isolation_forest', 'statistical', or 'combined'"%string.

Definition detect_anomalies (data : Pd.Frame Transaction) (method : string)
  : PyResult (Pd.Frame AnomalyRecord) :=
  if Pd.empty data then Ok []
  else
    let features_df := _prepare_features data in
    if Pd.empty features_df then Ok []
    else if String.eqb method "isolation_forest"%string
    then Ok (_isolation_forest_detection data features_df)
    else if String.eqb method "statistical"%string
    then Ok (_statistical_detection data)
    else if String.eqb method "combined"%string
    then
      let iso_anomalies := _isolation_forest_detection data features_df in
      let stat_anomalies := _statistical_detection data in
      let combined_indices :=
        Pd.set_of (Pd.index iso_anomalies ++ Pd.index stat_anomalies) in
      anomalies <- Pd.loc data combined_indices ;;
      Ok (map (plain 0.8%float) anomalies)
    else Raise method_error.

(** The dict [get_anomaly_summary] returns; the two optional keys are
    missing from the dict built when nothing was found. *)
Record AnomalySummary : Type := {
  total_transactions : Z;
  anomalous_transactions : Z;
  anomaly_rate : float;
  total_anomalous_revenue : float;
  avg_anomaly_amount : float;
  max_anomaly_amount : option float;
  anomaly_categories : list (string * Z);
  anomaly_stores : list (string * Z);
  anomaly_hours : option (list (Z * Z))
}.

Definition no_anomalies (data : Pd.Frame Transaction) : AnomalySummary :=
  {| total_transactions := Z.of_nat (List.length data);
     anomalous_transactions := 0;
     anomaly_rate := 0%float;
     total_anomalous_revenue := 0%float;
     avg_anomaly_amount := 0%float;
     max_anomaly_amount := None;
     anomaly_categories := [];
     anomaly_stores := [];
     anomaly_hours := None |}.

(** [get_anomaly_summary]; [None] is the empty dict. *)
Definition get_anomaly_summary (data : Pd.Frame Transaction)
  : PyResult (option AnomalySummary) :=
  if Pd.empty data then Ok None
  else
    anomalies <- detect_anomalies data "combined" ;;
    if Pd.empty anomalies then Ok (Some (no_anomalies data))
    else
      let amounts := Pd.column (fun r => total_amount (txn r)) anomalies in
      hours <- Pd.dt_hour (Pd.column (fun r => timestamp (txn r)) anomalies) ;;
      Ok (Some
        {| total_transactions := Z.of_nat (List.length data);
           anomalous_transactions := Z.of_nat (List.length anomalies);
           anomaly_rate :=
             PrimFloat.mul
               (PrimFloat.div (Np.of_nat (List.length anomalies))
                              (Np.of_nat (List.length data)))
               100%float;
           total_anomalous_revenue := Np.sum (Np.notna amounts);
           avg_anomaly_amount := Np.mean amounts;
           max_anomaly_amount := Some (Np.max amounts);
           anomaly_categories :=
             Pd.value_counts string_dec
               (Pd.column (fun r => category (txn r)) anomalies);
           anomaly_stores :=
             Pd.value_counts string_dec
               (Pd.column (fun r => store_id (txn r)) anomalies);
           anomaly_hours := Some (Pd.value_counts Z.eq_dec hours) |}).

End Models.

(** *** [detect_real_time_anomalies] *)

(** A value found in the new transaction. *)
Inductive PyVal : Type :=
| PyFloat (x : float)
| PyStr (s : string)
| PyNone.

(** The new transaction: a [dict] or a pandas [Series]. *)
Inductive NewTransaction : Type :=
| Dict (items : list (string * PyVal))
| Series (items : list (string * PyVal)).

(** ['No historical data'] and [f'Error in detection: {str(e)}'] *)
Inductive Reason : Type :=
| NoHistoricalData
| ErrorInDetection (e : PyExn).

(** [f"Unusual amount (z-score: {z:.2f})"] and its two siblings. *)
Inductive Finding : Type :=
| UnusualAmount (z : float)
| UnusualQuantity (z : float)
| UnusualForCategory (z : float).

Record Scores : Type := {
  rt_anomaly_score : float;
  rt_reasons : list Finding;
  rt_amount_zscore : float;
  rt_quantity_zscore : float;
  rt_category_zscore : float
}.

(** The returned dict: ['is_anomaly'] always, then either ['reason'] or
    the score keys. *)
Record Verdict : Type := {
  is_anomaly : bool;
  reason : option Reason;
  scores : option Scores
}.

Definition lookup (key : string) (items : list (string * PyVal))
  : option PyVal :=
  match find (fun kv => String.eqb (fst kv) key) items with
  | Some kv => Some (snd kv)
  | None => None
  end.

(** [d.get(key, default)] *)
Definition dict_get (key : string) (default : PyVal)
    (items : list (string * PyVal)) : PyVal :=
  match lookup key items with
  | Some v => v
  | None => default
  end.

(** [series[key]] *)
Definition getitem (key : string) (items : list (string * PyVal))
  : PyResult PyVal :=
  match lookup key items with
  | Some v => Ok v
  | None => Raise (KeyError key)
  end.

(** The left operand of [value - mean]. *)
Definition as_number (v : PyVal) : PyResult float :=
  match v with
  | PyFloat x => Ok x
  | PyStr _ =>
      Raise (TypeError "unsupported operand type(s) for -: 'str'"%string)
  | PyNone =>
      Raise (TypeError "unsupported operand type(s) for -: 'NoneType'"%string)
  end.

(** A value the subtraction accepts. *)
Definition numeric (v : PyVal) : Prop := exists x, v = PyFloat x.

(** [abs((value - mean) / std) if std > 0 else 0] *)
Definition zscore_or_zero (value : PyVal) (history : list float)
  : PyResult float :=
  let mean := Np.mean history in
  let std := Np.std history in
  if Np.gt std 0%float
  then x <- as_number value ;; Ok (zscore mean std x)
  else Ok 0%float.

(** [historical_data['category'] == category], cell by cell. *)
Definition category_is (category : PyVal) (cell : string) : bool :=
  match category with
  | PyStr s => String.eqb cell s
  | _ => false
  end.

(** Python's [max(a, b, c)]: a later item wins only when strictly
    greater. *)
Definition max3 (a b c : float) : float :=
  let m := if Np.gt b a then b else a in
  if Np.gt c m then c else m.

Definition real_time_body (new_transaction : NewTransaction)
    (historical_data : Pd.Frame Transaction) (threshold_std : float)
  : PyResult Verdict :=
  fields <- match new_transaction with
            | Dict items =>
                Ok (dict_get "total_amount" (PyFloat 0) items,
                    dict_get "quantity" (PyFloat 0) items,
                    dict_get "category" (PyStr EmptyString) items)
            | Series items =>
                amount <- getitem "total_amount" items ;;
                quantity <- getitem "quantity" items ;;
                category <- getitem "category" items ;;
                Ok (amount, quantity, category)
            end ;;
  let amount := fst (fst fields) in
  let quantity_ := snd (fst fields) in
  let category_ := snd fields in
  amount_z <-
    zscore_or_zero amount (Pd.column total_amount historical_data) ;;
  quantity_z <-
    zscore_or_zero quantity_
      (map Np.of_Z (Pd.column quantity historical_data)) ;;
  let category_data :=
    Pd.select historical_data
      (map (category_is category_) (Pd.column category historical_data)) in
  category <-
    (if Pd.empty category_data then Ok (0%float, false)
     else
       z <- zscore_or_zero amount (Pd.column total_amount category_data) ;;
       Ok (z, Np.gt z threshold_std)) ;;
  let category_z := fst category in
  let category_anomaly := snd category in
  let reasons :=
    (if Np.gt amount_z threshold_std then [UnusualAmount amount_z] else [])
    ++ (if Np.gt quantity_z threshold_std
        then [UnusualQuantity quantity_z] else [])
    ++ (if category_anomaly then [UnusualForCategory category_z] else []) in
  Ok {| is_anomaly := Np.gt amount_z threshold_std
                      || Np.gt quantity_z threshold_std
                      || category_anomaly;
        reason := None;
        scores := Some {| rt_anomaly_score :=
                            max3 amount_z quantity_z category_z;
                          rt_reasons := reasons;
                          rt_amount_zscore := amount_z;
                          rt_quantity_zscore := quantity_z;
                          rt_category_zscore := category_z |} |}.

Definition detect_real_time_anomalies (new_transaction : NewTransaction)
    (historical_data : Pd.Frame Transaction) (threshold_std : float)
  : PyResult Verdict :=
  if Pd.empty historical_data
  then Ok {| is_anomaly := false; reason := Some NoHistoricalData;
             scores := None |}
  else
    Ok (try_except
          (real_time_body new_transaction historical_data threshold_std)
          (fun e => {| is_anomaly := false;
                       reason := Some (ErrorInDetection e);
                       scores := None |})).

End AnomalyDetector.

(** ** [class CustomerSegmentation] *)

Module CustomerSegmentation.

(** A row of the RFM table, before the quantile scores are added. *)
Record RfmBase : Type := {
  base_customer_id : string;
  base_recency : Z;
  base_frequency : Z;
  base_monetary : float
}.

(** A row of the table [calculate_rfm_metrics] returns. *)
Record RfmRecord : Type := {
  rfm_customer_id : string;
  recency : Z;
  frequency : Z;
  monetary : float;
  recency_score : option Z;
  frequency_score : option Z;
  monetary_score : option Z;
  rfm_score : string
}.

(** [x.max()] on a column of datetimes. *)
Definition latest (stamps : list Z) : Z :=
  match stamps with
  | [] => 0
  | s :: rest => fold_left Z.max rest s
  end.

(** The transactions of one customer, each with its parsed timestamp. *)
Definition group_of (customer : string)
    (stamped : list (Transaction * Z)) : list (Transaction * Z) :=
  filter (fun p => String.eqb (customer_id (fst p)) customer) stamped.

(** [data.groupby('customer_id').agg({...}).round(2)] and [reset_index]:
    one row per customer, customers in sorted order. *)
Definition rfm_aggregate (data : Pd.Frame Transaction) (stamps : list Z)
  : list RfmBase :=
  let current_date := latest stamps in
  let stamped := combine (Pd.rows data) stamps in
  map (fun customer =>
         let x := group_of customer stamped in
         {| base_customer_id := customer;
            base_recency := Pd.days (current_date - latest (map snd x));
            base_frequency := Z.of_nat (List.length x);
            base_monetary :=
              Np.round2
                (Np.sum (Np.notna (map (fun p => total_amount (fst p)) x)))
         |})
      (Pd.sorted_unique (Pd.column customer_id data)).

(** [astype(str)] on a score. *)
Definition str_of_score (score : option Z) : string :=
  match score with
  | Some z => NilZero.string_of_int (Z.to_int z)
  | None => "nan"%string
  end.

Definition with_scores (b : RfmBase) (r f m : option Z) : RfmRecord :=
  {| rfm_customer_id := base_customer_id b;
     recency := base_recency b;
     frequency := base_frequency b;
     monetary := base_monetary b;
     recency_score := r;
     frequency_score := f;
     monetary_score := m;
     rfm_score :=
       String.append (str_of_score r)
         (String.append (str_of_score f) (str_of_score m)) |}.

Definition calculate_rfm_metrics (data : Pd.Frame Transaction)
  : PyResult (list RfmRecord) :=
  if Pd.empty data then Ok []
  else
    stamps <- Pd.to_datetime (Pd.column timestamp data) ;;
    let rfm := rfm_aggregate data stamps in
    recency_scores <-
      Pd.qcut (map (fun b => Np.of_Z (base_recency b)) rfm) 5
              [5; 4; 3; 2; 1] ;;
    frequency_scores <-
      Pd.qcut (Pd.rank_first (map base_frequency rfm)) 5 [1; 2; 3; 4; 5] ;;
    monetary_scores <-
      Pd.qcut (map base_monetary rfm) 5 [1; 2; 3; 4; 5] ;;
    Ok (map (fun p => with_scores (fst (fst (fst p))) (snd (fst (fst p)))
                                  (snd (fst p)) (snd p))
            (combine (combine (combine rfm recency_scores) frequency_scores)
                     monetary_scores)).

(** A row of [cluster_summary]. *)
Record ClusterSummary : Type := {
  cluster : Z;
  mean_recency : float;
  mean_frequency : float;
  mean_monetary : float;
  customers : Z
}.

(** [_assign_segment_names]: the name of each cluster of the summary. *)
Definition segment_name_of (summary : list ClusterSummary)
    (c : ClusterSummary) : string :=
  let frequency_median := Np.median (map mean_frequency summary) in
  let monetary_median := Np.median (map mean_monetary summary) in
  let recency_median := Np.median (map mean_recency summary) in
  let recent := Np.le (mean_recency c) recency_median in
  if Np.ge (mean_frequency c) frequency_median
     && Np.ge (mean_monetary c) monetary_median
  then if recent then "Champions"%string else "Loyal Customers"%string
  else if Np.ge (mean_frequency c) frequency_median
  then if recent then "Potential Loyalists"%string else "At Risk"%string
  else if Np.ge (mean_monetary c) monetary_median
  then if recent then "New Customers"%string else "Hibernating"%string
  else if recent then "Promising"%string else "Lost Customers"%string.

(** The eight names [_assign_segment_names] chooses from. *)
Definition segment_labels : list string :=
  ["Champions"; "Loyal Customers"; "Potential Loyalists"; "At Risk";
   "New Customers"; "Hibernating"; "Promising"; "Lost Customers"]%string.

Definition _assign_segment_names (summary : list ClusterSummary)
  : list (Z * string) :=
  map (fun c => (cluster c, segment_name_of summary c)) summary.

(** A row of the segmented RFM table. *)
Record Segmented : Type := {
  rfm : RfmRecord;
  cluster_label : Z;
  segment_name : option string
}.

(** [rfm.groupby('cluster').agg({...}).round(2)] *)
Definition cluster_summary_of (labelled : list (RfmRecord * Z))
  : list ClusterSummary :=
  map (fun c =>
         let members :=
           map fst (filter (fun p => snd p =? c) labelled) in
         {| cluster := c;
            mean_recency :=
              Np.round2 (Np.mean (map (fun r => Np.of_Z (recency r)) members));
            mean_frequency :=
              Np.round2
                (Np.mean (map (fun r => Np.of_Z (frequency r)) members));
            mean_monetary := Np.round2 (Np.mean (map monetary members));
            customers := Z.of_nat (List.length members) |})
      (Pd.sorted_unique_labels (map snd labelled)).

(** [series.map(dict)] *)
Definition map_name (names : list (Z * string)) (c : Z) : option string :=
  match find (fun p => fst p =? c) names with
  | Some p => Some (snd p)
  | None => None
  end.

Record SegmentStats : Type := {
  customer_count : Z;
  avg_recency : float;
  avg_frequency : float;
  avg_monetary : float;
  total_revenue : float;
  avg_transaction_value : float;
  preferred_categories : list (string * float);
  popular_shopping_hours : list Z;
  total_transactions : Z
}.

(** [unique()] of a column of names, first occurrences in order. *)
Fixpoint unique_names (l : list string) : list string :=
  match l with
  | [] => []
  | x :: l' => x :: filter (fun y => negb (String.eqb y x)) (unique_names l')
  end.

(** [groupby('category')['total_amount'].sum().sort_values(ascending=False)];
    pandas leaves the order of equal sums open, this sort keeps it. *)
Definition category_prefs (segment_data : Pd.Frame Transaction)
  : list (string * float) :=
  Pd.sort_values_desc snd
    (map (fun c =>
            (c, Np.sum (Np.notna
                  (Pd.column total_amount
                     (filter (fun r => String.eqb (category (snd r)) c)
                             segment_data)))))
         (Pd.sorted_unique (Pd.column category segment_data))).

(** [value_counts()] of the hours, most frequent first. *)
Definition hour_counts (hours : list Z) : list (Z * float) :=
  Pd.sort_values_desc snd
    (map (fun h => (h, Np.of_nat (List.length
                                    (filter (fun k => k =? h) hours))))
         (nodup Z.eq_dec hours)).

(** Whether a transaction belongs to a customer of the segment:
    [original_data['customer_id'].isin(segment_customers)]. *)
Definition in_segment (segmented : list Segmented) (segment : string)
    (r : Z * Transaction) : bool :=
  existsb (String.eqb (customer_id (snd r)))
    (map (fun s => rfm_customer_id (rfm s))
         (filter (fun s => match segment_name s with
                           | Some n => String.eqb n segment
                           | None => false
                           end) segmented)).

Definition segment_stats_of (segmented : list Segmented)
    (original_data : Pd.Frame Transaction) (segment : string)
  : PyResult (option SegmentStats) :=
  let members :=
    filter (fun s => match segment_name s with
                     | Some n => String.eqb n segment
                     | None => false
                     end) segmented in
  let segment_customers := map (fun s => rfm_customer_id (rfm s)) members in
  let segment_data :=
    filter (fun r => existsb (String.eqb (customer_id (snd r)))
                             segment_customers) original_data in
  if Pd.empty segment_data then Ok None
  else
    stamps <- Pd.to_datetime (Pd.column timestamp segment_data) ;;
    Ok (Some
      {| customer_count := Z.of_nat (List.length segment_customers);
         avg_recency :=
           Np.mean (map (fun s => Np.of_Z (recency (rfm s))) members);
         avg_frequency :=
           Np.mean (map (fun s => Np.of_Z (frequency (rfm s))) members);
         avg_monetary := Np.mean (map (fun s => monetary (rfm s)) members);
         total_revenue :=
           Np.sum (Np.notna (Pd.column total_amount segment_data));
         avg_transaction_value :=
           Np.mean (Pd.column total_amount segment_data);
         preferred_categories := firstn 3 (category_prefs segment_data);
         popular_shopping_hours :=
           map fst (firstn 3 (hour_counts (map Pd.hour stamps)));
         total_transactions := Z.of_nat (List.length segment_data) |}).

(** [_calculate_segment_stats] *)
Definition _calculate_segment_stats (segmented : list Segmented)
    (original_data : Pd.Frame Transaction)
  : PyResult (list (string * SegmentStats)) :=
  if Pd.empty original_data then Ok []
  else
    found <-
      mapM (fun segment =>
              stats <- segment_stats_of segmented original_data segment ;;
              Ok (match stats with
                  | Some st => [(segment, st)]
                  | None => []
                  end))
           (unique_names
              (flat_map (fun s => match segment_name s with
                                  | Some n => [n]
                                  | None => []
                                  end) segmented)) ;;
    Ok (List.concat found).

Section Models.

Variable scaler_fit_transform : list (list float) -> PyResult (list (list float)).
Variable kmeans_fit_predict :
  nat -> list (list float) -> PyResult (list Z).

(** The per-cluster names of a run: [cluster_summary] and
    [_assign_segment_names] as [segment_customers] reaches them. *)
Definition segment_names_of_run (rfm_table : list RfmRecord)
    (cluster_labels : list Z) : list (Z * string) :=
  _assign_segment_names
    (cluster_summary_of (combine rfm_table cluster_labels)).

Definition length_error : PyExn :=
  ValueError "Length of values does not match length of index"%string.

Definition segment_customers (data : Pd.Frame Transaction) (n_clusters : nat)
  : PyResult (list Segmented * list (string * SegmentStats)) :=
  if Pd.empty data then Ok ([], [])
  else
    rfm_table <- calculate_rfm_metrics data ;;
    match rfm_table with
    | [] => Ok ([], [])
    | _ =>
        if (List.length rfm_table <? n_clusters)%nat then Ok ([], [])
        else
          let features :=
            map (fun r => [Np.of_Z (recency r); Np.of_Z (frequency r);
                           if Np.isnan (monetary r) then 0%float
                           else monetary r]) rfm_table in
          features_scaled <- scaler_fit_transform features ;;
          cluster_labels <- kmeans_fit_predict n_clusters features_scaled ;;
          if negb (List.length cluster_labels =? List.length rfm_table)%nat
          then Raise length_error
          else
            let segment_names :=
              segment_names_of_run rfm_table cluster_labels in
            let segmented :=
              map (fun p => {| rfm := fst p; cluster_label := snd p;
                               segment_name := map_name segment_names (snd p)
                            |})
                  (combine rfm_table cluster_labels) in
            segment_stats <- _calculate_segment_stats segmented data ;;
            Ok (segmented, segment_stats)
    end.

End Models.

(** *** [get_customer_lifetime_value] *)

(** A row of the CLV table. *)
Record ClvRecord : Type := {
  clv_customer_id : string;
  total_spent : float;
  avg_order_value : float;
  clv_frequency : Z;
  first_purchase : Z;
  last_purchase : Z;
  lifespan_days : Z;
  purchase_frequency : float;
  predicted_clv : float;
  clv_quartile : option string
}.

(** The rows of the table before the quartile is added and the floats are
    rounded.  [frequency] counts the amounts that are present;
    [fillna(1)] finds nothing to fill, every customer has a first and a
    last purchase. *)
Definition clv_aggregate (data : Pd.Frame Transaction) (stamps : list Z)
  : list ClvRecord :=
  let stamped := combine (Pd.rows data) stamps in
  map (fun customer =>
         let x := group_of customer stamped in
         let amounts := map (fun p => total_amount (fst p)) x in
         let count := Z.of_nat (List.length (Np.notna amounts)) in
         let first := Pd.earliest (map snd x) in
         let last := latest (map snd x) in
         let lifespan := Pd.days (last - first) in
         let per_day :=
           PrimFloat.div (Np.of_Z count) (Np.of_Z (lifespan + 1)) in
         {| clv_customer_id := customer;
            total_spent := Np.sum (Np.notna amounts);
            avg_order_value := Np.mean amounts;
            clv_frequency := count;
            first_purchase := first;
            last_purchase := last;
            lifespan_days := lifespan;
            purchase_frequency := per_day;
            predicted_clv :=
              PrimFloat.mul (PrimFloat.mul (Np.mean amounts) per_day)
                            365%float;
            clv_quartile := None |})
      (Pd.sorted_unique (Pd.column customer_id data)).

Definition quartile_names : list string :=
  ["Low"; "Medium"; "High"; "Premium"]%string.

(** The quartile column and the final [round(2)]. *)
Definition clv_finish (r : ClvRecord) (code : option Z) : ClvRecord :=
  {| clv_customer_id := clv_customer_id r;
     total_spent := Np.round2 (total_spent r);
     avg_order_value := Np.round2 (avg_order_value r);
     clv_frequency := clv_frequency r;
     first_purchase := first_purchase r;
     last_purchase := last_purchase r;
     lifespan_days := lifespan_days r;
     purchase_frequency := Np.round2 (purchase_frequency r);
     predicted_clv := Np.round2 (predicted_clv r);
     clv_quartile :=
       match code with
       | Some k => nth_error quartile_names (Z.to_nat k)
       | None => None
       end |}.

(** [get_customer_lifetime_value].  The four labels go through [qcut] as
    their positions 0 to 3. *)
Definition get_customer_lifetime_value (data : Pd.Frame Transaction)
  : PyResult (list ClvRecord) :=
  if Pd.empty data then Ok []
  else
    stamps <- Pd.to_datetime (Pd.column timestamp data) ;;
    let clv_data := clv_aggregate data stamps in
    codes <- Pd.qcut (map predicted_clv clv_data) 4 [0; 1; 2; 3] ;;
    Ok (map (fun p => clv_finish (fst p) (snd p)) (combine clv_data codes)).

(** *** [analyze_customer_journey] *)

Record JourneyStats : Type := {
  new_customers : Z;
  returning_customers : Z;
  retention_rate : float;
  cross_sell_rate : float;
  avg_categories_per_customer : float;
  popular_first_categories : list (string * Z)
}.

(** Whether row [p] comes before row [q] in
    [sort_values(['customer_id', 'timestamp'])]. *)
Definition journey_before (p q : Transaction * Z) : bool :=
  match String.compare (customer_id (fst p)) (customer_id (fst q)) with
  | Lt => true
  | Eq => snd p <? snd q
  | Gt => false
  end.

Fixpoint journey_insert (p : Transaction * Z) (l : list (Transaction * Z))
  : list (Transaction * Z) :=
  match l with
  | [] => [p]
  | q :: l' => if journey_before q p then q :: journey_insert p l'
               else p :: l
  end.

(** [sort_values(['customer_id', 'timestamp'])], stable. *)
Definition journey_sort (l : list (Transaction * Z))
  : list (Transaction * Z) :=
  fold_right journey_insert [] l.

(** [x['timestamp'] == first_purchases[x['customer_id']]] *)
Definition is_first_purchase (stamped : list (Transaction * Z))
    (p : Transaction * Z) : bool :=
  snd p =? Pd.earliest (map snd (group_of (customer_id (fst p)) stamped)).

Definition analyze_customer_journey (data : Pd.Frame Transaction)
  : PyResult (option JourneyStats) :=
  if Pd.empty data then Ok None
  else
    stamps <- Pd.to_datetime (Pd.column timestamp data) ;;
    let data_copy := journey_sort (combine (Pd.rows data) stamps) in
    let first := filter (is_first_purchase data_copy) data_copy in
    let later :=
      filter (fun p => negb (is_first_purchase data_copy p)) data_copy in
    let new := Pd.nunique (map (fun p => customer_id (fst p)) first) in
    let returning := Pd.nunique (map (fun p => customer_id (fst p)) later) in
    let customers_multi_category :=
      map (fun customer =>
             Pd.nunique (map (fun p => category (fst p))
                             (group_of customer data_copy)))
          (Pd.sorted_unique (map (fun p => customer_id (fst p)) data_copy)) in
    Ok (Some
      {| new_customers := new;
         returning_customers := returning;
         retention_rate :=
           if new + returning >? 0
           then PrimFloat.div (Np.of_Z returning) (Np.of_Z (new + returning))
           else 0%float;
         cross_sell_rate :=
           Np.mean (map (fun k => if k >? 1 then 1%float else 0%float)
                        customers_multi_category);
         avg_categories_per_customer :=
           Np.mean (map Np.of_Z customers_multi_category);
         popular_first_categories :=
           firstn 5 (Pd.value_counts string_dec
                       (map (fun p => category (fst p)) first)) |}).

(** *** [get_churn_risk_analysis] *)




End CustomerSegmentation.

(** ** Sample tables *)

Module Examples.

Definition at_hour (h : Z) : Pd.RawTimestamp :=
  Pd.Timestamp (h * Pd.ns_per_hour).

Definition sale (id : string) (time : Pd.RawTimestamp) (customer : string)
    (price : float) (count : Z) : Transaction :=
  {| transaction_id := id;
     timestamp := time;
     store_id := "STORE_001"%string;
     product_name := "Coffee Beans"%string;
     category := "Food"%string;
     unit_price := price;
     quantity := count;
     subtotal := PrimFloat.mul price (Np.of_Z count);
     tax_amount := 0%float;
     total_amount := PrimFloat.mul price (Np.of_Z count);
     payment_method := "Cash"%string;
     customer_id := customer |}.

(** Two sales of the same amount, the first at three in the morning. *)
Definition night_table : Pd.Frame Transaction :=
  [ (0, sale "TXN_0" (at_hour 3) "CUST_1001" 20%float 1);
    (1, sale "TXN_1" (at_hour 12) "CUST_1002" 20%float 1) ].

(** Amounts 1, 2 and 3; the middle sale at three in the morning. *)
Definition three_amounts : Pd.Frame Transaction :=
  [ (0, sale "TXN_0" (at_hour 12) "CUST_1001" 1%float 1);
    (1, sale "TXN_1" (at_hour 3) "CUST_1002" 2%float 1);
    (2, sale "TXN_2" (at_hour 12) "CUST_1003" 3%float 1) ].

(** Eleven sales of 20 at noon and one of 1000, under label 7. *)
Definition outlier_table : Pd.Frame Transaction :=
  map (fun i => (i, sale "TXN" (at_hour 12) "CUST_1001"
                         (if i =? 7 then 1000%float else 20%float) 1))
      [0; 1; 2; 3; 4; 5; 6; 7; 8; 9; 10; 11].

(** A table whose only timestamp does not parse. *)
Definition unparseable_table : Pd.Frame Transaction :=
  [ (0, sale "TXN_0" (Pd.Unparseable "yesterday") "CUST_1001" 20%float 1) ].

(** One customer, one sale. *)
Definition single_sale : Pd.Frame Transaction :=
  [ (0, sale "TXN_0" (at_hour 12) "CUST_1001" 20%float 1) ].

(** Two customers buying at the same moment. *)
Definition two_customers : Pd.Frame Transaction :=
  [ (0, sale "TXN_0" (at_hour 12) "CUST_1001" 10%float 1);
    (1, sale "TXN_1" (at_hour 12) "CUST_1002" 1000%float 1) ].

(** The example of the specification: four sales of 10 by one customer and
    four of 1000 by another, all on one day. *)
Definition same_day : Pd.Frame Transaction :=
  [ (0, sale "TXN_0" (at_hour 9) "CUST_A" 10%float 1);
    (1, sale "TXN_1" (at_hour 10) "CUST_A" 10%float 1);
    (2, sale "TXN_2" (at_hour 11) "CUST_A" 10%float 1);
    (3, sale "TXN_3" (at_hour 12) "CUST_A" 10%float 1);
    (4, sale "TXN_4" (at_hour 13) "CUST_B" 1000%float 1);
    (5, sale "TXN_5" (at_hour 14) "CUST_B" 1000%float 1);
    (6, sale "TXN_6" (at_hour 15) "CUST_B" 1000%float 1);
    (7, sale "TXN_7" (at_hour 16) "CUST_B" 1000%float 1) ].

(** Six customers, one sale a day, the last customer buying twice. *)
Definition six_days : Pd.Frame Transaction :=
  [ (0, sale "TXN_0" (at_hour 12) "CUST_1" 10%float 1);
    (1, sale "TXN_1" (at_hour 36) "CUST_2" 20%float 1);
    (2, sale "TXN_2" (at_hour 60) "CUST_3" 30%float 1);
    (3, sale "TXN_3" (at_hour 84) "CUST_4" 40%float 1);
    (4, sale "TXN_4" (at_hour 108) "CUST_5" 50%float 1);
    (5, sale "TXN_5" (at_hour 132) "CUST_6" 60%float 1);
    (6, sale "TXN_6" (at_hour 133) "CUST_6" 60%float 1) ].

(** A result row to fall back on when a result is empty. *)
Definition blank : Z * AnomalyDetector.AnomalyRecord :=
  AnomalyDetector.plain 0%float
    (0, sale "TXN_0" (at_hour 12) "CUST_1001" 20%float 1).

(** Stand-ins for the sklearn models: a scaler that leaves the features
    as they are, a forest that marks the row at position 3 and gives every
    row the decision value -0.25, a clustering that puts every third row
    in cluster 1. *)
Definition scaler (x : list (list float)) : PyResult (list (list float)) :=
  Ok x.

Definition forest (x : list (list float)) : PyResult (list Z) :=
  Ok (map (fun i => if (i =? 3)%nat then -1 else 1)
          (seq 0 (List.length x))).

Definition decision (fitted x : list (list float)) : PyResult (list float) :=
  Ok (map (fun _ => (-0.25)%float) x).

Definition kmeans (k : nat) (x : list (list float)) : PyResult (list Z) :=
  Ok (map (fun i => Z.of_nat (i mod k)) (seq 0 (List.length x))).

End Examples.

(** * Facts about the embedding *)

(** ** The error monad and the pandas operations *)

Module PdFacts.

Lemma mapM_length {A B : Type} (f : A -> PyResult B) (l : list A)
    (r : list B) :
  mapM f l = Ok r -> List.length r = List.length l.
Proof.
  revert r; induction l as [| a l IH]; intros r H; simpl in H.
  - injection H as <-. reflexivity.
  - destruct (f a) as [b | e]; simpl in H; [| discriminate].
    destruct (mapM f l) as [bs | e]; simpl in H; [| discriminate].
    injection H as <-. simpl. f_equal. apply IH. reflexivity.
Qed.

Lemma mapM_ok {A B : Type} (f : A -> PyResult B) (g : A -> B) (l : list A) :
  (forall a, In a l -> f a = Ok (g a)) -> mapM f l = Ok (map g l).
Proof.
  induction l as [| a l IH]; intros H; simpl; [reflexivity |].
  rewrite (H a (or_introl eq_refl)); simpl.
  rewrite IH; [reflexivity |].
  intros b Hb. apply H. right. exact Hb.
Qed.

Lemma mapM_In {A B : Type} (f : A -> PyResult B) (l : list A) (r : list B) :
  mapM f l = Ok r ->
  forall b, In b r -> exists a, In a l /\ f a = Ok b.
Proof.
  revert r; induction l as [| a l IH]; intros r H b Hb; simpl in H.
  - injection H as <-. destruct Hb.
  - destruct (f a) as [b0 | e] eqn:Ea; simpl in H; [| discriminate].
    destruct (mapM f l) as [bs | e]; simpl in H; [| discriminate].
    injection H as <-. destruct Hb as [<- | Hb].
    + exists a. split; [left; reflexivity | exact Ea].
    + destruct (IH bs eq_refl b Hb) as [a' [Ha' Hf]].
      exists a'. split; [right; exact Ha' | exact Hf].
Qed.

Lemma map_fst_combine {A B : Type} (a : list A) (b : list B) :
  List.length a = List.length b -> map fst (combine a b) = a.
Proof.
  revert b; induction a as [| x a IH]; intros [| y b] H; simpl in *;
    try discriminate; [reflexivity |].
  f_equal. apply IH. congruence.
Qed.

Lemma to_datetime_length (col : list Pd.RawTimestamp) (stamps : list Z) :
  Pd.to_datetime col = Ok stamps -> List.length stamps = List.length col.
Proof. apply mapM_length. Qed.

Lemma index_length {R : Type} (df : Pd.Frame R) :
  List.length (Pd.index df) = List.length df.
Proof. apply length_map. Qed.

Lemma column_length {R A : Type} (f : R -> A) (df : Pd.Frame R) :
  List.length (Pd.column f df) = List.length df.
Proof. apply length_map. Qed.

(** Boolean indexing keeps exactly the rows whose mask entry is set. *)
Lemma select_In {R : Type} (df : Pd.Frame R) (mask : list bool) (r : Z * R) :
  In r (Pd.select df mask) <-> In (r, true) (combine df mask).
Proof.
  revert mask; induction df as [| x df IH]; intros mask; simpl.
  - tauto.
  - destruct mask as [| b mask]; simpl; [tauto |].
    destruct b; simpl; rewrite IH; split.
    + intros [-> | H]; [left; reflexivity | right; exact H].
    + intros [H | H]; [left; congruence | right; exact H].
    + intros H; right; exact H.
    + intros [H | H]; [discriminate | exact H].
Qed.

Lemma select_subset {R : Type} (df : Pd.Frame R) (mask : list bool)
    (r : Z * R) :
  In r (Pd.select df mask) -> In r df.
Proof.
  rewrite select_In. intros H. apply in_combine_l in H. exact H.
Qed.

(** A mask computed row by row from the table itself is a filter. *)
Lemma select_map {R : Type} (p : R -> bool) (df : Pd.Frame R) :
  Pd.select df (map (fun r => p (snd r)) df)
  = filter (fun r => p (snd r)) df.
Proof.
  induction df as [| x df IH]; simpl; [reflexivity |].
  destruct (p (snd x)); rewrite IH; reflexivity.
Qed.

Lemma in_index {R : Type} (df : Pd.Frame R) (l : Z) :
  In l (Pd.index df) <-> exists r, In (l, r) df.
Proof.
  unfold Pd.index. rewrite in_map_iff. split.
  - intros [[l' r] [E H]]. simpl in E. subst l'. exists r. exact H.
  - intros [r H]. exists (l, r). split; [reflexivity | exact H].
Qed.

Lemma loc_label_ok {R : Type} (df : Pd.Frame R) (l : Z) :
  In l (Pd.index df) ->
  Pd.loc_label df l = Ok (filter (fun r => fst r =? l) df).
Proof.
  intros H. apply in_index in H. destruct H as [r H].
  unfold Pd.loc_label.
  destruct (filter (fun r0 => fst r0 =? l) df) as [| y ys] eqn:E.
  - assert (In (l, r) []) as F; [| destruct F].
    rewrite <- E. apply filter_In. split; [exact H |].
    simpl. apply Z.eqb_refl.
  - reflexivity.
Qed.

(** [loc] succeeds when every label is in the index, and then returns the
    rows of the frame that carry one of the labels. *)
Lemma loc_ok {R : Type} (df : Pd.Frame R) (labels : list Z) :
  (forall l, In l labels -> In l (Pd.index df)) ->
  exists found,
    Pd.loc df labels = Ok found /\
    forall r, In r found <-> In r df /\ In (fst r) labels.
Proof.
  intros H. unfold Pd.loc.
  rewrite (mapM_ok _ (fun l => filter (fun r => fst r =? l) df)).
  - simpl. eexists. split; [reflexivity |].
    intros r. rewrite in_concat. split.
    + intros [rows [Hrows Hr]]. apply in_map_iff in Hrows.
      destruct Hrows as [l [<- Hl]]. apply filter_In in Hr.
      destruct Hr as [Hr E]. apply Z.eqb_eq in E. subst l. tauto.
    + intros [Hr Hl]. exists (filter (fun r0 => fst r0 =? fst r) df).
      split.
      * apply in_map_iff. exists (fst r). tauto.
      * apply filter_In. split; [exact Hr | apply Z.eqb_refl].
  - intros l Hl. apply loc_label_ok. apply H. exact Hl.
Qed.

Lemma iloc_subset {R : Type} (df : Pd.Frame R) (positions : list nat)
    (found : Pd.Frame R) :
  Pd.iloc df positions = Ok found -> forall r, In r found -> In r df.
Proof.
  intros H r Hr. unfold Pd.iloc in H.
  destruct (mapM_In _ _ _ H r Hr) as [p [_ Hp]].
  destruct (nth_error df p) as [x |] eqn:E; [| discriminate].
  injection Hp as ->. apply nth_error_In in E. exact E.
Qed.

Lemma insert_desc_In {A : Type} (key : A -> float) (x y : A) (l : list A) :
  In y (Pd.insert_desc key x l) <-> y = x \/ In y l.
Proof.
  induction l as [| z l IH]; simpl.
  - split; intros [H | H]; auto.
  - destruct (Np.isnan (key x)); [simpl; rewrite IH; intuition auto |].
    destruct (Np.isnan (key z)); [simpl; intuition auto |].
    destruct (Np.lt (key x) (key z)); simpl; [rewrite IH |]; intuition auto.
Qed.

(** Sorting moves rows, it neither drops nor invents one. *)
Lemma sort_values_desc_In {A : Type} (key : A -> float) (y : A)
    (l : list A) :
  In y (Pd.sort_values_desc key l) <-> In y l.
Proof.
  induction l as [| x l IH]; simpl; [tauto |].
  unfold Pd.sort_values_desc in *. simpl.
  rewrite insert_desc_In, IH. intuition auto.
Qed.

Lemma set_of_In (labels : list Z) (l : Z) :
  In l (Pd.set_of labels) <-> In l labels.
Proof. apply nodup_In. Qed.

Lemma insert_string_In (s t : string) (l : list string) :
  In t (Pd.insert_string s l) <-> t = s \/ In t l.
Proof.
  induction l as [| u l IH]; simpl.
  - intuition auto.
  - destruct (String.compare s u) eqn:E; simpl.
    + apply String.compare_eq_iff in E. subst u. intuition auto.
    + intuition auto.
    + rewrite IH. intuition auto.
Qed.

Lemma sorted_unique_In (col : list string) (t : string) :
  In t (Pd.sorted_unique col) <-> In t col.
Proof.
  induction col as [| s col IH]; simpl; [tauto |].
  unfold Pd.sorted_unique in *. simpl.
  rewrite insert_string_In, IH. intuition auto.
Qed.

End PdFacts.

(** ** The statistical method *)

Module StatisticalFacts.

Import AnomalyDetector.

Lemma concat_append_index (acc : list (list Z)) (found : list Z) (l : Z) :
  In l (List.concat (append_index acc found))
  <-> In l (List.concat acc) \/ In l found.
Proof.
  unfold append_index. destruct found as [| x found].
  - simpl. tauto.
  - rewrite concat_app, in_app_iff. simpl. rewrite app_nil_r. tauto.
Qed.

(** The labels a rule selects are labels of the table. *)
Lemma amount_anomalies_index (data : Pd.Frame Transaction) (l : Z) :
  In l (amount_anomalies data) -> In l (Pd.index data).
Proof.
  unfold amount_anomalies.
  destruct (Np.gt _ _); [| intros []].
  intros H. apply PdFacts.in_index in H. destruct H as [r H].
  apply PdFacts.select_subset in H. apply PdFacts.in_index. eauto.
Qed.

Lemma iqr_anomalies_index (data : Pd.Frame Transaction) (l : Z) :
  In l (iqr_anomalies data) -> In l (Pd.index data).
Proof.
  unfold iqr_anomalies.
  destruct (Np.gt _ _); [| intros []].
  intros H. apply PdFacts.in_index in H. destruct H as [r H].
  apply PdFacts.select_subset in H. apply PdFacts.in_index. eauto.
Qed.

Lemma quantity_anomalies_index (data : Pd.Frame Transaction) (l : Z) :
  In l (quantity_anomalies data) -> In l (Pd.index data).
Proof.
  unfold quantity_anomalies.
  destruct (Np.gt _ _); [| intros []].
  intros H. apply PdFacts.in_index in H. destruct H as [r H].
  apply PdFacts.select_subset in H. apply PdFacts.in_index. eauto.
Qed.

Lemma time_anomalies_index (data : Pd.Frame Transaction) (stamps : list Z)
    (l : Z) :
  In l (time_anomalies data stamps) -> In l (Pd.index data).
Proof.
  unfold time_anomalies.
  intros H. apply PdFacts.in_index in H. destruct H as [r H].
  apply PdFacts.select_subset in H. apply PdFacts.in_index. eauto.
Qed.

Lemma flagged_index (data : Pd.Frame Transaction) (stamps : list Z) (l : Z) :
  flagged data stamps l -> In l (Pd.index data).
Proof.
  intros [H | [H | [H | H]]];
    eauto using amount_anomalies_index, iqr_anomalies_index,
                quantity_anomalies_index, time_anomalies_index.
Qed.

Lemma with_columns_index (data : Pd.Frame Transaction) (stamps : list Z) :
  List.length stamps = List.length data ->
  Pd.index (with_columns data stamps) = Pd.index data.
Proof.
  intros H. unfold with_columns, Pd.index. rewrite map_map. simpl.
  rewrite <- (PdFacts.map_fst_combine data stamps) at 2 by congruence.
  rewrite map_map. reflexivity.
Qed.

(** The columns the method adds, row by row. *)
Lemma with_columns_row (data : Pd.Frame Transaction) (stamps : list Z)
    (r : Z * AnomalyRecord) :
  In r (with_columns data stamps) ->
  In (fst r, txn (snd r)) data /\
  amount_zscore (snd r)
  = (if Np.gt (Np.std (Pd.column total_amount data)) 0%float
     then Some (zscore (Np.mean (Pd.column total_amount data))
                       (Np.std (Pd.column total_amount data))
                       (total_amount (txn (snd r))))
     else None).
Proof.
  unfold with_columns. intros H. apply in_map_iff in H.
  destruct H as [[[l t] ns] [<- H]]. simpl.
  apply in_combine_l in H. split; [exact H | reflexivity].
Qed.

Lemma with_columns_has (data : Pd.Frame Transaction) (stamps : list Z)
    (l : Z) (t : Transaction) :
  List.length stamps = List.length data ->
  In (l, t) data ->
  exists r, In (l, r) (with_columns data stamps) /\ txn r = t.
Proof.
  intros Hlen H. apply In_nth_error in H. destruct H as [n Hn].
  assert (n < List.length stamps)%nat as Hlt.
  { rewrite Hlen. apply nth_error_Some. congruence. }
  destruct (nth_error stamps n) as [ns |] eqn:Es;
    [| apply nth_error_None in Es; lia].
  assert (In ((l, t), ns) (combine data stamps)) as Hc.
  { apply (nth_error_In _ n).
    revert n stamps Hn Es Hlt Hlen. clear.
    induction data as [| x data IH]; intros [| n] [| s stamps] Hn Es Hlt Hlen;
      simpl in *; try discriminate; try lia.
    - congruence.
    - apply IH; try assumption; lia. }
  unfold with_columns. eexists. split.
  - apply in_map_iff. exists ((l, t), ns). split; [reflexivity | exact Hc].
  - reflexivity.
Qed.

(** The result of the method's body, once the timestamps have parsed: the
    flagged rows of the annotated table, each with its score set. *)
Lemma statistical_body_rows (data : Pd.Frame Transaction)
    (stamps : list Z) :
  Pd.to_datetime (Pd.column timestamp data) = Ok stamps ->
  exists result,
    statistical_body data = Ok result /\
    forall r, In r result <->
      exists r0, In r0 (with_columns data stamps) /\
                 flagged data stamps (fst r0) /\ r = set_score r0.
Proof.
  intros Hts.
  assert (List.length stamps = List.length data) as Hlen.
  { rewrite (PdFacts.to_datetime_length _ _ Hts).
    apply PdFacts.column_length. }
  unfold statistical_body. rewrite Hts. simpl bind.
  set (AL := append_index _ (time_anomalies data stamps)).
  assert (forall l, In l (List.concat AL) <-> flagged data stamps l) as HAL.
  { intros l. unfold AL, flagged.
    rewrite !concat_append_index. simpl. tauto. }
  clearbody AL. destruct AL as [| a AL'].
  - exists []. split; [reflexivity |]. intros r. split; [intros [] |].
    intros [r0 [_ [Hf _]]]. apply HAL in Hf. destruct Hf.
  - destruct (PdFacts.loc_ok (with_columns data stamps)
                (Pd.set_of (List.concat (a :: AL'))))
      as [found [Hloc Hfound]].
    { intros l Hl. rewrite with_columns_index by exact Hlen.
      apply PdFacts.set_of_In, HAL in Hl. eapply flagged_index; eauto. }
    rewrite Hloc. simpl bind. eexists. split; [reflexivity |].
    intros r. rewrite PdFacts.sort_values_desc_In, in_map_iff. split.
    + intros [r0 [<- Hr0]]. apply Hfound in Hr0. destruct Hr0 as [Hin Hl].
      exists r0. split; [exact Hin |]. split; [| reflexivity].
      apply HAL, PdFacts.set_of_In. exact Hl.
    + intros [r0 [Hin [Hf ->]]]. exists r0. split; [reflexivity |].
      apply Hfound. split; [exact Hin |].
      apply PdFacts.set_of_In, HAL. exact Hf.
Qed.

Lemma set_score_fst (r : Z * AnomalyRecord) : fst (set_score r) = fst r.
Proof. reflexivity. Qed.

(** The index of the result is the set of flagged labels. *)
Lemma statistical_index (data : Pd.Frame Transaction) (stamps : list Z)
    (l : Z) :
  Pd.to_datetime (Pd.column timestamp data) = Ok stamps ->
  In l (Pd.index (_statistical_detection data)) <-> flagged data stamps l.
Proof.
  intros Hts.
  assert (List.length stamps = List.length data) as Hlen.
  { rewrite (PdFacts.to_datetime_length _ _ Hts).
    apply PdFacts.column_length. }
  destruct (statistical_body_rows data stamps Hts) as [result [Hb Hrows]].
  unfold _statistical_detection. rewrite Hb. simpl.
  rewrite PdFacts.in_index. split.
  - intros [r Hr]. apply Hrows in Hr.
    destruct Hr as [r0 [_ [Hf E]]].
    replace l with (fst r0); [exact Hf |].
    change l with (fst (l, r)). rewrite E. reflexivity.
  - intros Hf.
    assert (In l (Pd.index (with_columns data stamps))) as Hi.
    { rewrite with_columns_index by exact Hlen.
      eapply flagged_index; eauto. }
    apply PdFacts.in_index in Hi. destruct Hi as [r0 Hr0].
    exists (snd (set_score (l, r0))).
    apply Hrows. exists (l, r0). split; [exact Hr0 |].
    split; [exact Hf | reflexivity].
Qed.

(** Without parsed timestamps the method returns the empty table. *)
Lemma statistical_unparsed (data : Pd.Frame Transaction) (e : PyExn) :
  Pd.to_datetime (Pd.column timestamp data) = Raise e ->
  _statistical_detection data = [].
Proof.
  intros H. unfold _statistical_detection, statistical_body.
  rewrite H. reflexivity.
Qed.

Lemma statistical_subset (data : Pd.Frame Transaction) (l : Z) :
  In l (Pd.index (_statistical_detection data)) -> In l (Pd.index data).
Proof.
  destruct (Pd.to_datetime (Pd.column timestamp data)) as [stamps | e] eqn:E.
  - rewrite (statistical_index data stamps l E). apply flagged_index.
  - rewrite (statistical_unparsed data e E). intros [].
Qed.

End StatisticalFacts.

(** ** Claims about the statistical method *)

Module StatisticalClaims.

Import AnomalyDetector StatisticalFacts.

(** C1, as the specification words it, fails: in [night_table] the amounts
    and the quantities have zero standard deviation and the interquartile
    range is zero, yet the row at three in the morning is flagged. *)
Lemma zero_variance_still_flags :
  Np.std (Pd.column total_amount Examples.night_table) = 0%float /\
  Np.std (map Np.of_Z (Pd.column quantity Examples.night_table)) = 0%float /\
  Pd.index (_statistical_detection Examples.night_table) = [0].
Proof. vm_compute. repeat split. Qed.

Lemma amount_rule_selects (data : Pd.Frame Transaction) (l : Z)
    (t : Transaction) :
  In (l, t) data ->
  Np.gt (Np.std (Pd.column total_amount data)) 0%float = true ->
  Np.gt (zscore (Np.mean (Pd.column total_amount data))
                (Np.std (Pd.column total_amount data))
                (total_amount t)) 3%float = true ->
  In l (amount_anomalies data).
Proof.
  intros Hin Hstd Hz. unfold amount_anomalies. rewrite Hstd.
  unfold Pd.column. rewrite map_map.
  rewrite (PdFacts.select_map
             (fun t0 => Np.gt (zscore _ _ (total_amount t0)) 3%float)).
  apply PdFacts.in_index. exists t. apply filter_In.
  split; [exact Hin | exact Hz].
Qed.

Lemma amount_rule_silent (data : Pd.Frame Transaction) :
  Np.gt (Np.std (Pd.column total_amount data)) 0%float = false ->
  amount_anomalies data = [].
Proof. intros H. unfold amount_anomalies. rewrite H. reflexivity. Qed.

(** C1, amended.  In a table whose timestamps are datetimes, a row is in
    the result of the statistical method whenever the standard deviation
    of the amounts is positive and the row's amount z-score exceeds 3.
    When that standard deviation is not positive the amount z-score rule
    selects nothing, and the result holds exactly the labels that the
    interquartile, quantity or time-of-day rule selects. *)
Theorem statistical_amount_rule (data : Pd.Frame Transaction)
    (stamps : list Z) :
  Pd.to_datetime (Pd.column timestamp data) = Ok stamps ->
  (forall l t,
      In (l, t) data ->
      Np.gt (Np.std (Pd.column total_amount data)) 0%float = true ->
      Np.gt (zscore (Np.mean (Pd.column total_amount data))
                    (Np.std (Pd.column total_amount data))
                    (total_amount t)) 3%float = true ->
      exists r, In (l, r) (_statistical_detection data) /\ txn r = t) /\
  (Np.gt (Np.std (Pd.column total_amount data)) 0%float = false ->
   amount_anomalies data = [] /\
   forall l,
     In l (Pd.index (_statistical_detection data)) <->
     In l (iqr_anomalies data) \/ In l (quantity_anomalies data) \/
     In l (time_anomalies data stamps)).
Proof.
  intros Hts.
  assert (List.length stamps = List.length data) as Hlen.
  { rewrite (PdFacts.to_datetime_length _ _ Hts).
    apply PdFacts.column_length. }
  split.
  - intros l t Hin Hstd Hz.
    destruct (statistical_body_rows data stamps Hts) as [result [Hb Hrows]].
    unfold _statistical_detection. rewrite Hb. simpl.
    destruct (with_columns_has data stamps l t Hlen Hin) as [r0 [Hr0 Ht]].
    exists (snd (set_score (l, r0))). split; [| exact Ht].
    apply Hrows. exists (l, r0). split; [exact Hr0 |].
    split; [| reflexivity].
    left. simpl. eapply amount_rule_selects; eauto.
  - intros Hstd. split; [apply amount_rule_silent; exact Hstd |].
    intros l. rewrite (statistical_index data stamps l Hts).
    unfold flagged. rewrite (amount_rule_silent data Hstd). simpl. tauto.
Qed.

(** A run of the amended C1 on [outlier_table]: the sale of 1000 is
    flagged. *)
Lemma statistical_amount_rule_witness :
  exists r, In (7, r) (_statistical_detection Examples.outlier_table) /\
            total_amount (txn r) = 1000%float.
Proof.
  destruct (statistical_amount_rule Examples.outlier_table
              (map (fun _ => 12 * Pd.ns_per_hour) Examples.outlier_table))
    as [H _]; [vm_compute; reflexivity |].
  destruct (H 7 (Examples.sale "TXN" (Examples.at_hour 12) "CUST_1001"
                   1000%float 1)) as [r [Hr Ht]].
  - vm_compute. tauto.
  - vm_compute. reflexivity.
  - vm_compute. reflexivity.
  - exists r. split; [exact Hr |]. rewrite Ht. vm_compute. reflexivity.
Defined.

(** C2, as the specification words it, fails: in [three_amounts] the
    middle row is selected by the time-of-day rule only, and its score is
    its amount z-score 0, not 1.0. *)
Lemma time_only_row_scored_by_zscore :
  exists r,
    In r (_statistical_detection Examples.three_amounts) /\
    ~ In (fst r) (amount_anomalies Examples.three_amounts) /\
    ~ In (fst r) (iqr_anomalies Examples.three_amounts) /\
    ~ In (fst r) (quantity_anomalies Examples.three_amounts) /\
    anomaly_score (snd r) = 0%float /\
    anomaly_score (snd r) <> 1%float.
Proof.
  eexists. split; [vm_compute; left; reflexivity |].
  vm_compute. repeat split; try tauto.
  intros H. apply (f_equal (fun x => PrimFloat.eqb x 1%float)) in H.
  vm_compute in H. discriminate.
Qed.

(** C2, amended.  Every row of the result of the statistical method
    carries its own amount z-score as anomaly score when the standard
    deviation of the amounts is positive, whichever rule selected it (so
    in particular when the amount z-score rule did), and carries 1.0 when
    that standard deviation is not positive. *)
Theorem statistical_score (data : Pd.Frame Transaction)
    (r : Z * AnomalyRecord) :
  In r (_statistical_detection data) ->
  let mean := Np.mean (Pd.column total_amount data) in
  let std := Np.std (Pd.column total_amount data) in
  (In (fst r) (amount_anomalies data) ->
   anomaly_score (snd r) = zscore mean std (total_amount (txn (snd r)))) /\
  (Np.gt std 0%float = true ->
   anomaly_score (snd r) = zscore mean std (total_amount (txn (snd r)))) /\
  (Np.gt std 0%float = false -> anomaly_score (snd r) = 1%float).
Proof.
  intros Hr mean std.
  destruct (Pd.to_datetime (Pd.column timestamp data)) as [stamps | e] eqn:E.
  2: { rewrite (statistical_unparsed data e E) in Hr. destruct Hr. }
  destruct (statistical_body_rows data stamps E) as [result [Hb Hrows]].
  unfold _statistical_detection in Hr. rewrite Hb in Hr. simpl in Hr.
  apply Hrows in Hr. destruct Hr as [r0 [Hr0 [_ ->]]].
  apply with_columns_row in Hr0. destruct Hr0 as [_ Hz].
  fold std in Hz. fold mean in Hz.
  assert (Np.gt std 0%float = true ->
          anomaly_score (snd (set_score r0))
          = zscore mean std (total_amount (txn (snd (set_score r0)))))
    as Hpos.
  { intros Hstd. simpl. rewrite Hz, Hstd. reflexivity. }
  split; [| split].
  - intros Ha. apply Hpos. unfold amount_anomalies in Ha.
    fold std in Ha. destruct (Np.gt std 0%float); [reflexivity |].
    destruct Ha.
  - exact Hpos.
  - intros Hstd. simpl. rewrite Hz, Hstd. reflexivity.
Qed.

(** A run of the amended C2 on [outlier_table]: the first row of the
    result is the sale of 1000, scored with its z-score. *)
Lemma statistical_score_witness :
  anomaly_score
    (snd (hd Examples.blank (_statistical_detection Examples.outlier_table)))
  = 3.1754264805429413%float.
Proof.
  destruct (statistical_score Examples.outlier_table
              (hd Examples.blank
                  (_statistical_detection Examples.outlier_table)))
    as [_ [H _]].
  - vm_compute. left. reflexivity.
  - rewrite H by (vm_compute; reflexivity). vm_compute. reflexivity.
Defined.

End StatisticalClaims.

(** ** Claims about [detect_anomalies] *)

Module DetectFacts.

Import AnomalyDetector StatisticalFacts.

Lemma get_dummies_length (col : list string) :
  List.length (Pd.get_dummies col) = List.length col.
Proof. apply length_map. Qed.

Lemma concat_encoded_length (cap : nat) (col : list string)
    (features : list FeatureRow) :
  List.length col = List.length features ->
  List.length (concat_encoded cap col features) = List.length features.
Proof.
  intros H. unfold concat_encoded.
  destruct (Pd.dummies_width col <=? cap)%nat; [| reflexivity].
  rewrite length_map, length_combine, get_dummies_length. lia.
Qed.

(** Feature preparation gives one feature row per transaction when the
    timestamps parse, and the empty table when they do not. *)
Lemma prepare_features_length (data : Pd.Frame Transaction)
    (stamps : list Z) :
  Pd.to_datetime (Pd.column timestamp data) = Ok stamps ->
  List.length (_prepare_features data) = List.length data.
Proof.
  intros Hts.
  assert (List.length stamps = List.length data) as Hlen.
  { rewrite (PdFacts.to_datetime_length _ _ Hts).
    apply PdFacts.column_length. }
  unfold _prepare_features, prepare_features_body. rewrite Hts. simpl.
  set (numeric := map _ (combine (Pd.rows data) stamps)).
  assert (List.length numeric = List.length data) as Hn.
  { unfold numeric, Pd.rows.
    rewrite length_map, length_combine, length_map. lia. }
  rewrite length_combine, PdFacts.index_length.
  unfold fillna, replace_inf. rewrite !length_map.
  assert (forall cap (f : Transaction -> string) features,
             List.length features = List.length data ->
             List.length (concat_encoded cap (Pd.column f data) features)
             = List.length data) as Hstep.
  { intros cap f features Hf. rewrite concat_encoded_length; [exact Hf |].
    rewrite PdFacts.column_length. symmetry. exact Hf. }
  rewrite Hstep; [lia |]. do 2 (apply Hstep). exact Hn.
Qed.

Lemma prepare_features_unparsed (data : Pd.Frame Transaction) (e : PyExn) :
  Pd.to_datetime (Pd.column timestamp data) = Raise e ->
  _prepare_features data = [].
Proof.
  intros H. unfold _prepare_features, prepare_features_body.
  rewrite H. reflexivity.
Qed.

Lemma prepare_features_short (data : Pd.Frame Transaction) :
  (List.length (_prepare_features data) <= List.length data)%nat.
Proof.
  destruct (Pd.to_datetime (Pd.column timestamp data)) as [stamps | e] eqn:E.
  - rewrite (prepare_features_length data stamps E). lia.
  - rewrite (prepare_features_unparsed data e E). simpl. lia.
Qed.

Lemma empty_true {R : Type} (df : Pd.Frame R) :
  Pd.empty df = true <-> df = [].
Proof. destruct df; simpl; split; intros H; congruence. Qed.

Lemma index_map_plain (score : float) (df : Pd.Frame Transaction) :
  Pd.index (map (plain score) df) = Pd.index df.
Proof. unfold Pd.index. rewrite map_map. reflexivity. Qed.

Section Models.

Variable scaler_fit_transform : list FeatureRow -> PyResult (list FeatureRow).
Variable fit_predict : list FeatureRow -> PyResult (list Z).
Variable decision_function :
  list FeatureRow -> list FeatureRow -> PyResult (list float).

Local Abbreviation isolation_forest_body :=
  (isolation_forest_body scaler_fit_transform fit_predict decision_function).
Local Abbreviation _isolation_forest_detection :=
  (_isolation_forest_detection scaler_fit_transform fit_predict
     decision_function).
Local Abbreviation detect_anomalies :=
  (detect_anomalies scaler_fit_transform fit_predict decision_function).

(** The density method only returns rows of the table. *)
Lemma isolation_forest_subset (data : Pd.Frame Transaction)
    (features_df : Pd.Frame FeatureRow) (l : Z) :
  In l (Pd.index (_isolation_forest_detection data features_df)) ->
  In l (Pd.index data).
Proof.
  unfold AnomalyDetector._isolation_forest_detection,
         AnomalyDetector.isolation_forest_body.
  destruct (List.length features_df <? 10)%nat; [intros [] |].
  destruct (scaler_fit_transform _) as [scaled | e]; simpl; [| intros []].
  destruct (fit_predict scaled) as [labels | e]; simpl; [| intros []].
  destruct (decision_function scaled scaled) as [dec | e]; simpl;
    [| intros []].
  destruct (where_eq (-1) labels 0) as [| p ps]; [intros [] |].
  destruct (Pd.iloc data (p :: ps)) as [found | e] eqn:Eloc; simpl;
    [| intros []].
  destruct (take dec (p :: ps)) as [scores | e]; simpl; [| intros []].
  intros H. apply PdFacts.in_index in H. destruct H as [r H].
  apply PdFacts.sort_values_desc_In in H. apply in_map_iff in H.
  destruct H as [[[l' t] s] [E H]]. unfold plain in E. simpl in E.
  injection E as -> _. apply in_combine_l in H.
  apply (PdFacts.iloc_subset _ _ _ Eloc) in H.
  apply PdFacts.in_index. exists t. exact H.
Qed.

(** The rows and scores of the combined method, for a table that passes
    both emptiness checks. *)
Lemma combined_rows (data : Pd.Frame Transaction) :
  exists combined,
    detect_anomalies data "combined" = Ok combined /\
    (forall r, In r combined -> anomaly_score (snd r) = 0.8%float) /\
    (Pd.empty data = false -> Pd.empty (_prepare_features data) = false ->
     forall l,
       In l (Pd.index combined) <->
       In l (Pd.index (_isolation_forest_detection data
                         (_prepare_features data))) \/
       In l (Pd.index (_statistical_detection data))).
Proof.
  unfold AnomalyDetector.detect_anomalies.
  destruct (Pd.empty data) eqn:Ed.
  { exists []. split; [reflexivity |]. split; [intros r [] | discriminate]. }
  destruct (Pd.empty (_prepare_features data)) eqn:Ef.
  { exists []. split; [reflexivity |]. split; [intros r [] | discriminate]. }
  simpl String.eqb. cbv iota.
  set (iso := AnomalyDetector._isolation_forest_detection _ _ _ _ _).
  destruct (PdFacts.loc_ok data
              (Pd.set_of (Pd.index iso
                          ++ Pd.index (_statistical_detection data))))
    as [found [Hloc Hfound]].
  { intros l Hl. apply PdFacts.set_of_In, in_app_iff in Hl.
    destruct Hl as [Hl | Hl].
    - eapply isolation_forest_subset. exact Hl.
    - apply statistical_subset. exact Hl. }
  rewrite Hloc. simpl bind. eexists. split; [reflexivity |]. split.
  - intros r Hr. apply in_map_iff in Hr. destruct Hr as [x [<- _]].
    reflexivity.
  - intros _ _ l. rewrite index_map_plain, PdFacts.in_index.
    rewrite <- in_app_iff, <- PdFacts.set_of_In. split.
    + intros [t Ht]. apply Hfound in Ht. tauto.
    + intros Hl.
      assert (In l (Pd.index data)) as Hi.
      { apply PdFacts.set_of_In, in_app_iff in Hl.
        destruct Hl as [Hl | Hl].
        - eapply isolation_forest_subset. exact Hl.
        - apply statistical_subset. exact Hl. }
      apply PdFacts.in_index in Hi. destruct Hi as [t Ht].
      exists t. apply Hfound. tauto.
Qed.

End Models.

End DetectFacts.

Module DetectClaims.

Import AnomalyDetector StatisticalFacts DetectFacts.

Section Models.

Variable scaler_fit_transform : list FeatureRow -> PyResult (list FeatureRow).
Variable fit_predict : list FeatureRow -> PyResult (list Z).
Variable decision_function :
  list FeatureRow -> list FeatureRow -> PyResult (list float).

Local Abbreviation _isolation_forest_detection :=
  (_isolation_forest_detection scaler_fit_transform fit_predict
     decision_function).
Local Abbreviation detect_anomalies :=
  (detect_anomalies scaler_fit_transform fit_predict decision_function).

(** C5.  For every transaction table the three methods return, and the
    index of the combined result holds exactly the labels found in the
    index of the density result or of the statistical result; every row of
    the combined result has the anomaly score 0.8. *)
Theorem combined_is_union (data : Pd.Frame Transaction) :
  exists combined density statistical,
    detect_anomalies data "combined" = Ok combined /\
    detect_anomalies data "isolation_forest" = Ok density /\
    detect_anomalies data "statistical" = Ok statistical /\
    (forall l, In l (Pd.index combined) <->
               In l (Pd.index density) \/ In l (Pd.index statistical)) /\
    (forall r, In r combined -> anomaly_score (snd r) = 0.8%float).
Proof.
  destruct (combined_rows scaler_fit_transform fit_predict decision_function
              data) as [combined [Hc [Hscore Hidx]]].
  exists combined.
  unfold AnomalyDetector.detect_anomalies in *.
  destruct (Pd.empty data) eqn:Ed.
  { injection Hc as <-. exists [], []. simpl. intuition auto. }
  destruct (Pd.empty (_prepare_features data)) eqn:Ef.
  { injection Hc as <-. exists [], []. simpl. intuition auto. }
  simpl String.eqb. cbv iota.
  eexists. eexists. split; [exact Hc |].
  split; [reflexivity |]. split; [reflexivity |].
  split; [apply Hidx; reflexivity | exact Hscore].
Qed.

(** C6.  A feature table of fewer than 10 rows makes the density method
    return the empty result, and so does [detect_anomalies] with the
    density method when that feature table is the prepared one. *)
Theorem density_needs_ten_rows (data : Pd.Frame Transaction)
    (features_df : Pd.Frame FeatureRow) :
  (List.length features_df < 10)%nat ->
  _isolation_forest_detection data features_df = [] /\
  (features_df = _prepare_features data ->
   detect_anomalies data "isolation_forest" = Ok []).
Proof.
  intros Hlen.
  assert (_isolation_forest_detection data features_df = []) as Hiso.
  { unfold AnomalyDetector._isolation_forest_detection,
           AnomalyDetector.isolation_forest_body.
    apply Nat.ltb_lt in Hlen. rewrite Hlen. reflexivity. }
  split; [exact Hiso |].
  intros ->. unfold AnomalyDetector.detect_anomalies.
  destruct (Pd.empty data); [reflexivity |].
  destruct (Pd.empty (_prepare_features data)); [reflexivity |].
  simpl String.eqb. cbv iota. rewrite Hiso. reflexivity.
Qed.

(** A table of fewer than 10 rows has fewer than 10 feature rows. *)
Lemma density_small_table (data : Pd.Frame Transaction) :
  (List.length data < 10)%nat ->
  detect_anomalies data "isolation_forest" = Ok [].
Proof.
  intros H.
  pose proof (prepare_features_short data) as Hs.
  unfold AnomalyDetector.detect_anomalies.
  destruct (Pd.empty data); [reflexivity |].
  destruct (Pd.empty (_prepare_features data)); [reflexivity |].
  simpl String.eqb. cbv iota.
  unfold AnomalyDetector._isolation_forest_detection,
         AnomalyDetector.isolation_forest_body.
  assert ((List.length (_prepare_features data) <? 10)%nat = true) as ->
    by (apply Nat.ltb_lt; lia).
  reflexivity.
Qed.

(** C9, amended.  For a table that is not empty and whose timestamps all
    parse, a method name other than the three supported ones makes
    [detect_anomalies] raise the [ValueError] of the source. *)
Theorem unsupported_method_rejected (data : Pd.Frame Transaction)
    (stamps : list Z) (method : string) :
  data <> [] ->
  Pd.to_datetime (Pd.column timestamp data) = Ok stamps ->
  method <> "isolation_forest"%string ->
  method <> "statistical"%string ->
  method <> "combined"%string ->
  detect_anomalies data method = Raise method_error.
Proof.
  intros Hd Hts H1 H2 H3. unfold AnomalyDetector.detect_anomalies.
  destruct (Pd.empty data) eqn:Ed; [apply empty_true in Ed; contradiction |].
  destruct (Pd.empty (_prepare_features data)) eqn:Ef.
  { apply empty_true in Ef.
    pose proof (prepare_features_length data stamps Hts) as Hl.
    rewrite Ef in Hl. destruct data; [contradiction | discriminate]. }
  apply String.eqb_neq in H1, H2, H3. rewrite H1, H2, H3. reflexivity.
Qed.

(** C10.  When the table is empty, or feature preparation gives the empty
    table, [detect_anomalies] returns the empty result for every method
    name, supported or not. *)
Theorem empty_input_precedes_method_check (data : Pd.Frame Transaction)
    (method : string) :
  data = [] \/ _prepare_features data = [] ->
  detect_anomalies data method = Ok [].
Proof.
  intros [-> | H]; unfold AnomalyDetector.detect_anomalies.
  - reflexivity.
  - destruct (Pd.empty data); [reflexivity |].
    rewrite H. reflexivity.
Qed.

End Models.

(** A run of C6 on [night_table], two rows. *)
Lemma density_needs_ten_rows_witness :
  AnomalyDetector.detect_anomalies Examples.scaler Examples.forest
    Examples.decision Examples.night_table "isolation_forest" = Ok [].
Proof.
  apply (density_needs_ten_rows Examples.scaler Examples.forest
           Examples.decision Examples.night_table
           (_prepare_features Examples.night_table)).
  - vm_compute. lia.
  - reflexivity.
Defined.

(** C9, as the specification words it, fails: on the empty table an
    unsupported method name is not rejected, the empty result comes
    back. *)
Lemma unsupported_method_on_empty_table :
  AnomalyDetector.detect_anomalies Examples.scaler Examples.forest
    Examples.decision [] "neural_network" = Ok [] /\
  ~ In "neural_network"%string
       ["isolation_forest"; "statistical"; "combined"]%string.
Proof.
  split; [reflexivity |].
  simpl. intros [H | [H | [H | []]]]; discriminate.
Qed.

(** A run of the amended C9 on [night_table]. *)
Lemma unsupported_method_rejected_witness :
  AnomalyDetector.detect_anomalies Examples.scaler Examples.forest
    Examples.decision Examples.night_table "neural_network"
  = Raise method_error.
Proof.
  apply (unsupported_method_rejected Examples.scaler Examples.forest
           Examples.decision Examples.night_table
           [3 * Pd.ns_per_hour; 12 * Pd.ns_per_hour]).
  - discriminate.
  - reflexivity.
  - discriminate.
  - discriminate.
  - discriminate.
Defined.

(** A run of C10 on [unparseable_table], whose features cannot be
    prepared. *)
Lemma empty_input_precedes_method_check_witness :
  _prepare_features Examples.unparseable_table = [] /\
  AnomalyDetector.detect_anomalies Examples.scaler Examples.forest
    Examples.decision Examples.unparseable_table "neural_network" = Ok [].
Proof.
  split; [reflexivity |].
  apply (empty_input_precedes_method_check Examples.scaler Examples.forest
           Examples.decision Examples.unparseable_table "neural_network").
  right. reflexivity.
Defined.

(** The combined method on twelve rows with the sample forest: position 3
    from the forest, label 7 from the statistical method. *)
Example combined_on_outlier_table :
  match AnomalyDetector.detect_anomalies Examples.scaler Examples.forest
          Examples.decision Examples.outlier_table "combined" with
  | Ok rows => map (fun r => (fst r, anomaly_score (snd r))) rows
               = [(3, 0.8%float); (7, 0.8%float)]
  | Raise _ => False
  end.
Proof. vm_compute. reflexivity. Qed.

End DetectClaims.

(** ** The single-transaction check *)

Module RealTimeClaims.

Import AnomalyDetector.

(** C8.  [detect_real_time_anomalies] returns a verdict on every input.
    On an empty history the verdict is not anomalous and gives the reason
    ['No historical data'].  When the computation inside the [try] raises,
    the verdict is not anomalous and its reason carries the exception;
    when it does not raise, its verdict is the one returned. *)
Theorem real_time_never_raises (new_transaction : NewTransaction)
    (historical_data : Pd.Frame Transaction) (threshold_std : float) :
  exists verdict,
    detect_real_time_anomalies new_transaction historical_data threshold_std
    = Ok verdict /\
    (historical_data = [] ->
     is_anomaly verdict = false /\
     reason verdict = Some NoHistoricalData /\ scores verdict = None) /\
    (forall e,
        historical_data <> [] ->
        real_time_body new_transaction historical_data threshold_std
        = Raise e ->
        is_anomaly verdict = false /\
        reason verdict = Some (ErrorInDetection e) /\
        scores verdict = None) /\
    (forall computed,
        historical_data <> [] ->
        real_time_body new_transaction historical_data threshold_std
        = Ok computed ->
        verdict = computed).
Proof.
  unfold detect_real_time_anomalies.
  destruct historical_data as [| row history].
  - simpl. eexists. split; [reflexivity |].
    split; [intros _; simpl; auto |].
    split; intros ? H; contradiction.
  - cbn [Pd.empty]. eexists. split; [reflexivity |].
    split; [discriminate |].
    split; intros x _ H; rewrite H; simpl; auto.
Qed.

(** A [Series] without the key ['quantity']: the [KeyError] ends up in
    the verdict. *)
Example real_time_missing_key :
  detect_real_time_anomalies
    (Series [("total_amount"%string, PyFloat 500%float)])
    Examples.outlier_table 2%float
  = Ok {| is_anomaly := false;
          reason := Some (ErrorInDetection (KeyError "quantity"));
          scores := None |}.
Proof. vm_compute. reflexivity. Qed.

(** A [dict] whose amount is a string: the subtraction raises. *)
Example real_time_string_amount :
  exists e,
    real_time_body (Dict [("total_amount"%string, PyStr "a lot")])
      Examples.outlier_table 2%float = Raise e /\
    detect_real_time_anomalies
      (Dict [("total_amount"%string, PyStr "a lot")])
      Examples.outlier_table 2%float
    = Ok {| is_anomaly := false; reason := Some (ErrorInDetection e);
            scores := None |}.
Proof. eexists. split; vm_compute; reflexivity. Qed.

(** An amount far above the history is anomalous. *)
Example real_time_flags_large_amount :
  match detect_real_time_anomalies
          (Dict [("total_amount"%string, PyFloat 5000%float);
                 ("quantity"%string, PyFloat 1%float);
                 ("category"%string, PyStr "Food")])
          Examples.outlier_table 2%float with
  | Ok verdict => is_anomaly verdict = true /\ reason verdict = None
  | Raise _ => False
  end.
Proof. vm_compute. split; reflexivity. Qed.

End RealTimeClaims.

(** ** RFM metrics and segmentation *)

Module RfmFacts.

Import CustomerSegmentation.

Lemma fold_max_ge (rest : list Z) (s x : Z) :
  In x (s :: rest) -> x <= fold_left Z.max rest s.
Proof.
  revert s x; induction rest as [| y rest IH]; intros s x H; simpl in *.
  - destruct H as [-> | []]. lia.
  - pose proof (IH (Z.max s y) (Z.max s y) (or_introl eq_refl)) as Hm.
    destruct H as [-> | [-> | H]].
    + lia.
    + lia.
    + apply IH. right. exact H.
Qed.

Lemma fold_max_In (rest : list Z) (s : Z) :
  In (fold_left Z.max rest s) (s :: rest).
Proof.
  revert s; induction rest as [| y rest IH]; intros s; simpl.
  - left. reflexivity.
  - destruct (IH (Z.max s y)) as [H | H].
    + destruct (Z.max_spec s y) as [[_ E] | [_ E]]; rewrite E in H |- *;
        auto.
    + right. right. exact H.
Qed.

(** [latest] is the maximum of a column that is not empty. *)
Lemma latest_ge (stamps : list Z) (x : Z) :
  In x stamps -> x <= latest stamps.
Proof.
  destruct stamps as [| s rest]; [intros [] |]. apply fold_max_ge.
Qed.

Lemma latest_In (stamps : list Z) :
  stamps <> [] -> In (latest stamps) stamps.
Proof.
  destruct stamps as [| s rest]; [congruence |]. intros _.
  apply fold_max_In.
Qed.

Lemma group_of_In (customer : string) (stamped : list (Transaction * Z))
    (p : Transaction * Z) :
  In p (group_of customer stamped)
  <-> In p stamped /\ customer_id (fst p) = customer.
Proof.
  unfold group_of. rewrite filter_In, String.eqb_eq. tauto.
Qed.

Lemma rank_first_from_length (seen rest all : list Z) :
  List.length (Pd.rank_first_from seen rest all) = List.length rest.
Proof.
  revert seen; induction rest as [| v rest IH]; intros seen; simpl;
    [reflexivity |].
  rewrite IH. reflexivity.
Qed.

(** [qcut] gives one score per value when it does not raise. *)
Lemma qcut_length (x : list float) (q : nat) (labels : list Z)
    (scores : list (option Z)) :
  Pd.qcut x q labels = Ok scores -> List.length scores = List.length x.
Proof.
  unfold Pd.qcut.
  destruct (negb _); [discriminate |].
  intros H. injection H as <-.
  rewrite !length_map, !length_combine, !length_map, length_combine,
          length_map.
  lia.
Qed.

(** The scores are added to the aggregated rows, which stay as they
    are. *)
Lemma calculate_rfm_metrics_rows (data : Pd.Frame Transaction)
    (stamps : list Z) (table : list RfmRecord) :
  data <> [] ->
  Pd.to_datetime (Pd.column timestamp data) = Ok stamps ->
  calculate_rfm_metrics data = Ok table ->
  map (fun r => (rfm_customer_id r, recency r, frequency r)) table
  = map (fun b => (base_customer_id b, base_recency b, base_frequency b))
        (rfm_aggregate data stamps).
Proof.
  intros Hd Hts. unfold calculate_rfm_metrics.
  destruct data as [| row data']; [contradiction |].
  cbn [Pd.empty]. rewrite Hts. simpl bind.
  set (base := rfm_aggregate _ stamps).
  destruct (Pd.qcut _ 5 [5; 4; 3; 2; 1]) as [rs | e] eqn:Er; simpl bind;
    [| discriminate].
  destruct (Pd.qcut (Pd.rank_first _) 5 _) as [fs | e] eqn:Ef; simpl bind;
    [| discriminate].
  destruct (Pd.qcut (map base_monetary base) 5 _) as [ms | e] eqn:Em;
    simpl bind; [| discriminate].
  intros H. injection H as <-.
  apply qcut_length in Er, Ef, Em.
  unfold Pd.rank_first in Ef.
  rewrite rank_first_from_length in Ef. rewrite length_map in Er, Ef, Em.
  rewrite map_map. simpl.
  rewrite <- (PdFacts.map_fst_combine base rs) at 2 by congruence.
  rewrite <- (PdFacts.map_fst_combine (combine base rs) fs) at 2
    by (rewrite length_combine; lia).
  rewrite <- (PdFacts.map_fst_combine (combine (combine base rs) fs) ms) at 2
    by (rewrite !length_combine; lia).
  rewrite !map_map. reflexivity.
Qed.

End RfmFacts.

Module RfmClaims.

Import CustomerSegmentation RfmFacts.

(** C7.  In a table that is not empty and whose timestamps are datetimes,
    every customer has a row in the aggregated RFM table, and the recency
    of every row is the whole number of days from the customer's latest
    timestamp to the latest timestamp of the table, which is never
    negative.  The table [calculate_rfm_metrics] returns carries these
    recencies. *)
Theorem recency_is_days_since_last_purchase (data : Pd.Frame Transaction)
    (stamps : list Z) :
  data <> [] ->
  Pd.to_datetime (Pd.column timestamp data) = Ok stamps ->
  let stamped := combine (Pd.rows data) stamps in
  (forall t, In t (Pd.rows data) ->
     exists b, In b (rfm_aggregate data stamps) /\
               base_customer_id b = customer_id t) /\
  (forall b, In b (rfm_aggregate data stamps) ->
     exists newest own,
       In newest stamps /\ (forall s, In s stamps -> s <= newest) /\
       (exists t, In (t, own) stamped /\
                  customer_id t = base_customer_id b) /\
       (forall t s, In (t, s) stamped ->
                    customer_id t = base_customer_id b -> s <= own) /\
       base_recency b = (newest - own) / Pd.ns_per_day /\
       0 <= base_recency b) /\
  (forall table, calculate_rfm_metrics data = Ok table ->
     map (fun r => (rfm_customer_id r, recency r)) table
     = map (fun b => (base_customer_id b, base_recency b))
           (rfm_aggregate data stamps)).
Proof.
  intros Hd Hts stamped.
  assert (List.length stamps = List.length (Pd.rows data)) as Hlen.
  { rewrite (PdFacts.to_datetime_length _ _ Hts).
    unfold Pd.column, Pd.rows. rewrite !length_map. reflexivity. }
  split; [| split].
  - intros t Ht. unfold rfm_aggregate.
    eexists. split.
    + apply in_map_iff. exists (customer_id t). split; [reflexivity |].
      apply PdFacts.sorted_unique_In. unfold Pd.column.
      unfold Pd.rows in Ht. apply in_map_iff in Ht.
      destruct Ht as [r [<- Hr]]. apply in_map_iff. exists r. tauto.
    + reflexivity.
  - intros b Hb. unfold rfm_aggregate in Hb. apply in_map_iff in Hb.
    destruct Hb as [c [<- Hc]]. cbn [base_customer_id base_recency].
    fold stamped.
    rewrite PdFacts.sorted_unique_In in Hc. unfold Pd.column in Hc.
    apply in_map_iff in Hc. destruct Hc as [[l t] [Ec Hr]]. simpl in Ec.
    assert (exists ns, In (t, ns) stamped) as [ns Hns].
    { assert (In t (Pd.rows data)) as Ht.
      { unfold Pd.rows. apply in_map_iff. exists (l, t). tauto. }
      apply In_nth_error in Ht. destruct Ht as [n Hn].
      destruct (nth_error stamps n) as [ns |] eqn:Es.
      - exists ns. unfold stamped. apply (nth_error_In _ n).
        clear - Hn Es. revert n stamps Hn Es.
        induction (Pd.rows data) as [| x xs IH]; intros [| n] [| s ss] Hn Es;
          simpl in *; try discriminate; [congruence | apply IH; assumption].
      - apply nth_error_None in Es.
        assert (n < List.length (Pd.rows data))%nat
          by (apply nth_error_Some; congruence).
        lia. }
    assert (In (t, ns) (group_of c stamped)) as Hg.
    { apply group_of_In. split; [exact Hns | exact Ec]. }
    set (own_stamps := map snd (group_of c stamped)).
    assert (own_stamps <> []) as Hne.
    { intros E. assert (In ns own_stamps) as F.
      { unfold own_stamps. apply in_map_iff. exists (t, ns). tauto. }
      rewrite E in F. destruct F. }
    assert (stamps <> []) as Hsne.
    { intros E. rewrite E in Hlen. unfold Pd.rows in Hlen.
      rewrite length_map in Hlen. destruct data; [contradiction |].
      discriminate. }
    pose proof (latest_In own_stamps Hne) as Hown.
    unfold own_stamps in Hown. apply in_map_iff in Hown.
    destruct Hown as [[t' s'] [Es' Hin']]. simpl in Es'.
    apply group_of_In in Hin'. destruct Hin' as [Hin' Ec']. simpl in Ec'.
    assert (latest own_stamps <= latest stamps) as Hle.
    { apply latest_ge. fold own_stamps in Es'. rewrite <- Es'.
      apply in_combine_r in Hin'. exact Hin'. }
    exists (latest stamps), (latest own_stamps).
    split; [apply latest_In; exact Hsne |].
    split; [intros s Hs; apply latest_ge; exact Hs |].
    split.
    { exists t'. fold own_stamps in Es'. rewrite <- Es'. tauto. }
    split.
    { intros t0 s0 H0 E0. apply latest_ge. unfold own_stamps.
      apply in_map_iff. exists (t0, s0). split; [reflexivity |].
      apply group_of_In. tauto. }
    split; [reflexivity |].
    unfold Pd.days. apply Z.div_pos; [lia | reflexivity].
  - intros table Htable.
    pose proof (calculate_rfm_metrics_rows data stamps table Hd Hts Htable)
      as H.
    apply (f_equal (map (fun x : string * Z * Z => fst x))) in H.
    rewrite !map_map in H. exact H.
Qed.

(** A run of C7 on [six_days]: recencies 5, 4, 3, 2, 1 and 0 days. *)
Lemma recency_is_days_since_last_purchase_witness :
  match calculate_rfm_metrics Examples.six_days with
  | Ok table => map recency table = [5; 4; 3; 2; 1; 0]
  | Raise _ => False
  end.
Proof.
  destruct (recency_is_days_since_last_purchase Examples.six_days
              (map (fun h => h * Pd.ns_per_hour) [12; 36; 60; 84; 108; 132; 133]))
    as [_ [_ H]].
  - discriminate.
  - vm_compute. reflexivity.
  - destruct (calculate_rfm_metrics Examples.six_days) as [table | e] eqn:E.
    + specialize (H table eq_refl).
      apply (f_equal (map snd)) in H. rewrite !map_map in H. simpl in H.
      etransitivity; [exact H |]. vm_compute. reflexivity.
    + vm_compute in E. discriminate.
Defined.

(** C3, on the code: the RFM calculation raises on a table with a single
    sale, and on the specification's own example of two customers buying
    on one day.  All recencies are 0, the six quantile edges collapse to
    one, and the five fixed labels no longer fit. *)
Theorem rfm_degenerate_recency_raises :
  calculate_rfm_metrics Examples.single_sale = Raise Pd.bin_labels_error /\
  calculate_rfm_metrics Examples.same_day = Raise Pd.bin_labels_error.
Proof. split; vm_compute; reflexivity. Qed.

Lemma compare_same (c : string) : String.compare c c = Eq.
Proof.
  pose proof (String.compare_antisym c c) as H.
  destruct (String.compare c c); simpl in H; congruence.
Qed.

Lemma sorted_unique_constant (col : list string) (c : string) :
  col <> [] -> (forall x, In x col -> x = c) -> Pd.sorted_unique col = [c].
Proof.
  induction col as [| x col IH]; [congruence |]. intros _ H.
  assert (x = c) as -> by (apply H; left; reflexivity).
  destruct col as [| y col]; [reflexivity |].
  unfold Pd.sorted_unique in *. cbn [fold_right] in *.
  rewrite IH; [| discriminate | intros z Hz; apply H; right; exact Hz].
  simpl.
  rewrite compare_same. reflexivity.
Qed.

Lemma filter_all {A : Type} (f : A -> bool) (l : list A) :
  (forall x, In x l -> f x = true) -> filter f l = l.
Proof.
  induction l as [| x l IH]; intros H; simpl; [reflexivity |].
  rewrite (H x (or_introl eq_refl)). f_equal. apply IH.
  intros y Hy. apply H. right. exact Hy.
Qed.

Lemma map_snd_combine {A B : Type} (a : list A) (b : list B) :
  List.length a = List.length b -> map snd (combine a b) = b.
Proof.
  revert b; induction a as [| x a IH]; intros [| y b] H; simpl in *;
    try discriminate; [reflexivity |].
  f_equal. apply IH. congruence.
Qed.

(** The defect behind C3 on a whole class of tables: whenever all the
    transactions belong to one customer, whatever their number, dates and
    amounts, the only recency is 0 and the RFM calculation raises. *)
Lemma rfm_single_customer_raises (data : Pd.Frame Transaction)
    (stamps : list Z) (c : string) :
  data <> [] ->
  Pd.to_datetime (Pd.column timestamp data) = Ok stamps ->
  (forall t, In t (Pd.rows data) -> customer_id t = c) ->
  calculate_rfm_metrics data = Raise Pd.bin_labels_error.
Proof.
  intros Hd Hts Hc.
  assert (List.length (Pd.rows data) = List.length stamps) as Hlen.
  { rewrite (PdFacts.to_datetime_length _ _ Hts).
    unfold Pd.column, Pd.rows. rewrite !length_map. reflexivity. }
  assert (rfm_aggregate data stamps
          = [ {| base_customer_id := c;
                 base_recency := 0;
                 base_frequency := Z.of_nat (List.length stamps);
                 base_monetary :=
                   Np.round2
                     (Np.sum (Np.notna (map total_amount (Pd.rows data))))
              |} ]) as Hagg.
  { unfold rfm_aggregate.
    rewrite (sorted_unique_constant _ c).
    - cbn [map]. unfold group_of.
      rewrite filter_all.
      + rewrite map_snd_combine by exact Hlen.
        rewrite Z.sub_diag. unfold Pd.days. rewrite Z.div_0_l by discriminate.
        rewrite length_combine, Hlen, Nat.min_id.
        rewrite <- (PdFacts.map_fst_combine (Pd.rows data) stamps) at 2
          by exact Hlen.
        rewrite map_map. reflexivity.
      + intros [t ns] Hin. apply in_combine_l in Hin.
        simpl. apply String.eqb_eq. apply Hc. exact Hin.
    - destruct data; [contradiction | discriminate].
    - intros x Hx. unfold Pd.column in Hx. apply in_map_iff in Hx.
      destruct Hx as [r [<- Hr]]. apply Hc. unfold Pd.rows.
      apply in_map_iff. exists r. tauto. }
  unfold calculate_rfm_metrics.
  destruct data as [| row data']; [contradiction |].
  cbn [Pd.empty]. rewrite Hts. simpl bind. rewrite Hagg.
  cbn [map base_recency].
  replace (Pd.qcut [Np.of_Z 0] 5 [5; 4; 3; 2; 1])
    with (@Raise (list (option Z)) Pd.bin_labels_error)
    by (vm_compute; reflexivity).
  reflexivity.
Qed.

Section Models.

Variable scaler_fit_transform :
  list (list float) -> PyResult (list (list float)).
Variable kmeans_fit_predict :
  nat -> list (list float) -> PyResult (list Z).

(** C4, on the code: with two clusters and two customers, segmentation
    raises, whatever the clustering would have returned, because the RFM
    calculation raises first; the same holds for the specification's own
    example. *)
Theorem segmentation_raises_with_enough_customers :
  List.length
    (Pd.sorted_unique (Pd.column customer_id Examples.two_customers))
  = 2%nat /\
  segment_customers scaler_fit_transform kmeans_fit_predict
    Examples.two_customers 2 = Raise Pd.bin_labels_error /\
  segment_customers scaler_fit_transform kmeans_fit_predict
    Examples.same_day 2 = Raise Pd.bin_labels_error.
Proof.
  split; [reflexivity |].
  unfold segment_customers. cbn [Pd.empty Examples.two_customers
                                  Examples.same_day].
  split.
  - replace (calculate_rfm_metrics _) with
      (@Raise (list RfmRecord) Pd.bin_labels_error)
      by (vm_compute; reflexivity).
    reflexivity.
  - replace (calculate_rfm_metrics _) with
      (@Raise (list RfmRecord) Pd.bin_labels_error)
      by (vm_compute; reflexivity).
    reflexivity.
Qed.

(** The same on the class of tables of [rfm_single_customer_raises]: one
    customer is enough for one cluster, and segmentation raises. *)
Lemma segmentation_single_customer_raises (data : Pd.Frame Transaction)
    (stamps : list Z) (c : string) (n_clusters : nat) :
  data <> [] ->
  Pd.to_datetime (Pd.column timestamp data) = Ok stamps ->
  (forall t, In t (Pd.rows data) -> customer_id t = c) ->
  segment_customers scaler_fit_transform kmeans_fit_predict data n_clusters
  = Raise Pd.bin_labels_error.
Proof.
  intros Hd Hts Hc. unfold segment_customers.
  rewrite (rfm_single_customer_raises data stamps c Hd Hts Hc).
  destruct data; [contradiction | reflexivity].
Qed.

End Models.

(** On [six_days] the quantile edges are distinct: two clusters get two
    names. *)
Example segmentation_on_six_days :
  match segment_customers Examples.scaler Examples.kmeans
          Examples.six_days 2 with
  | Ok (table, stats) =>
      map segment_name table
      = [Some "Lost Customers"; Some "Champions"; Some "Lost Customers";
         Some "Champions"; Some "Lost Customers"; Some "Champions"]%string
      /\ map fst stats = ["Lost Customers"; "Champions"]%string
  | Raise _ => False
  end.
Proof. vm_compute. split; reflexivity. Qed.

End RfmClaims.

(** * Further properties of the two classes *)

(** ** Feature preparation *)

Module FeatureExtras.

Import AnomalyDetector DetectFacts.

(** The width an encoded group adds to a feature row. *)
Lemma concat_encoded_width (cap : nat) (col : list string)
    (features : list FeatureRow) (w : nat) :
  Forall (fun row => List.length row = w) features ->
  Forall (fun row =>
            List.length row
            = (w + (if (Pd.dummies_width col <=? cap)%nat
                    then Pd.dummies_width col else 0))%nat)
         (concat_encoded cap col features).
Proof.
  intros H. unfold concat_encoded.
  destruct (Pd.dummies_width col <=? cap)%nat.
  - apply Forall_forall. intros row Hrow. apply in_map_iff in Hrow.
    destruct Hrow as [[f d] [<- Hp]]. simpl.
    rewrite length_app, length_map.
    rewrite Forall_forall in H.
    rewrite (H f (in_combine_l _ _ _ _ Hp)). f_equal.
    apply in_combine_r in Hp. unfold Pd.get_dummies in Hp.
    apply in_map_iff in Hp. destruct Hp as [c [<- _]].
    rewrite length_map. reflexivity.
  - rewrite Nat.add_0_r. exact H.
Qed.

Lemma replace_inf_width (features : list FeatureRow) (w : nat) :
  Forall (fun row => List.length row = w) features ->
  Forall (fun row => List.length row = w) (replace_inf features).
Proof.
  intros H. unfold replace_inf. apply Forall_forall. intros row Hrow.
  apply in_map_iff in Hrow. destruct Hrow as [r [<- Hr]].
  rewrite length_map. rewrite Forall_forall in H. apply H. exact Hr.
Qed.

Lemma fillna_width (features : list FeatureRow) (w : nat) :
  Forall (fun row => List.length row = w) features ->
  Forall (fun row => List.length row = w)
         (fillna features (medians features)).
Proof.
  intros H. unfold fillna. apply Forall_forall. intros row Hrow.
  apply in_map_iff in Hrow. destruct Hrow as [r [<- Hr]].
  rewrite length_map, length_combine.
  rewrite Forall_forall in H. rewrite (H r Hr).
  unfold medians. destruct features as [| r0 rest]; [destruct Hr |].
  rewrite length_map, length_seq, (H r0 (or_introl eq_refl)).
  apply Nat.min_id.
Qed.

Lemma map_fst_combine_le {A B : Type} (a : list A) (b : list B) :
  (List.length a <= List.length b)%nat -> map fst (combine a b) = a.
Proof.
  revert b; induction a as [| x a IH]; intros [| y b] H; simpl in *;
    try lia; try reflexivity.
  f_equal. apply IH. lia.
Qed.

(** X1.  Feature preparation keeps the index of the table when all the
    timestamps parse, and gives the empty table when one does not. *)
Theorem prepare_features_keeps_index (data : Pd.Frame Transaction) :
  match Pd.to_datetime (Pd.column timestamp data) with
  | Ok _ => Pd.index (_prepare_features data) = Pd.index data
  | Raise _ => _prepare_features data = []
  end.
Proof.
  destruct (Pd.to_datetime (Pd.column timestamp data)) as [stamps | e] eqn:E.
  - pose proof (prepare_features_length data stamps E) as Hlen.
    unfold _prepare_features, prepare_features_body in *.
    rewrite E in *. simpl in *.
    rewrite length_combine, PdFacts.index_length in Hlen.
    unfold Pd.index at 1. apply map_fst_combine_le.
    rewrite PdFacts.index_length. lia.
  - apply (prepare_features_unparsed data e E).
Qed.

(** The width of the rows of the feature table of [data]. *)
Lemma prepare_features_row_width (data : Pd.Frame Transaction)
    (row : FeatureRow) :
  In row (Pd.rows (_prepare_features data)) ->
  let encoded cap col :=
    if (Pd.dummies_width col <=? cap)%nat then Pd.dummies_width col
    else 0%nat in
  List.length row
  = (8 + encoded 10%nat (Pd.column category data)
       + encoded 20%nat (Pd.column store_id data)
       + encoded 10%nat (Pd.column payment_method data))%nat.
Proof.
  intros Hrow encoded. subst encoded. cbv beta.
  unfold _prepare_features, prepare_features_body in Hrow.
  destruct (Pd.to_datetime (Pd.column timestamp data)) as [stamps | e];
    simpl in Hrow; [| destruct Hrow].
  unfold Pd.rows in Hrow. apply in_map_iff in Hrow.
  destruct Hrow as [[l r] [<- Hp]]. cbn [snd]. apply in_combine_r in Hp.
  revert r Hp. apply Forall_forall.
  apply fillna_width, replace_inf_width.
  do 3 apply concat_encoded_width.
  apply Forall_forall. intros r Hr. apply in_map_iff in Hr.
  destruct Hr as [p [<- _]]. reflexivity.
Qed.

(** X2.  Every row of the feature table has the same number of columns:
    the 8 numerical features and, for each of category, store and payment
    method, one column per distinct value unless there are more than 10,
    20 and 10 of them.  So a row has between 8 and 48 columns. *)
Theorem prepare_features_width_bounded (data : Pd.Frame Transaction)
    (row other : FeatureRow) :
  In row (Pd.rows (_prepare_features data)) ->
  In other (Pd.rows (_prepare_features data)) ->
  List.length row = List.length other /\
  (8 <= List.length row <= 48)%nat.
Proof.
  intros Hrow Hother.
  rewrite (prepare_features_row_width data row Hrow).
  rewrite (prepare_features_row_width data other Hother).
  split; [reflexivity |].
  destruct (Pd.dummies_width (Pd.column category data) <=? 10)%nat eqn:E1;
    destruct (Pd.dummies_width (Pd.column store_id data) <=? 20)%nat eqn:E2;
    destruct (Pd.dummies_width (Pd.column payment_method data) <=? 10)%nat
      eqn:E3;
    try apply Nat.leb_le in E1; try apply Nat.leb_le in E2;
    try apply Nat.leb_le in E3; lia.
Qed.

(** A run of X2 on [three_amounts]: one category, one store and one
    payment method give 11 columns. *)
Lemma prepare_features_width_bounded_witness :
  List.length
    (hd [] (Pd.rows (_prepare_features Examples.three_amounts))) = 11%nat.
Proof.
  destruct (prepare_features_width_bounded Examples.three_amounts
              (hd [] (Pd.rows (_prepare_features Examples.three_amounts)))
              (hd [] (Pd.rows (_prepare_features Examples.three_amounts))))
    as [_ _].
  - vm_compute. left. reflexivity.
  - vm_compute. left. reflexivity.
  - vm_compute. reflexivity.
Defined.

End FeatureExtras.

(** ** The batch methods *)

Module DetectExtras.

Import AnomalyDetector StatisticalFacts DetectFacts.

Lemma statistical_rows_of_input (data : Pd.Frame Transaction)
    (r : Z * AnomalyRecord) :
  In r (_statistical_detection data) -> In (fst r, txn (snd r)) data.
Proof.
  intros Hr.
  destruct (Pd.to_datetime (Pd.column timestamp data)) as [stamps | e] eqn:E.
  2: { rewrite (statistical_unparsed data e E) in Hr. destruct Hr. }
  destruct (statistical_body_rows data stamps E) as [result [Hb Hrows]].
  unfold _statistical_detection in Hr. rewrite Hb in Hr. simpl in Hr.
  apply Hrows in Hr. destruct Hr as [r0 [Hr0 [_ ->]]].
  apply with_columns_row in Hr0. destruct Hr0 as [H _]. exact H.
Qed.

(** The positions of the parsed timestamps follow the rows. *)
Lemma stamp_of_row (data : Pd.Frame Transaction) (stamps : list Z)
    (l : Z) (t : Transaction) (ns : Z) :
  Pd.to_datetime (Pd.column timestamp data) = Ok stamps ->
  In (l, t) data -> timestamp t = Pd.Timestamp ns ->
  In ((l, t), ns) (combine data stamps).
Proof.
  revert stamps; induction data as [| [l0 t0] data IH]; intros stamps H Hin Ht;
    [destruct Hin |].
  unfold Pd.to_datetime, Pd.column in H. simpl in H.
  destruct (Pd.to_datetime_cell (timestamp t0)) as [ns0 | e] eqn:E0;
    simpl in H; [| discriminate].
  destruct (mapM Pd.to_datetime_cell
              (map (fun r => timestamp (snd r)) data)) as [rest | e] eqn:Er;
    simpl in H; [| discriminate].
  injection H as <-. simpl. destruct Hin as [Hin | Hin].
  - left. injection Hin as -> ->. rewrite Ht in E0. simpl in E0.
    injection E0 as ->. reflexivity.
  - right. apply IH; assumption.
Qed.

(** [loc] only returns rows of the frame. *)
Lemma loc_rows {R : Type} (df found : Pd.Frame R) (labels : list Z)
    (x : Z * R) :
  Pd.loc df labels = Ok found -> In x found -> In x df.
Proof.
  unfold Pd.loc. intros Eloc Hx.
  destruct (mapM (Pd.loc_label df) labels) as [groups | e0] eqn:Eg;
    simpl in Eloc; [| discriminate].
  injection Eloc as <-. apply in_concat in Hx. destruct Hx as [g [Hg Hx]].
  destruct (PdFacts.mapM_In _ _ _ Eg g Hg) as [l [_ Hl]].
  unfold Pd.loc_label in Hl.
  destruct (filter _ df) as [| y ys] eqn:Ef; [discriminate |].
  injection Hl as <-. rewrite <- Ef in Hx. apply filter_In in Hx. tauto.
Qed.

Section Models.

Variable scaler_fit_transform : list FeatureRow -> PyResult (list FeatureRow).
Variable fit_predict : list FeatureRow -> PyResult (list Z).
Variable decision_function :
  list FeatureRow -> list FeatureRow -> PyResult (list float).

Local Abbreviation _isolation_forest_detection :=
  (_isolation_forest_detection scaler_fit_transform fit_predict
     decision_function).
Local Abbreviation detect_anomalies :=
  (detect_anomalies scaler_fit_transform fit_predict decision_function).

Lemma isolation_forest_rows_of_input (data : Pd.Frame Transaction)
    (features_df : Pd.Frame FeatureRow) (r : Z * AnomalyRecord) :
  In r (_isolation_forest_detection data features_df) ->
  In (fst r, txn (snd r)) data.
Proof.
  unfold AnomalyDetector._isolation_forest_detection,
         AnomalyDetector.isolation_forest_body.
  destruct (List.length features_df <? 10)%nat; [intros [] |].
  destruct (scaler_fit_transform _) as [scaled | e]; simpl; [| intros []].
  destruct (fit_predict scaled) as [labels | e]; simpl; [| intros []].
  destruct (decision_function scaled scaled) as [dec | e]; simpl;
    [| intros []].
  destruct (where_eq (-1) labels 0) as [| p ps]; [intros [] |].
  destruct (Pd.iloc data (p :: ps)) as [found | e] eqn:Eloc; simpl;
    [| intros []].
  destruct (take dec (p :: ps)) as [scores | e]; simpl; [| intros []].
  intros H. apply PdFacts.sort_values_desc_In in H. apply in_map_iff in H.
  destruct H as [[[l t] s] [<- H]]. simpl. apply in_combine_l in H.
  apply (PdFacts.iloc_subset _ _ _ Eloc) in H. exact H.
Qed.

(** X3.  The only exception [detect_anomalies] lets out is the
    [ValueError] for a method name it does not know, and only on a table
    that is not empty: no model failure, index error or missing label
    reaches the caller. *)
Theorem detect_raises_only_for_unknown_method (data : Pd.Frame Transaction)
    (method : string) (e : PyExn) :
  detect_anomalies data method = Raise e ->
  e = method_error /\ data <> [] /\
  ~ In method ["isolation_forest"; "statistical"; "combined"]%string.
Proof.
  intros H.
  destruct (String.eqb method "combined") eqn:Ec.
  { apply String.eqb_eq in Ec. subst method.
    destruct (combined_rows scaler_fit_transform fit_predict
                decision_function data) as [combined [Hc _]].
    rewrite Hc in H. discriminate. }
  unfold AnomalyDetector.detect_anomalies in H.
  destruct (Pd.empty data) eqn:Ed; [discriminate |].
  destruct (Pd.empty (_prepare_features data)); [discriminate |].
  destruct (String.eqb method "isolation_forest") eqn:E1; [discriminate |].
  destruct (String.eqb method "statistical") eqn:E2; [discriminate |].
  rewrite Ec in H. injection H as <-.
  split; [reflexivity |]. split.
  - intros ->. discriminate.
  - apply String.eqb_neq in Ec, E1, E2. simpl.
    intros [H | [H | [H | []]]]; symmetry in H; contradiction.
Qed.

(** X4.  Whatever the method, every row of the result is a row of the
    table: it has the label and the transaction of one of its rows. *)
Theorem detect_returns_rows_of_input (data : Pd.Frame Transaction)
    (method : string) (result : Pd.Frame AnomalyRecord)
    (r : Z * AnomalyRecord) :
  detect_anomalies data method = Ok result ->
  In r result ->
  In (fst r, txn (snd r)) data.
Proof.
  intros H Hr. unfold AnomalyDetector.detect_anomalies in H.
  destruct (Pd.empty data); [injection H as <-; destruct Hr |].
  destruct (Pd.empty (_prepare_features data));
    [injection H as <-; destruct Hr |].
  destruct (String.eqb method "isolation_forest").
  { injection H as <-. eapply isolation_forest_rows_of_input. exact Hr. }
  destruct (String.eqb method "statistical").
  { injection H as <-. apply statistical_rows_of_input. exact Hr. }
  destruct (String.eqb method "combined"); [| discriminate].
  destruct (Pd.loc data _) as [found | e0] eqn:Eloc; simpl in H;
    [| discriminate].
  injection H as <-. apply in_map_iff in Hr. destruct Hr as [x [<- Hx]].
  apply (loc_rows _ _ _ x Eloc) in Hx.
  destruct x as [lx tx]. exact Hx.
Qed.

End Models.

(** A run of X3 on [night_table]. *)
Lemma detect_raises_only_for_unknown_method_witness :
  ~ In "neural_network"%string
       ["isolation_forest"; "statistical"; "combined"]%string.
Proof.
  apply (detect_raises_only_for_unknown_method Examples.scaler
           Examples.forest Examples.decision Examples.night_table
           "neural_network" method_error).
  reflexivity.
Defined.

(** A run of X4 on [outlier_table] with the combined method: the first
    row of the result is row 3 of the table. *)
Lemma detect_returns_rows_of_input_witness :
  In (3, Examples.sale "TXN" (Examples.at_hour 12) "CUST_1001" 20%float 1)
     Examples.outlier_table.
Proof.
  apply (detect_returns_rows_of_input Examples.scaler Examples.forest
           Examples.decision Examples.outlier_table "combined"
           (map (plain 0.8%float)
                [ (3, Examples.sale "TXN" (Examples.at_hour 12) "CUST_1001"
                        20%float 1);
                  (7, Examples.sale "TXN" (Examples.at_hour 12) "CUST_1001"
                        1000%float 1) ])
           (plain 0.8%float
              (3, Examples.sale "TXN" (Examples.at_hour 12) "CUST_1001"
                    20%float 1))).
  - vm_compute. reflexivity.
  - left. reflexivity.
Defined.

(** X5.  In a table whose timestamps are datetimes, a sale made before
    06:00 is in the result of the statistical method, whatever its amount
    and quantity and whatever the rest of the table holds. *)
Theorem statistical_flags_night_sales (data : Pd.Frame Transaction)
    (stamps : list Z) (l : Z) (t : Transaction) (ns : Z) :
  Pd.to_datetime (Pd.column timestamp data) = Ok stamps ->
  In (l, t) data ->
  timestamp t = Pd.Timestamp ns ->
  Pd.hour ns < 6 ->
  exists r, In (l, r) (_statistical_detection data) /\ txn r = t.
Proof.
  intros Hts Hin Ht Hh.
  assert (List.length stamps = List.length data) as Hlen.
  { rewrite (PdFacts.to_datetime_length _ _ Hts).
    apply PdFacts.column_length. }
  destruct (statistical_body_rows data stamps Hts) as [result [Hb Hrows]].
  unfold _statistical_detection. rewrite Hb. simpl.
  destruct (with_columns_has data stamps l t Hlen Hin) as [r0 [Hr0 Htx]].
  exists (snd (set_score (l, r0))). split; [| exact Htx].
  apply Hrows. exists (l, r0). split; [exact Hr0 |].
  split; [| reflexivity].
  right. right. right. simpl. unfold time_anomalies.
  apply PdFacts.in_index. exists t. apply PdFacts.select_In.
  pose proof (stamp_of_row data stamps l t ns Hts Hin Ht) as Hc.
  clear - Hc Hh. revert stamps Hc.
  induction data as [| x data IH]; intros [| s stamps] Hc; simpl in *;
    try contradiction.
  destruct Hc as [Hc | Hc].
  - left. injection Hc as -> ->.
    apply Z.ltb_lt in Hh. rewrite Hh. reflexivity.
  - right. apply IH. exact Hc.
Qed.

(** A run of X5 on [three_amounts]: the sale of 03:00. *)
Lemma statistical_flags_night_sales_witness :
  exists r, In (1, r) (_statistical_detection Examples.three_amounts) /\
            txn r = Examples.sale "TXN_1" (Examples.at_hour 3) "CUST_1002"
                      2%float 1.
Proof.
  apply (statistical_flags_night_sales Examples.three_amounts
           [12 * Pd.ns_per_hour; 3 * Pd.ns_per_hour; 12 * Pd.ns_per_hour]
           1 _ (3 * Pd.ns_per_hour)).
  - reflexivity.
  - right. left. reflexivity.
  - reflexivity.
  - vm_compute. reflexivity.
Defined.

End DetectExtras.

(** ** Result sizes and the anomaly summary *)

Module SummaryFacts.

Import AnomalyDetector StatisticalFacts DetectFacts DetectExtras.

Lemma insert_desc_length {A : Type} (key : A -> float) (x : A)
    (l : list A) :
  List.length (Pd.insert_desc key x l) = S (List.length l).
Proof.
  induction l as [| y l IH]; simpl; [reflexivity |].
  destruct (Np.isnan (key x)); [simpl; rewrite IH; reflexivity |].
  destruct (Np.isnan (key y)); [reflexivity |].
  destruct (Np.lt (key x) (key y)); simpl; [rewrite IH |]; reflexivity.
Qed.

Lemma sort_values_desc_length {A : Type} (key : A -> float) (l : list A) :
  List.length (Pd.sort_values_desc key l) = List.length l.
Proof.
  induction l as [| x l IH]; [reflexivity |].
  unfold Pd.sort_values_desc in *. simpl.
  rewrite insert_desc_length, IH. reflexivity.
Qed.

Lemma loc_groups {R : Type} (df : Pd.Frame R) (labels : list Z)
    (groups : list (Pd.Frame R)) :
  mapM (Pd.loc_label df) labels = Ok groups ->
  groups = map (fun l => filter (fun r => fst r =? l) df) labels.
Proof.
  revert groups; induction labels as [| l labels IH]; intros groups H;
    simpl in H.
  - injection H as <-. reflexivity.
  - unfold Pd.loc_label at 1 in H.
    destruct (filter (fun r => fst r =? l) df) as [| y ys] eqn:E;
      simpl in H; [discriminate |].
    destruct (mapM (Pd.loc_label df) labels) as [gs | e]; simpl in H;
      [| discriminate].
    injection H as <-. simpl. rewrite E. f_equal. apply IH. reflexivity.
Qed.

(** Rows picked label by label, each label once, are no more than the
    rows there are. *)
Lemma groups_length {R : Type} (labels : list Z) :
  NoDup labels ->
  forall df : Pd.Frame R,
    (List.length
       (List.concat
          (map (fun l => filter (fun r => Z.eqb (fst r) l) df) labels))
     <= List.length df)%nat.
Proof.
  induction 1 as [| l labels Hnot Hnd IH]; intros df; simpl; [lia |].
  rewrite length_app.
  pose proof (filter_length (fun r : Z * R => fst r =? l) df) as Hsplit.
  specialize (IH (filter (fun r => negb (fst r =? l)) df)).
  assert (map (fun l' => filter (fun r : Z * R => fst r =? l')
                           (filter (fun r => negb (fst r =? l)) df)) labels
          = map (fun l' => filter (fun r : Z * R => fst r =? l') df) labels)
    as E.
  { apply map_ext_in. intros l' Hl'.
    clear - Hl' Hnot. induction df as [| r df IHdf]; [reflexivity |].
    simpl. destruct (fst r =? l) eqn:El; simpl.
    - apply Z.eqb_eq in El.
      destruct (fst r =? l') eqn:El'; [| exact IHdf].
      apply Z.eqb_eq in El'. exfalso. apply Hnot. congruence.
    - rewrite IHdf. reflexivity. }
  rewrite E in IH. lia.
Qed.

Lemma loc_length {R : Type} (df found : Pd.Frame R) (labels : list Z) :
  Pd.loc df (Pd.set_of labels) = Ok found ->
  (List.length found <= List.length df)%nat.
Proof.
  unfold Pd.loc. intros H.
  destruct (mapM (Pd.loc_label df) _) as [groups | e] eqn:E; simpl in H;
    [| discriminate].
  injection H as <-. rewrite (loc_groups _ _ _ E).
  apply groups_length. apply NoDup_nodup.
Qed.

Lemma where_eq_bounds (v : Z) (labels : list Z) (start p : nat) :
  In p (where_eq v labels start) -> (start <= p)%nat.
Proof.
  revert start; induction labels as [| x labels IH]; intros start H;
    simpl in H; [destruct H |].
  destruct (x =? v).
  - destruct H as [<- | H]; [lia |]. apply IH in H. lia.
  - apply IH in H. lia.
Qed.

Lemma where_eq_NoDup (v : Z) (labels : list Z) (start : nat) :
  NoDup (where_eq v labels start).
Proof.
  revert start; induction labels as [| x labels IH]; intros start; simpl;
    [constructor |].
  destruct (x =? v); [| apply IH].
  constructor; [| apply IH].
  intros H. apply where_eq_bounds in H. lia.
Qed.

Lemma iloc_length {R : Type} (df found : Pd.Frame R) (positions : list nat) :
  NoDup positions ->
  Pd.iloc df positions = Ok found ->
  (List.length found <= List.length df)%nat.
Proof.
  intros Hnd H. rewrite (PdFacts.mapM_length _ _ _ H).
  rewrite <- (length_seq (List.length df) 0).
  apply NoDup_incl_length; [exact Hnd |].
  intros p Hp. apply in_seq. split; [lia |]. simpl.
  clear Hnd. revert found H.
  induction positions as [| q positions IH]; intros found H;
    [destruct Hp |].
  unfold Pd.iloc in H. simpl in H.
  destruct (nth_error df q) as [x |] eqn:Eq; simpl in H; [| discriminate].
  destruct (mapM _ positions) as [rest | e] eqn:Er; simpl in H;
    [| discriminate].
  destruct Hp as [-> | Hp].
  - apply nth_error_Some. congruence.
  - apply (IH Hp rest). exact Er.
Qed.

Lemma with_columns_length (data : Pd.Frame Transaction) (stamps : list Z) :
  (List.length (with_columns data stamps) <= List.length data)%nat.
Proof.
  unfold with_columns. rewrite length_map, length_combine. lia.
Qed.

Lemma statistical_length (data : Pd.Frame Transaction) :
  (List.length (_statistical_detection data) <= List.length data)%nat.
Proof.
  unfold _statistical_detection, statistical_body.
  destruct (Pd.to_datetime _) as [stamps | e]; simpl; [| lia].
  destruct (append_index _ _) as [| a rest]; simpl; [lia |].
  destruct (Pd.loc _ _) as [found | e] eqn:E; simpl; [| lia].
  change (Pd.set_of (a ++ List.concat rest))
    with (Pd.set_of (List.concat (a :: rest))) in E.
  rewrite sort_values_desc_length, length_map.
  apply loc_length in E. pose proof (with_columns_length data stamps). lia.
Qed.

(** The distinct values of a column, weighted by their occurrences, make
    up the column. *)
Lemma count_occ_total {A : Type}
    (eq_dec : forall x y : A, {x = y} + {x <> y}) (values col : list A) :
  NoDup values -> (forall x, In x col -> In x values) ->
  fold_right Z.add 0
    (map (fun v => Z.of_nat (count_occ eq_dec col v)) values)
  = Z.of_nat (List.length col).
Proof.
  intros Hnd. induction col as [| x col IH]; intros Hin.
  - clear Hnd Hin. induction values as [| v values IHv]; [reflexivity |].
    simpl. exact IHv.
  - specialize (IH (fun y Hy => Hin y (or_intror Hy))).
    assert (In x values) as Hx by (apply Hin; left; reflexivity).
    rewrite length_cons, Nat2Z.inj_succ, <- IH. clear IH Hin.
    induction values as [| v values IHv]; [destruct Hx |].
    inversion Hnd as [| ? ? Hnot Hnd']; subst.
    cbn [map fold_right]. destruct (eq_dec x v) as [-> | Hne].
    + rewrite count_occ_cons_eq by reflexivity.
      assert (map (fun v0 => Z.of_nat (count_occ eq_dec (v :: col) v0)) values
              = map (fun v0 => Z.of_nat (count_occ eq_dec col v0)) values)
        as ->.
      { apply map_ext_in. intros v0 Hv0.
        rewrite count_occ_cons_neq; [reflexivity |].
        intros ->. contradiction. }
      lia.
    + rewrite count_occ_cons_neq by exact Hne.
      destruct Hx as [-> | Hx]; [contradiction |].
      rewrite (IHv Hnd' Hx). lia.
Qed.

Lemma insert_count_total {A : Type} (x : A * Z) (l : list (A * Z)) :
  fold_right Z.add 0 (map snd (Pd.insert_count x l))
  = snd x + fold_right Z.add 0 (map snd l).
Proof.
  induction l as [| y l IH]; simpl; [reflexivity |].
  destruct (snd y <? snd x); simpl; [reflexivity |].
  rewrite IH. lia.
Qed.

(** The counts of [value_counts] add up to the length of the column. *)
Lemma value_counts_total {A : Type}
    (eq_dec : forall x y : A, {x = y} + {x <> y}) (col : list A) :
  fold_right Z.add 0 (map snd (Pd.value_counts eq_dec col))
  = Z.of_nat (List.length col).
Proof.
  unfold Pd.value_counts.
  rewrite <- (count_occ_total eq_dec (nodup eq_dec col) col).
  - induction (nodup eq_dec col) as [| v values IH]; [reflexivity |].
    simpl. rewrite insert_count_total, IH. reflexivity.
  - apply NoDup_nodup.
  - intros x Hx. apply nodup_In. exact Hx.
Qed.

Lemma to_datetime_cells (col : list Pd.RawTimestamp) (stamps : list Z) :
  Pd.to_datetime col = Ok stamps ->
  forall cell, In cell col -> exists ns, cell = Pd.Timestamp ns.
Proof.
  revert stamps; induction col as [| c col IH]; intros stamps H cell Hc;
    [destruct Hc |].
  unfold Pd.to_datetime in H. simpl in H.
  destruct c as [ns | text]; simpl in H; [| discriminate].
  destruct (mapM Pd.to_datetime_cell col) as [rest | e] eqn:E; simpl in H;
    [| discriminate].
  destruct Hc as [<- | Hc]; [exists ns; reflexivity |].
  apply (IH rest); [exact E | exact Hc].
Qed.

Lemma dt_hour_ok (col : list Pd.RawTimestamp) :
  (forall cell, In cell col -> exists ns, cell = Pd.Timestamp ns) ->
  exists hours, Pd.dt_hour col = Ok hours /\
                List.length hours = List.length col.
Proof.
  intros H. unfold Pd.dt_hour.
  rewrite (PdFacts.mapM_ok _
             (fun cell => match cell with
                          | Pd.Timestamp ns => Pd.hour ns
                          | Pd.Unparseable _ => 0
                          end)).
  - eexists. split; [reflexivity | apply length_map].
  - intros cell Hc. destruct (H cell Hc) as [ns ->]. reflexivity.
Qed.

End SummaryFacts.

Module SummaryExtras.

Import AnomalyDetector StatisticalFacts DetectFacts DetectExtras SummaryFacts.

Section Models.

Variable scaler_fit_transform : list FeatureRow -> PyResult (list FeatureRow).
Variable fit_predict : list FeatureRow -> PyResult (list Z).
Variable decision_function :
  list FeatureRow -> list FeatureRow -> PyResult (list float).

Local Abbreviation _isolation_forest_detection :=
  (_isolation_forest_detection scaler_fit_transform fit_predict
     decision_function).
Local Abbreviation detect_anomalies :=
  (detect_anomalies scaler_fit_transform fit_predict decision_function).
Local Abbreviation get_anomaly_summary :=
  (get_anomaly_summary scaler_fit_transform fit_predict decision_function).

Lemma isolation_forest_length (data : Pd.Frame Transaction)
    (features_df : Pd.Frame FeatureRow) :
  (List.length (_isolation_forest_detection data features_df)
   <= List.length data)%nat.
Proof.
  unfold AnomalyDetector._isolation_forest_detection,
         AnomalyDetector.isolation_forest_body.
  destruct (List.length features_df <? 10)%nat; [simpl; lia |].
  destruct (scaler_fit_transform _) as [scaled | e]; simpl; [| lia].
  destruct (fit_predict scaled) as [labels | e]; simpl; [| lia].
  destruct (decision_function scaled scaled) as [dec | e]; simpl; [| lia].
  pose proof (where_eq_NoDup (-1) labels 0) as Hnd.
  destruct (where_eq (-1) labels 0) as [| p ps]; [simpl; lia |].
  destruct (Pd.iloc data (p :: ps)) as [found | e] eqn:Eloc; simpl; [| lia].
  destruct (take dec (p :: ps)) as [scores | e]; simpl; [| lia].
  rewrite sort_values_desc_length, length_map, length_combine.
  apply (iloc_length _ _ _ Hnd) in Eloc. lia.
Qed.

(** The combined result: rows of the table, no more than it has. *)
Lemma combined_result (data : Pd.Frame Transaction)
    (anomalies : Pd.Frame AnomalyRecord) :
  detect_anomalies data "combined" = Ok anomalies ->
  (List.length anomalies <= List.length data)%nat /\
  forall r, In r anomalies -> In (fst r, txn (snd r)) data.
Proof.
  intros H. unfold AnomalyDetector.detect_anomalies in H.
  destruct (Pd.empty data);
    [injection H as <-; split; [simpl; lia | intros r []] |].
  destruct (Pd.empty (_prepare_features data));
    [injection H as <-; split; [simpl; lia | intros r []] |].
  simpl String.eqb in H. cbv iota in H.
  destruct (Pd.loc data _) as [found | e0] eqn:Eloc; simpl in H;
    [| discriminate].
  injection H as <-. split.
  - rewrite length_map. apply loc_length in Eloc. exact Eloc.
  - intros r Hr. apply in_map_iff in Hr. destruct Hr as [x [<- Hx]].
    apply (loc_rows _ _ _ x Eloc) in Hx. destruct x as [lx tx]. exact Hx.
Qed.

(** X6.  Whatever the method, the result has no more rows than the
    table. *)
Theorem detect_result_no_larger (data : Pd.Frame Transaction)
    (method : string) (result : Pd.Frame AnomalyRecord) :
  detect_anomalies data method = Ok result ->
  (List.length result <= List.length data)%nat.
Proof.
  intros H. unfold AnomalyDetector.detect_anomalies in H.
  destruct (Pd.empty data); [injection H as <-; simpl; lia |].
  destruct (Pd.empty (_prepare_features data));
    [injection H as <-; simpl; lia |].
  destruct (String.eqb method "isolation_forest").
  { injection H as <-. apply isolation_forest_length. }
  destruct (String.eqb method "statistical").
  { injection H as <-. apply statistical_length. }
  destruct (String.eqb method "combined"); [| discriminate].
  destruct (Pd.loc data _) as [found | e0] eqn:Eloc; simpl in H;
    [| discriminate].
  injection H as <-. rewrite length_map. apply loc_length in Eloc.
  exact Eloc.
Qed.

(** The combined result of a table that is not empty: if it has a row,
    the hours of its timestamps can be read. *)
Lemma combined_hours (data : Pd.Frame Transaction)
    (anomalies : Pd.Frame AnomalyRecord) :
  detect_anomalies data "combined" = Ok anomalies ->
  exists hours,
    Pd.dt_hour (Pd.column (fun r => timestamp (txn r)) anomalies) = Ok hours
    /\ List.length hours = List.length anomalies.
Proof.
  intros H.
  destruct (Pd.to_datetime (Pd.column timestamp data)) as [stamps | e] eqn:E.
  - destruct (dt_hour_ok (Pd.column (fun r => timestamp (txn r)) anomalies))
      as [hours [Hh Hl]].
    + intros cell Hc. unfold Pd.column in Hc. apply in_map_iff in Hc.
      destruct Hc as [r [<- Hr]].
      apply (to_datetime_cells _ _ E).
      destruct (combined_result data anomalies H) as [_ Hrows].
      pose proof (Hrows r Hr) as Hin.
      unfold Pd.column. apply in_map_iff.
      exists (fst r, txn (snd r)). split; [reflexivity | exact Hin].
    + exists hours. split; [exact Hh |].
      rewrite Hl. apply PdFacts.column_length.
  - unfold AnomalyDetector.detect_anomalies in H.
    rewrite (prepare_features_unparsed data e E) in H.
    destruct (Pd.empty data); injection H as <-;
      exists []; split; reflexivity.
Qed.

(** X7.  [get_anomaly_summary] returns for every table and every fitted
    model, and the empty dict is returned for the empty table only. *)
Theorem summary_always_returns (data : Pd.Frame Transaction) :
  exists summary,
    get_anomaly_summary data = Ok summary /\
    (summary = None <-> data = []).
Proof.
  unfold AnomalyDetector.get_anomaly_summary.
  destruct data as [| row data'].
  { exists None. split; [reflexivity | tauto]. }
  cbn [Pd.empty].
  destruct (combined_rows scaler_fit_transform fit_predict decision_function
              (row :: data')) as [anomalies [Hc _]].
  rewrite Hc. simpl bind.
  destruct (Pd.empty anomalies).
  { eexists. split; [reflexivity |]. split; discriminate. }
  destruct (combined_hours (row :: data') anomalies Hc) as [hours [Hh _]].
  rewrite Hh. simpl bind.
  eexists. split; [reflexivity |]. split; discriminate.
Qed.

(** X8.  In the summary of a table, the total is the number of rows, the
    number of anomalous transactions is at most the total, and the counts
    by category and by store each add up to it.  The keys
    ['max_anomaly_amount'] and ['anomaly_hours'] are present exactly when
    at least one transaction is anomalous, and then the counts by hour
    add up to it as well. *)
Theorem summary_counts (data : Pd.Frame Transaction)
    (summary : AnomalySummary) :
  get_anomaly_summary data = Ok (Some summary) ->
  total_transactions summary = Z.of_nat (List.length data) /\
  0 <= anomalous_transactions summary <= total_transactions summary /\
  fold_right Z.add 0 (map snd (anomaly_categories summary))
  = anomalous_transactions summary /\
  fold_right Z.add 0 (map snd (anomaly_stores summary))
  = anomalous_transactions summary /\
  match anomaly_hours summary with
  | Some hours =>
      fold_right Z.add 0 (map snd hours) = anomalous_transactions summary /\
      0 < anomalous_transactions summary /\
      max_anomaly_amount summary <> None
  | None =>
      anomalous_transactions summary = 0 /\
      max_anomaly_amount summary = None
  end.
Proof.
  unfold AnomalyDetector.get_anomaly_summary.
  destruct (Pd.empty data); [discriminate |].
  destruct (detect_anomalies data "combined") as [anomalies | e] eqn:Hc;
    simpl bind; [| discriminate].
  destruct anomalies as [| a rest] eqn:Ea.
  { cbn [Pd.empty]. intros H. injection H as <-. simpl.
    repeat split; lia. }
  rewrite <- Ea in *. assert (Pd.empty anomalies = false) as ->
    by (rewrite Ea; reflexivity).
  destruct (combined_hours data anomalies Hc) as [hours [Hh Hlen]].
  rewrite Hh. simpl bind. intros H. injection H as <-. simpl.
  destruct (combined_result data anomalies Hc) as [Hle _].
  rewrite !value_counts_total, !PdFacts.column_length, Hlen.
  repeat split; try lia.
  - rewrite Ea. simpl. lia.
  - discriminate.
Qed.

End Models.

(** A run of X6 on [outlier_table]: two rows out of twelve. *)
Lemma detect_result_no_larger_witness :
  (List.length
     (map (plain 0.8%float)
          [ (3%Z, Examples.sale "TXN" (Examples.at_hour 12) "CUST_1001"
                    20%float 1%Z);
            (7%Z, Examples.sale "TXN" (Examples.at_hour 12) "CUST_1001"
                    1000%float 1%Z) ])
   <= List.length Examples.outlier_table)%nat.
Proof.
  apply (detect_result_no_larger Examples.scaler Examples.forest
           Examples.decision Examples.outlier_table "combined"
           (map (plain 0.8%float)
                [ (3, Examples.sale "TXN" (Examples.at_hour 12) "CUST_1001"
                        20%float 1);
                  (7, Examples.sale "TXN" (Examples.at_hour 12) "CUST_1001"
                        1000%float 1) ])).
  vm_compute. reflexivity.
Defined.

(** A run of X8 on [outlier_table]: twelve transactions, two of them
    anomalous, both at noon. *)
Lemma summary_counts_witness :
  match AnomalyDetector.get_anomaly_summary Examples.scaler Examples.forest
          Examples.decision Examples.outlier_table with
  | Ok (Some summary) =>
      total_transactions summary = 12 /\
      anomalous_transactions summary = 2 /\
      anomaly_hours summary = Some [(12, 2)]
  | _ => False
  end.
Proof.
  destruct (AnomalyDetector.get_anomaly_summary Examples.scaler
              Examples.forest Examples.decision Examples.outlier_table)
    as [[summary |] | e] eqn:E.
  - destruct (summary_counts Examples.scaler Examples.forest
                Examples.decision Examples.outlier_table summary E)
      as [Ht _].
    vm_compute in E. injection E as <-.
    split; [exact Ht |]. split; reflexivity.
  - vm_compute in E. discriminate.
  - vm_compute in E. discriminate.
Defined.

End SummaryExtras.

(** ** The single-transaction check, continued *)

Module RealTimeExtras.

Import AnomalyDetector.

(** X9.  When [detect_real_time_anomalies] returns the score keys, the
    transaction is anomalous exactly when at least one reason is listed,
    and no more than three reasons are. *)
Theorem real_time_anomalous_iff_reasons (new_transaction : NewTransaction)
    (historical_data : Pd.Frame Transaction) (threshold_std : float)
    (verdict : Verdict) (computed : Scores) :
  detect_real_time_anomalies new_transaction historical_data threshold_std
  = Ok verdict ->
  scores verdict = Some computed ->
  (is_anomaly verdict = true <-> rt_reasons computed <> []) /\
  (List.length (rt_reasons computed) <= 3)%nat.
Proof.
  unfold detect_real_time_anomalies.
  destruct (Pd.empty historical_data).
  { intros H. injection H as <-. discriminate. }
  intros H. injection H as <-.
  unfold real_time_body.
  destruct (match new_transaction with
            | Dict items => _
            | Series items => _
            end) as [fields | e]; simpl bind; [| discriminate].
  destruct (zscore_or_zero (fst (fst fields)) _) as [az | e]; simpl bind;
    [| discriminate].
  destruct (zscore_or_zero (snd (fst fields)) _) as [qz | e]; simpl bind;
    [| discriminate].
  match goal with
  | |- context [bind ?c _] => destruct c as [[cz flag] | e]
  end; simpl bind; [| discriminate].
  simpl. intros H. injection H as <-. simpl.
  destruct (Np.gt az threshold_std), (Np.gt qz threshold_std), flag; simpl;
    split; try lia; split; congruence.
Qed.

(** A run of X9: an amount of 5000 against [outlier_table] is anomalous
    and comes with a reason. *)
Lemma real_time_anomalous_iff_reasons_witness :
  match detect_real_time_anomalies
          (Dict [("total_amount"%string, PyFloat 5000%float);
                 ("quantity"%string, PyFloat 1%float);
                 ("category"%string, PyStr "Food")])
          Examples.outlier_table 2%float with
  | Ok verdict =>
      match scores verdict with
      | Some computed => rt_reasons computed <> []
      | None => False
      end
  | Raise _ => False
  end.
Proof.
  destruct (detect_real_time_anomalies
              (Dict [("total_amount"%string, PyFloat 5000%float);
                     ("quantity"%string, PyFloat 1%float);
                     ("category"%string, PyStr "Food")])
              Examples.outlier_table 2%float) as [verdict | e] eqn:E.
  - destruct (scores verdict) as [computed |] eqn:Es.
    + apply (real_time_anomalous_iff_reasons _ _ _ verdict computed E Es).
      vm_compute in E. injection E as <-. reflexivity.
    + vm_compute in E. injection E as <-. discriminate.
  - vm_compute in E. discriminate.
Defined.

Lemma zscore_or_zero_numeric (v : PyVal) (history : list float) :
  numeric v -> exists z, zscore_or_zero v history = Ok z.
Proof.
  intros [x ->]. unfold zscore_or_zero.
  destruct (Np.gt _ _); simpl; eexists; reflexivity.
Qed.

(** X10.  A new transaction given as a dict is always scored when the
    values it holds under ['total_amount'] and ['quantity'] are numbers:
    keys that are missing are replaced by their defaults, and the verdict
    never carries an error. *)
Theorem real_time_dict_is_scored (items : list (string * PyVal))
    (historical_data : Pd.Frame Transaction) (threshold_std : float) :
  historical_data <> [] ->
  (forall v, lookup "total_amount" items = Some v -> numeric v) ->
  (forall v, lookup "quantity" items = Some v -> numeric v) ->
  exists verdict computed,
    detect_real_time_anomalies (Dict items) historical_data threshold_std
    = Ok verdict /\
    scores verdict = Some computed /\ reason verdict = None.
Proof.
  intros Hh Ha Hq. unfold detect_real_time_anomalies.
  destruct historical_data as [| row history]; [contradiction |].
  cbn [Pd.empty]. unfold real_time_body. cbn [bind fst snd].
  assert (numeric (dict_get "total_amount" (PyFloat 0) items)) as Na.
  { unfold dict_get. destruct (lookup "total_amount" items) as [v |].
    - apply Ha. reflexivity.
    - exists 0%float. reflexivity. }
  assert (numeric (dict_get "quantity" (PyFloat 0) items)) as Nq.
  { unfold dict_get. destruct (lookup "quantity" items) as [v |].
    - apply Hq. reflexivity.
    - exists 0%float. reflexivity. }
  destruct (zscore_or_zero_numeric _
              (Pd.column total_amount (row :: history)) Na) as [az ->].
  destruct (zscore_or_zero_numeric _
              (map Np.of_Z (Pd.column quantity (row :: history))) Nq)
    as [qz ->].
  cbn [bind].
  match goal with
  | |- context [Pd.empty ?d] => destruct (Pd.empty d)
  end.
  - cbn [bind try_except fst snd]. eexists. eexists.
    split; [reflexivity |]. split; reflexivity.
  - match goal with
    | |- context [zscore_or_zero ?v ?h] =>
        destruct (zscore_or_zero_numeric v h Na) as [cz ->]
    end.
    cbn [bind try_except fst snd]. eexists. eexists.
    split; [reflexivity |]. split; reflexivity.
Qed.

(** A run of X10: the empty dict against [outlier_table]. *)
Lemma real_time_dict_is_scored_witness :
  exists verdict computed,
    detect_real_time_anomalies (Dict []) Examples.outlier_table 2%float
    = Ok verdict /\
    scores verdict = Some computed /\ reason verdict = None.
Proof.
  apply (real_time_dict_is_scored [] Examples.outlier_table 2%float).
  - discriminate.
  - intros v H. discriminate.
  - intros v H. discriminate.
Defined.

(** X11.  A new transaction given as a Series that lacks one of the keys
    ['total_amount'], ['quantity'] and ['category'] gets, on a history
    that is not empty, the verdict "not anomalous" whose reason carries
    the [KeyError] of the first key that is missing, in that order. *)
Theorem real_time_series_missing_key (items : list (string * PyVal))
    (historical_data : Pd.Frame Transaction) (threshold_std : float)
    (key : string) :
  historical_data <> [] ->
  lookup key items = None ->
  (key = "total_amount"%string \/
   key = "quantity"%string /\ lookup "total_amount" items <> None \/
   key = "category"%string /\ lookup "total_amount" items <> None /\
   lookup "quantity" items <> None) ->
  detect_real_time_anomalies (Series items) historical_data threshold_std
  = Ok {| is_anomaly := false;
          reason := Some (ErrorInDetection (KeyError key));
          scores := None |}.
Proof.
  intros Hh Hk Hcase. unfold detect_real_time_anomalies.
  destruct historical_data as [| row history]; [contradiction |].
  cbn [Pd.empty]. unfold real_time_body, getitem.
  destruct Hcase as [-> | [[-> Ha] | [-> [Ha Hq]]]].
  - rewrite Hk. reflexivity.
  - destruct (lookup "total_amount" items); [| contradiction].
    rewrite Hk. reflexivity.
  - destruct (lookup "total_amount" items); [| contradiction].
    destruct (lookup "quantity" items); [| contradiction].
    rewrite Hk. reflexivity.
Qed.

(** A run of X11: a Series with an amount and nothing else. *)
Lemma real_time_series_missing_key_witness :
  detect_real_time_anomalies
    (Series [("total_amount"%string, PyFloat 500%float)])
    Examples.outlier_table 2%float
  = Ok {| is_anomaly := false;
          reason := Some (ErrorInDetection (KeyError "quantity"));
          scores := None |}.
Proof.
  apply (real_time_series_missing_key
           [("total_amount"%string, PyFloat 500%float)]
           Examples.outlier_table 2%float "quantity").
  - discriminate.
  - reflexivity.
  - right. left. split; [reflexivity | discriminate].
Defined.

End RealTimeExtras.

(** ** The RFM table, continued *)

Module GroupFacts.

Import CustomerSegmentation RfmFacts.

Lemma before_trans (a b c : string) : Pd.before a b -> Pd.before b c -> Pd.before a c.
Proof.
  unfold Pd.before. intros H1 H2.
  apply OrderedTypeEx.String_as_OT.cmp_lt in H1, H2.
  apply OrderedTypeEx.String_as_OT.cmp_lt.
  eapply OrderedTypeEx.String_as_OT.lt_trans; eassumption.
Qed.

Lemma before_irrefl (a : string) : ~ Pd.before a a.
Proof. unfold Pd.before. rewrite RfmClaims.compare_same. discriminate. Qed.

Lemma before_flip (a b : string) : String.compare a b = Gt -> Pd.before b a.
Proof.
  unfold Pd.before. intros H. rewrite String.compare_antisym, H. reflexivity.
Qed.

Lemma insert_string_sorted (s : string) (l : list string) :
  StronglySorted Pd.before l -> StronglySorted Pd.before (Pd.insert_string s l).
Proof.
  induction 1 as [| t l Hs IH Hall]; simpl; [repeat constructor |].
  destruct (String.compare s t) eqn:E.
  - constructor; assumption.
  - constructor; [constructor; assumption |].
    constructor; [exact E |].
    eapply Forall_impl; [| exact Hall].
    intros x Hx. eapply before_trans; [exact E | exact Hx].
  - constructor; [exact IH |].
    apply Forall_forall. intros x Hx. apply PdFacts.insert_string_In in Hx.
    destruct Hx as [-> | Hx]; [apply before_flip; exact E |].
    rewrite Forall_forall in Hall. apply Hall. exact Hx.
Qed.

(** The keys of a [groupby] are in strictly ascending order. *)
Lemma sorted_unique_sorted (col : list string) :
  StronglySorted Pd.before (Pd.sorted_unique col).
Proof.
  induction col as [| s col IH]; [constructor |].
  unfold Pd.sorted_unique in *. simpl. apply insert_string_sorted. exact IH.
Qed.

Lemma sorted_NoDup (l : list string) : StronglySorted Pd.before l -> NoDup l.
Proof.
  induction 1 as [| t l Hs IH Hall]; constructor; [| exact IH].
  intros Hin. rewrite Forall_forall in Hall.
  apply (before_irrefl t). apply Hall. exact Hin.
Qed.

Lemma sorted_unique_NoDup (col : list string) :
  NoDup (Pd.sorted_unique col).
Proof. apply sorted_NoDup, sorted_unique_sorted. Qed.

(** The size of a customer's group is the number of times the customer
    occurs in the table. *)
Lemma group_of_length (rows : list Transaction) (stamps : list Z)
    (c : string) :
  List.length rows = List.length stamps ->
  List.length (group_of c (combine rows stamps))
  = count_occ string_dec (map customer_id rows) c.
Proof.
  revert stamps; induction rows as [| t rows IH]; intros [| s stamps] H;
    simpl in *; try discriminate; [reflexivity |].
  destruct (string_dec (customer_id t) c) as [E | E].
  - apply String.eqb_eq in E. rewrite E. simpl. f_equal. apply IH.
    congruence.
  - apply String.eqb_neq in E. rewrite E. apply IH. congruence.
Qed.

Lemma rows_stamps_length (data : Pd.Frame Transaction) (stamps : list Z) :
  Pd.to_datetime (Pd.column timestamp data) = Ok stamps ->
  List.length (Pd.rows data) = List.length stamps.
Proof.
  intros H. rewrite (PdFacts.to_datetime_length _ _ H).
  unfold Pd.column, Pd.rows. rewrite !length_map. reflexivity.
Qed.

Lemma column_rows {A : Type} (f : Transaction -> A)
    (data : Pd.Frame Transaction) :
  Pd.column f data = map f (Pd.rows data).
Proof. unfold Pd.column, Pd.rows. rewrite map_map. reflexivity. Qed.

(** Every key of the [groupby] has a row in its group. *)
Lemma group_of_key (data : Pd.Frame Transaction) (stamps : list Z)
    (c : string) :
  Pd.to_datetime (Pd.column timestamp data) = Ok stamps ->
  In c (Pd.sorted_unique (Pd.column customer_id data)) ->
  (0 < List.length (group_of c (combine (Pd.rows data) stamps)))%nat.
Proof.
  intros Hts Hc. rewrite group_of_length by (apply rows_stamps_length; auto).
  rewrite PdFacts.sorted_unique_In, column_rows in Hc.
  apply (count_occ_In string_dec). exact Hc.
Qed.

Lemma fold_min_le (rest : list Z) (s x : Z) :
  In x (s :: rest) -> fold_left Z.min rest s <= x.
Proof.
  revert s x; induction rest as [| y rest IH]; intros s x H; simpl in *.
  - destruct H as [-> | []]. lia.
  - pose proof (IH (Z.min s y) (Z.min s y) (or_introl eq_refl)) as Hm.
    destruct H as [-> | [-> | H]].
    + lia.
    + lia.
    + apply IH. right. exact H.
Qed.

Lemma fold_min_In (rest : list Z) (s : Z) :
  In (fold_left Z.min rest s) (s :: rest).
Proof.
  revert s; induction rest as [| y rest IH]; intros s; simpl.
  - left. reflexivity.
  - destruct (IH (Z.min s y)) as [H | H].
    + destruct (Z.min_spec s y) as [[_ E] | [_ E]]; rewrite E in H |- *;
        auto.
    + right. right. exact H.
Qed.

Lemma earliest_le (stamps : list Z) (x : Z) :
  In x stamps -> Pd.earliest stamps <= x.
Proof.
  destruct stamps as [| s rest]; [intros [] |]. apply fold_min_le.
Qed.

Lemma earliest_In (stamps : list Z) :
  stamps <> [] -> In (Pd.earliest stamps) stamps.
Proof.
  destruct stamps as [| s rest]; [congruence |]. intros _.
  apply fold_min_In.
Qed.

Lemma earliest_latest (stamps : list Z) :
  stamps <> [] -> Pd.earliest stamps <= latest stamps.
Proof.
  intros H. apply earliest_le. apply latest_In. exact H.
Qed.

Lemma qcut_labels (x : list float) (q : nat) (labels : list Z)
    (scores : list (option Z)) (s : Z) :
  Pd.qcut x q labels = Ok scores -> In (Some s) scores -> In s labels.
Proof.
  unfold Pd.qcut. destruct (negb _); [discriminate |].
  intros H Hs. injection H as <-. apply in_map_iff in Hs.
  destruct Hs as [[id na] [E _]]. simpl in E.
  destruct na; [discriminate |].
  apply nth_error_In in E. exact E.
Qed.

End GroupFacts.

Module RfmExtras.

Import CustomerSegmentation RfmFacts GroupFacts.

Lemma rfm_aggregate_ids (data : Pd.Frame Transaction) (stamps : list Z) :
  map base_customer_id (rfm_aggregate data stamps)
  = Pd.sorted_unique (Pd.column customer_id data).
Proof.
  unfold rfm_aggregate. rewrite map_map. simpl. apply map_id.
Qed.

Lemma rfm_aggregate_frequencies (data : Pd.Frame Transaction)
    (stamps : list Z) :
  Pd.to_datetime (Pd.column timestamp data) = Ok stamps ->
  fold_right Z.add 0 (map base_frequency (rfm_aggregate data stamps))
  = Z.of_nat (List.length data).
Proof.
  intros Hts. unfold rfm_aggregate. rewrite map_map. simpl.
  rewrite <- (length_map (fun r => customer_id (snd r)) data).
  fold (Pd.column customer_id data).
  rewrite <- (SummaryFacts.count_occ_total string_dec
                (Pd.sorted_unique (Pd.column customer_id data))
                (Pd.column customer_id data)).
  - f_equal. apply map_ext. intros c.
    rewrite group_of_length by (apply rows_stamps_length; exact Hts).
    rewrite column_rows. reflexivity.
  - apply sorted_unique_NoDup.
  - intros x Hx. apply PdFacts.sorted_unique_In. exact Hx.
Qed.

(** The customers of the returned table: those of the input, each
    once. *)
Lemma rfm_table_customers (data : Pd.Frame Transaction)
    (table : list RfmRecord) :
  calculate_rfm_metrics data = Ok table ->
  map rfm_customer_id table
  = Pd.sorted_unique (Pd.column customer_id data).
Proof.
  intros H. destruct (Pd.empty data) eqn:Ee.
  { unfold calculate_rfm_metrics in H. rewrite Ee in H. injection H as <-.
    destruct data; [reflexivity | discriminate]. }
  assert (data <> []) as Hd by (intros ->; discriminate).
  destruct (Pd.to_datetime (Pd.column timestamp data)) as [stamps | e] eqn:E.
  2: { unfold calculate_rfm_metrics in H. rewrite Ee, E in H.
       discriminate. }
  pose proof (calculate_rfm_metrics_rows data stamps table Hd E H) as Hrows.
  rewrite <- rfm_aggregate_ids with (stamps := stamps).
  apply (f_equal (map (fun x : string * Z * Z => fst (fst x)))) in Hrows.
  rewrite !map_map in Hrows. exact Hrows.
Qed.

Lemma rfm_table_customers_in (data : Pd.Frame Transaction)
    (table : list RfmRecord) :
  calculate_rfm_metrics data = Ok table ->
  NoDup (map rfm_customer_id table) /\
  forall c, In c (map rfm_customer_id table)
            <-> In c (Pd.column customer_id data).
Proof.
  intros H. rewrite (rfm_table_customers data table H).
  split; [apply sorted_unique_NoDup |].
  intros c. apply PdFacts.sorted_unique_In.
Qed.

(** X12.  The table [calculate_rfm_metrics] returns has one row per
    customer of the input and no customer twice; every frequency is at
    least 1 and the frequencies add up to the number of transactions. *)
Theorem rfm_table_partitions_transactions (data : Pd.Frame Transaction)
    (table : list RfmRecord) :
  calculate_rfm_metrics data = Ok table ->
  NoDup (map rfm_customer_id table) /\
  (forall c, In c (map rfm_customer_id table)
             <-> In c (Pd.column customer_id data)) /\
  Forall (fun r => 1 <= frequency r) table /\
  fold_right Z.add 0 (map frequency table) = Z.of_nat (List.length data).
Proof.
  intros H. destruct data as [| row data'].
  { injection H as <-. simpl. repeat split; try constructor; tauto. }
  set (data := row :: data') in *.
  destruct (Pd.to_datetime (Pd.column timestamp data)) as [stamps | e] eqn:E.
  2: { unfold calculate_rfm_metrics in H. cbn [Pd.empty data] in H.
       fold data in H. rewrite E in H. discriminate. }
  pose proof (calculate_rfm_metrics_rows data stamps table
                ltac:(discriminate) E H) as Hrows.
  assert (map rfm_customer_id table
          = Pd.sorted_unique (Pd.column customer_id data)) as Hids.
  { rewrite <- rfm_aggregate_ids with (stamps := stamps).
    apply (f_equal (map (fun x : string * Z * Z => fst (fst x)))) in Hrows.
    rewrite !map_map in Hrows. exact Hrows. }
  assert (map frequency table
          = map base_frequency (rfm_aggregate data stamps)) as Hfreq.
  { apply (f_equal (map (fun x : string * Z * Z => snd x))) in Hrows.
    rewrite !map_map in Hrows. exact Hrows. }
  split; [rewrite Hids; apply sorted_unique_NoDup |].
  split; [intros c; rewrite Hids; apply PdFacts.sorted_unique_In |].
  split.
  - apply Forall_forall. intros r Hr.
    assert (In (frequency r) (map frequency table)) as Hf
      by (apply in_map; exact Hr).
    rewrite Hfreq in Hf. unfold rfm_aggregate in Hf. rewrite map_map in Hf.
    cbn [base_frequency] in Hf. apply in_map_iff in Hf.
    destruct Hf as [c [<- Hc]].
    pose proof (group_of_key data stamps c E Hc). lia.
  - rewrite Hfreq. apply rfm_aggregate_frequencies. exact E.
Qed.

(** A run of X12 on [six_days]: seven transactions. *)
Lemma rfm_table_partitions_transactions_witness :
  match calculate_rfm_metrics Examples.six_days with
  | Ok table => fold_right Z.add 0 (map frequency table) = 7
  | Raise _ => False
  end.
Proof.
  destruct (calculate_rfm_metrics Examples.six_days) as [table | e] eqn:E.
  - apply (rfm_table_partitions_transactions Examples.six_days table E).
  - vm_compute in E. discriminate.
Defined.

(** X13.  In the table [calculate_rfm_metrics] returns, every recency,
    frequency and monetary score that is present lies between 1 and 5,
    and the combined score is the three scores written one after the
    other. *)
Theorem rfm_scores_in_range (data : Pd.Frame Transaction)
    (table : list RfmRecord) (r : RfmRecord) :
  calculate_rfm_metrics data = Ok table ->
  In r table ->
  (forall s, recency_score r = Some s -> 1 <= s <= 5) /\
  (forall s, frequency_score r = Some s -> 1 <= s <= 5) /\
  (forall s, monetary_score r = Some s -> 1 <= s <= 5) /\
  rfm_score r
  = String.append (str_of_score (recency_score r))
      (String.append (str_of_score (frequency_score r))
                     (str_of_score (monetary_score r))).
Proof.
  unfold calculate_rfm_metrics.
  destruct (Pd.empty data); [intros H; injection H as <-; intros [] |].
  destruct (Pd.to_datetime _) as [stamps | e]; simpl bind; [| discriminate].
  destruct (Pd.qcut _ 5 [5; 4; 3; 2; 1]) as [rs | e] eqn:Er; simpl bind;
    [| discriminate].
  destruct (Pd.qcut (Pd.rank_first _) 5 _) as [fs | e] eqn:Ef; simpl bind;
    [| discriminate].
  destruct (Pd.qcut (map base_monetary _) 5 _) as [ms | e] eqn:Em;
    simpl bind; [| discriminate].
  intros H Hr. injection H as <-. apply in_map_iff in Hr.
  destruct Hr as [[[[b rsc] fsc] msc] [<- Hp]]. simpl.
  pose proof (in_combine_r _ _ _ _ Hp) as Hm.
  apply in_combine_l in Hp.
  pose proof (in_combine_r _ _ _ _ Hp) as Hf.
  apply in_combine_l in Hp. apply in_combine_r in Hp.
  assert (forall labels s, In s labels ->
            (labels = [5; 4; 3; 2; 1] \/ labels = [1; 2; 3; 4; 5]) ->
            1 <= s <= 5) as Hrange.
  { intros labels s Hs [-> | ->]; simpl in Hs; lia. }
  split; [| split; [| split; [| reflexivity]]]; intros s Hs; subst.
  - apply (Hrange _ s (qcut_labels _ _ _ _ s Er Hp)). auto.
  - apply (Hrange _ s (qcut_labels _ _ _ _ s Ef Hf)). auto.
  - apply (Hrange _ s (qcut_labels _ _ _ _ s Em Hm)). auto.
Qed.

End RfmExtras.

(** A run of X13 on [six_days]: the first customer scores 1, 1 and 1. *)
Module RfmScoreRun.

Import CustomerSegmentation.

Lemma rfm_scores_in_range_witness :
  match calculate_rfm_metrics Examples.six_days with
  | Ok (r :: _) => rfm_score r = "111"%string
  | _ => False
  end.
Proof.
  destruct (calculate_rfm_metrics Examples.six_days) as [[| r rest] | e]
    eqn:E.
  - vm_compute in E. discriminate.
  - destruct (RfmExtras.rfm_scores_in_range Examples.six_days (r :: rest) r
                E (or_introl eq_refl)) as [_ [_ [_ H]]].
    rewrite H. vm_compute in E. injection E as <- _. reflexivity.
  - vm_compute in E. discriminate.
Defined.

End RfmScoreRun.

(** ** Segmentation, continued *)

Module SegmentFacts.

Import CustomerSegmentation RfmFacts GroupFacts.

Lemma nunique_incl (a b : list string) :
  incl a b -> Pd.nunique a <= Pd.nunique b.
Proof.
  intros H. unfold Pd.nunique. apply Nat2Z.inj_le.
  apply NoDup_incl_length; [apply NoDup_nodup |].
  intros x Hx. apply nodup_In. apply H. rewrite nodup_In in Hx. exact Hx.
Qed.

Lemma nunique_same (a b : list string) :
  (forall x, In x a <-> In x b) -> Pd.nunique a = Pd.nunique b.
Proof.
  intros H. apply Z.le_antisymm; apply nunique_incl; intros x Hx;
    apply H; exact Hx.
Qed.

(** The number of groups of a [groupby] is the number of distinct
    values. *)
Lemma nunique_sorted_unique (col : list string) :
  Z.of_nat (List.length (Pd.sorted_unique col)) = Pd.nunique col.
Proof.
  unfold Pd.nunique. f_equal. apply Nat.le_antisymm;
    (apply NoDup_incl_length;
     [first [apply sorted_unique_NoDup | apply NoDup_nodup] |]);
    intros x Hx.
  - apply nodup_In. rewrite PdFacts.sorted_unique_In in Hx. exact Hx.
  - apply PdFacts.sorted_unique_In. rewrite nodup_In in Hx. exact Hx.
Qed.

Lemma insert_label_In (z t : Z) (l : list Z) :
  In t (Pd.insert_label z l) <-> t = z \/ In t l.
Proof.
  induction l as [| u l IH]; simpl.
  - intuition auto.
  - destruct (Z.compare z u) eqn:E; simpl.
    + apply Z.compare_eq in E. subst u. intuition auto.
    + intuition auto.
    + rewrite IH. intuition auto.
Qed.

Lemma sorted_unique_labels_In (col : list Z) (t : Z) :
  In t (Pd.sorted_unique_labels col) <-> In t col.
Proof.
  induction col as [| s col IH]; simpl; [tauto |].
  unfold Pd.sorted_unique_labels in *. simpl.
  rewrite insert_label_In, IH. intuition auto.
Qed.

(** Whatever the cluster means are, the name is one of the eight. *)
Lemma segment_name_of_label (summary : list ClusterSummary)
    (c : ClusterSummary) :
  In (segment_name_of summary c) segment_labels.
Proof.
  unfold segment_name_of, segment_labels.
  destruct (Np.ge (mean_frequency c) _), (Np.ge (mean_monetary c) _),
    (Np.le (mean_recency c) _); simpl; tauto.
Qed.

(** Every cluster label in use has a name. *)
Lemma map_name_found (labelled : list (RfmRecord * Z)) (c : Z) :
  In c (map snd labelled) ->
  exists n,
    map_name (_assign_segment_names (cluster_summary_of labelled)) c
    = Some n /\ In n segment_labels.
Proof.
  intros Hc. unfold map_name.
  destruct (find _ _) as [p |] eqn:E.
  - exists (snd p). split; [reflexivity |].
    apply find_some in E. destruct E as [Hp _].
    unfold _assign_segment_names in Hp. apply in_map_iff in Hp.
    destruct Hp as [cs [<- _]]. apply segment_name_of_label.
  - exfalso. rewrite <- sorted_unique_labels_In in Hc.
    set (summary := cluster_summary_of labelled) in *.
    assert (exists cs, In cs summary /\ cluster cs = c) as [cs [Hcs Ecs]].
    { unfold summary, cluster_summary_of. eexists. split.
      - apply in_map_iff. exists c. split; [reflexivity | exact Hc].
      - reflexivity. }
    pose proof (find_none _ _ E (cluster cs, segment_name_of summary cs))
      as Hnone.
    simpl in Hnone. rewrite Ecs, Z.eqb_refl in Hnone.
    assert (true = false) as F; [| discriminate F].
    apply Hnone. unfold _assign_segment_names. apply in_map_iff.
    exists cs. split; [rewrite Ecs; reflexivity | exact Hcs].
Qed.

Lemma unique_names_In (l : list string) (x : string) :
  In x (unique_names l) -> In x l.
Proof.
  induction l as [| y l IH]; simpl; [tauto |].
  intros [<- | H]; [left; reflexivity |].
  apply filter_In in H. right. apply IH. tauto.
Qed.

(** The keys of the statistics are names found in the table. *)
Lemma segment_stats_keys (segmented : list Segmented)
    (original_data : Pd.Frame Transaction)
    (stats : list (string * SegmentStats)) (k : string) (st : SegmentStats) :
  _calculate_segment_stats segmented original_data = Ok stats ->
  In (k, st) stats ->
  exists s, In s segmented /\ segment_name s = Some k.
Proof.
  unfold _calculate_segment_stats.
  destruct (Pd.empty original_data);
    [intros H; injection H as <-; intros [] |].
  destruct (mapM _ _) as [found | e] eqn:E; simpl; [| discriminate].
  intros H Hin. injection H as <-. apply in_concat in Hin.
  destruct Hin as [group [Hg Hin]].
  destruct (PdFacts.mapM_In _ _ _ E group Hg) as [segment [Hseg Hf]].
  destruct (segment_stats_of segmented original_data segment)
    as [[st' |] | e]; simpl in Hf; try discriminate;
    injection Hf as <-; [| destruct Hin].
  destruct Hin as [Hin | []]. injection Hin as <- _.
  apply unique_names_In in Hseg. apply in_flat_map in Hseg.
  destruct Hseg as [s [Hs Hn]]. exists s. split; [exact Hs |].
  destruct (segment_name s) as [n |]; [| destruct Hn].
  destruct Hn as [-> | []]. reflexivity.
Qed.

End SegmentFacts.

Module SegmentExtras.

Import CustomerSegmentation RfmFacts GroupFacts SegmentFacts.

Section Models.

Variable scaler_fit_transform :
  list (list float) -> PyResult (list (list float)).
Variable kmeans_fit_predict :
  nat -> list (list float) -> PyResult (list Z).

Local Abbreviation segment_customers :=
  (segment_customers scaler_fit_transform kmeans_fit_predict).

(** X14.  When the RFM calculation returns and the table has fewer
    distinct customers than clusters are asked for, segmentation returns
    the empty table and the empty statistics, and no model is called. *)
Theorem segmentation_needs_enough_customers (data : Pd.Frame Transaction)
    (n_clusters : nat) (table : list RfmRecord) :
  calculate_rfm_metrics data = Ok table ->
  Pd.nunique (Pd.column customer_id data) < Z.of_nat n_clusters ->
  segment_customers data n_clusters = Ok ([], []).
Proof.
  intros H Hk.
  pose proof (RfmExtras.rfm_table_customers_in data table H)
    as [Hnd Hids].
  assert (Z.of_nat (List.length table)
          = Pd.nunique (Pd.column customer_id data)) as Hlen.
  { rewrite <- (length_map rfm_customer_id table).
    unfold Pd.nunique. f_equal. apply Nat.le_antisymm;
      (apply NoDup_incl_length; [first [exact Hnd | apply NoDup_nodup] |]);
      intros x Hx.
    - apply nodup_In. apply Hids. exact Hx.
    - apply Hids. rewrite nodup_In in Hx. exact Hx. }
  unfold CustomerSegmentation.segment_customers. rewrite H.
  destruct (Pd.empty data); [reflexivity |]. simpl bind.
  destruct table as [| r rest]; [reflexivity |].
  assert ((List.length (r :: rest) <? n_clusters)%nat = true) as ->
    by (apply Nat.ltb_lt; lia).
  reflexivity.
Qed.

(** Every returned row has a name out of the eight. *)
Lemma every_row_is_named (data : Pd.Frame Transaction)
    (n_clusters : nat) (segmented : list Segmented)
    (stats : list (string * SegmentStats)) :
  segment_customers data n_clusters = Ok (segmented, stats) ->
  forall s, In s segmented ->
    exists n, segment_name s = Some n /\ In n segment_labels.
Proof.
  intros H.
  unfold CustomerSegmentation.segment_customers in H.
  destruct (Pd.empty data); [injection H as <- _; intros s [] |].
  destruct (calculate_rfm_metrics data) as [table | e]; simpl bind in H;
    [| discriminate].
  destruct table as [| r rest] eqn:Et;
    [injection H as <- _; intros s [] |].
  rewrite <- Et in *. clear Et.
  destruct (List.length table <? n_clusters)%nat;
    [injection H as <- _; intros s [] |].
  destruct (scaler_fit_transform _) as [scaled | e]; simpl bind in H;
    [| discriminate].
  destruct (kmeans_fit_predict n_clusters scaled) as [labels | e];
    simpl bind in H; [| discriminate].
  destruct (negb _); [discriminate |].
  destruct (_calculate_segment_stats _ data) as [st | e];
    simpl bind in H; [| discriminate].
  injection H as <- _. intros s Hs. apply in_map_iff in Hs.
  destruct Hs as [[r0 c] [<- Hp]]. simpl.
  apply map_name_found. apply in_map_iff. exists (r0, c). tauto.
Qed.

(** X15.  In what segmentation returns, every customer row carries a
    segment name, the name is one of the eight of
    [_assign_segment_names], and every key of the statistics is the name
    of at least one row. *)
Theorem segmentation_names_every_row (data : Pd.Frame Transaction)
    (n_clusters : nat) (segmented : list Segmented)
    (stats : list (string * SegmentStats)) :
  segment_customers data n_clusters = Ok (segmented, stats) ->
  (forall s, In s segmented ->
     exists n, segment_name s = Some n /\ In n segment_labels) /\
  (forall k st, In (k, st) stats ->
     In k segment_labels /\
     exists s, In s segmented /\ segment_name s = Some k).
Proof.
  intros H.
  assert (forall s, In s segmented ->
            exists n, segment_name s = Some n /\ In n segment_labels)
    as Hrows.
  { unfold CustomerSegmentation.segment_customers in H.
    destruct (Pd.empty data); [injection H as <- _; intros s [] |].
    destruct (calculate_rfm_metrics data) as [table | e]; simpl bind in H;
      [| discriminate].
    destruct table as [| r rest] eqn:Et;
      [injection H as <- _; intros s [] |].
    rewrite <- Et in *. clear Et.
    destruct (List.length table <? n_clusters)%nat;
      [injection H as <- _; intros s [] |].
    destruct (scaler_fit_transform _) as [scaled | e]; simpl bind in H;
      [| discriminate].
    destruct (kmeans_fit_predict n_clusters scaled) as [labels | e];
      simpl bind in H; [| discriminate].
    destruct (negb _); [discriminate |].
    destruct (_calculate_segment_stats _ data) as [st | e];
      simpl bind in H; [| discriminate].
    injection H as <- _. intros s Hs. apply in_map_iff in Hs.
    destruct Hs as [[r0 c] [<- Hp]]. simpl.
    apply map_name_found. apply in_map_iff. exists (r0, c). tauto. }
  split; [exact Hrows |].
  intros k st Hk.
  assert (exists s, In s segmented /\ segment_name s = Some k)
    as [s [Hs Hn]].
  { unfold CustomerSegmentation.segment_customers in H.
    destruct (Pd.empty data); [injection H as _ <-; destruct Hk |].
    destruct (calculate_rfm_metrics data) as [table | e]; simpl bind in H;
      [| discriminate].
    destruct table as [| r rest] eqn:Et;
      [injection H as _ <-; destruct Hk |].
    rewrite <- Et in *. clear Et.
    destruct (List.length table <? n_clusters)%nat;
      [injection H as _ <-; destruct Hk |].
    destruct (scaler_fit_transform _) as [scaled | e]; simpl bind in H;
      [| discriminate].
    destruct (kmeans_fit_predict n_clusters scaled) as [labels | e];
      simpl bind in H; [| discriminate].
    destruct (negb _); [discriminate |].
    destruct (_calculate_segment_stats _ data) as [sts | e] eqn:Es;
      simpl bind in H; [| discriminate].
    injection H as <- <-.
    apply (segment_stats_keys _ _ _ k st Es Hk). }
  split; [| exists s; tauto].
  destruct (Hrows s Hs) as [n [En Hl]]. congruence.
Qed.

End Models.

(** A run of X14 on [six_days]: six customers, seven clusters. *)
Lemma segmentation_needs_enough_customers_witness :
  CustomerSegmentation.segment_customers Examples.scaler Examples.kmeans
    Examples.six_days 7 = Ok ([], []).
Proof.
  destruct (calculate_rfm_metrics Examples.six_days) as [table | e] eqn:E.
  - apply (segmentation_needs_enough_customers Examples.scaler
             Examples.kmeans Examples.six_days 7 table E).
    vm_compute. reflexivity.
  - vm_compute in E. discriminate.
Defined.

(** A run of X15 on [six_days] with two clusters. *)
Lemma segmentation_names_every_row_witness :
  match CustomerSegmentation.segment_customers Examples.scaler
          Examples.kmeans Examples.six_days 2 with
  | Ok (segmented, stats) =>
      forall s, In s segmented ->
        exists n, segment_name s = Some n /\ In n segment_labels
  | Raise _ => False
  end.
Proof.
  destruct (CustomerSegmentation.segment_customers Examples.scaler
              Examples.kmeans Examples.six_days 2)
    as [[segmented stats] | e] eqn:E.
  - apply (segmentation_names_every_row Examples.scaler Examples.kmeans
             Examples.six_days 2 segmented stats E).
  - vm_compute in E. discriminate.
Defined.

End SegmentExtras.

(** ** Lifetime value, journey and churn *)

Module ValueFacts.

Import CustomerSegmentation RfmFacts GroupFacts.

Lemma same_value_refl (b : float) : Pd.same_value b b = true.
Proof.
  unfold Pd.same_value, Np.isnan, PrimFloat.is_nan.
  destruct (PrimFloat.eqb b b); reflexivity.
Qed.

Lemma unique_repeat (b : float) (n : nat) :
  Pd.unique (repeat b (S n)) = [b].
Proof.
  induction n as [| n IH]; [reflexivity |].
  change (repeat b (S (S n))) with (b :: repeat b (S n)).
  cbn [Pd.unique]. rewrite IH. cbn [filter].
  rewrite same_value_refl. reflexivity.
Qed.

Lemma quantile_of_nan (x q : float) :
  Np.isnan x = true -> Np.quantile [x] q = PrimFloat.nan.
Proof.
  intros H. unfold Np.quantile, Np.notna. cbn [filter]. rewrite H.
  reflexivity.
Qed.

Lemma quantile_of_one (x q : float) :
  Np.isnan x = false ->
  Np.quantile [x] q
  = Np.lerp x x
      (PrimFloat.sub
         (PrimFloat.mul 0%float
            (PrimFloat.div (PrimFloat.mul q 100%float) 100%float))
         0%float).
Proof.
  intros H. unfold Np.quantile, Np.notna. cbn [filter]. rewrite H.
  reflexivity.
Qed.

(** The quartile edges of a column with a single value are one value
    five times. *)
Lemma quartile_edges_of_one (x : float) :
  exists b, map (Np.quantile [x]) (Pd.linspace01 4) = repeat b 5.
Proof.
  destruct (Np.isnan x) eqn:E.
  - exists PrimFloat.nan.
    rewrite (map_ext _ (fun _ => PrimFloat.nan));
      [reflexivity | intros q; apply quantile_of_nan; exact E].
  - exists (Np.lerp x x 0%float).
    rewrite (map_ext _ _ (fun q => quantile_of_one x q E)).
    rewrite <- (map_map
                  (fun q => PrimFloat.sub
                              (PrimFloat.mul 0%float
                                 (PrimFloat.div (PrimFloat.mul q 100%float)
                                                100%float)) 0%float)
                  (Np.lerp x x)).
    replace (map _ (Pd.linspace01 4)) with (repeat 0%float 5)
      by (vm_compute; reflexivity).
    reflexivity.
Qed.

(** [qcut] into quartiles with the four labels raises on a column of one
    value, whatever the value. *)
Lemma quartiles_of_one_raise (x : float) :
  Pd.qcut [x] 4 [0; 1; 2; 3] = Raise Pd.bin_labels_error.
Proof.
  destruct (quartile_edges_of_one x) as [b Hb].
  unfold Pd.qcut. cbv zeta. rewrite Hb.
  rewrite (unique_repeat b 4). reflexivity.
Qed.

Lemma in_combine_exists {A B : Type} (a : list A) (b : list B) (x : A) :
  List.length a = List.length b -> In x a -> exists y, In (x, y) (combine a b).
Proof.
  revert b; induction a as [| u a IH]; intros [| v b] H Hx; simpl in *;
    try discriminate; [destruct Hx |].
  destruct Hx as [-> | Hx].
  - exists v. left. reflexivity.
  - destruct (IH b ltac:(congruence) Hx) as [y Hy]. exists y. right.
    exact Hy.
Qed.

Lemma journey_insert_In (p q : Transaction * Z)
    (l : list (Transaction * Z)) :
  In q (journey_insert p l) <-> q = p \/ In q l.
Proof.
  induction l as [| r l IH]; simpl.
  - intuition auto.
  - destruct (journey_before r p); simpl; [rewrite IH |]; intuition auto.
Qed.

(** Sorting the rows for the journey keeps the rows. *)
Lemma journey_sort_In (q : Transaction * Z) (l : list (Transaction * Z)) :
  In q (journey_sort l) <-> In q l.
Proof.
  induction l as [| p l IH]; simpl; [tauto |].
  unfold journey_sort in *. simpl. rewrite journey_insert_In, IH.
  intuition auto.
Qed.

(** Every customer with a row has a first purchase among the rows. *)
Lemma first_purchase_exists (stamped : list (Transaction * Z))
    (p : Transaction * Z) :
  In p stamped ->
  exists q, In q stamped /\ customer_id (fst q) = customer_id (fst p) /\
            is_first_purchase stamped q = true.
Proof.
  intros Hp.
  set (group := group_of (customer_id (fst p)) stamped).
  assert (In p group) as Hg by (apply group_of_In; tauto).
  assert (map snd group <> []) as Hne.
  { intros E. assert (In (snd p) (map snd group)) as F
      by (apply in_map; exact Hg).
    rewrite E in F. destruct F. }
  pose proof (earliest_In _ Hne) as Hmin. apply in_map_iff in Hmin.
  destruct Hmin as [q [Eq Hq]]. apply group_of_In in Hq.
  destruct Hq as [Hq Ec]. exists q. split; [exact Hq |].
  split; [exact Ec |].
  unfold is_first_purchase. rewrite Ec. fold group. rewrite Eq.
  apply Z.eqb_refl.
Qed.

End ValueFacts.

Module ValueExtras.

Import CustomerSegmentation RfmFacts GroupFacts SegmentFacts ValueFacts.

(** X16.  The table [get_customer_lifetime_value] returns has no customer
    twice; in every row the first purchase is not after the last one, the
    lifespan is the whole number of days between the two and is not
    negative, and a quartile that is present is one of the four names. *)
Theorem clv_table_shape (data : Pd.Frame Transaction)
    (table : list ClvRecord) :
  get_customer_lifetime_value data = Ok table ->
  NoDup (map clv_customer_id table) /\
  forall r, In r table ->
    first_purchase r <= last_purchase r /\
    lifespan_days r = (last_purchase r - first_purchase r) / Pd.ns_per_day /\
    0 <= lifespan_days r /\
    (forall q, clv_quartile r = Some q -> In q quartile_names).
Proof.
  unfold get_customer_lifetime_value.
  destruct (Pd.empty data).
  { intros H. injection H as <-. split; [constructor | intros r []]. }
  destruct (Pd.to_datetime _) as [stamps | e] eqn:E; simpl bind;
    [| discriminate].
  destruct (Pd.qcut _ 4 _) as [codes | e] eqn:Eq; simpl bind;
    [| discriminate].
  intros H. injection H as <-.
  apply qcut_length in Eq. rewrite length_map in Eq.
  split.
  - rewrite map_map.
    rewrite (map_ext _ (fun p => clv_customer_id (fst p)))
      by reflexivity.
    rewrite <- (map_map fst clv_customer_id).
    rewrite PdFacts.map_fst_combine by congruence.
    unfold clv_aggregate. rewrite map_map. simpl. rewrite map_id.
    apply sorted_unique_NoDup.
  - intros r Hr. apply in_map_iff in Hr. destruct Hr as [[b code] [<- Hp]].
    apply in_combine_l in Hp. unfold clv_aggregate in Hp.
    apply in_map_iff in Hp. destruct Hp as [c [<- Hc]].
    cbn [clv_finish first_purchase last_purchase lifespan_days
         clv_quartile fst snd].
    pose proof (group_of_key data stamps c E Hc) as Hpos.
    set (group := group_of c (combine (Pd.rows data) stamps)) in *.
    assert (Pd.earliest (map snd group) <= latest (map snd group)) as Hle.
    { apply earliest_latest. intros F.
      apply (f_equal (@List.length Z)) in F. rewrite length_map in F.
      simpl in F. lia. }
    split; [exact Hle |]. split; [reflexivity |].
    split; [unfold Pd.days; apply Z.div_pos; [lia | reflexivity] |].
    intros q Hq. destruct code as [k |]; [| discriminate].
    apply nth_error_In in Hq. exact Hq.
Qed.

(** A run of X16 on [six_days]. *)
Lemma clv_table_shape_witness :
  match get_customer_lifetime_value Examples.six_days with
  | Ok table => map lifespan_days table = [0; 0; 0; 0; 0; 0]
  | Raise _ => False
  end.
Proof.
  destruct (get_customer_lifetime_value Examples.six_days) as [table | e]
    eqn:E.
  - destruct (clv_table_shape Examples.six_days table E) as [_ _].
    vm_compute in E. injection E as <-. reflexivity.
  - vm_compute in E. discriminate.
Defined.

(** X17.  On a table whose transactions all belong to one customer, and
    whose timestamps are datetimes, [get_customer_lifetime_value] raises
    the [ValueError] of [pd.qcut]: the five quartile edges of the single
    predicted value collapse to one, and the four labels no longer
    fit. *)
Theorem clv_single_customer_raises (data : Pd.Frame Transaction)
    (stamps : list Z) (c : string) :
  data <> [] ->
  Pd.to_datetime (Pd.column timestamp data) = Ok stamps ->
  (forall t, In t (Pd.rows data) -> customer_id t = c) ->
  get_customer_lifetime_value data = Raise Pd.bin_labels_error.
Proof.
  intros Hd Hts Hc. unfold get_customer_lifetime_value.
  destruct data as [| row data']; [contradiction |].
  cbn [Pd.empty]. rewrite Hts. simpl bind.
  unfold clv_aggregate.
  rewrite (RfmClaims.sorted_unique_constant _ c).
  - cbn [map]. rewrite quartiles_of_one_raise. reflexivity.
  - discriminate.
  - intros x Hx. unfold Pd.column in Hx. apply in_map_iff in Hx.
    destruct Hx as [r [<- Hr]]. apply Hc. unfold Pd.rows.
    apply in_map_iff. exists r. tauto.
Qed.

(** A run of X17 on [single_sale]. *)
Lemma clv_single_customer_raises_witness :
  get_customer_lifetime_value Examples.single_sale
  = Raise Pd.bin_labels_error.
Proof.
  apply (clv_single_customer_raises Examples.single_sale
           [12 * Pd.ns_per_hour] "CUST_1001").
  - discriminate.
  - reflexivity.
  - intros t [<- | []]. reflexivity.
Defined.

(** X18.  In the journey statistics every customer of the table counts as
    a new customer, and the returning customers, those with a purchase
    after their first one, are among them: their number is at most the
    number of new customers. *)
Theorem journey_counts (data : Pd.Frame Transaction)
    (journey : JourneyStats) :
  analyze_customer_journey data = Ok (Some journey) ->
  new_customers journey = Pd.nunique (Pd.column customer_id data) /\
  0 <= returning_customers journey <= new_customers journey.
Proof.
  unfold analyze_customer_journey.
  destruct (Pd.empty data); [discriminate |].
  destruct (Pd.to_datetime _) as [stamps | e] eqn:E; simpl bind;
    [| discriminate].
  intros H. injection H as <-.
  cbn [new_customers returning_customers].
  set (stamped := combine (Pd.rows data) stamps).
  set (data_copy := journey_sort stamped).
  pose proof (rows_stamps_length data stamps E) as Hlen.
  assert (forall x,
            In x (map (fun p => customer_id (fst p))
                      (filter (is_first_purchase data_copy) data_copy))
            <-> In x (Pd.column customer_id data)) as Hfirst.
  { intros x. split.
    - intros Hx. apply in_map_iff in Hx. destruct Hx as [p [<- Hp]].
      apply filter_In in Hp. destruct Hp as [Hp _].
      apply (proj1 (journey_sort_In _ _)) in Hp.
      unfold stamped in Hp. destruct p as [t0 ns0].
      apply in_combine_l in Hp.
      rewrite column_rows. apply (in_map customer_id). exact Hp.
    - intros Hx. rewrite column_rows in Hx. apply in_map_iff in Hx.
      destruct Hx as [t [<- Ht]].
      destruct (in_combine_exists _ _ t Hlen Ht) as [ns Hns].
      fold stamped in Hns.
      assert (In (t, ns) data_copy) as Hcopy
        by (apply journey_sort_In; exact Hns).
      destruct (first_purchase_exists data_copy (t, ns) Hcopy)
        as [q [Hq [Ec Hf]]].
      apply in_map_iff. exists q. split; [exact Ec |].
      apply filter_In. tauto. }
  split; [apply nunique_same; exact Hfirst |].
  split.
  - unfold Pd.nunique. lia.
  - apply nunique_incl. intros x Hx. apply Hfirst.
    apply in_map_iff in Hx. destruct Hx as [p [<- Hp]].
    apply filter_In in Hp. destruct Hp as [Hp _].
    apply (proj1 (journey_sort_In _ _)) in Hp.
    unfold stamped in Hp. destruct p as [t0 ns0].
    apply in_combine_l in Hp.
    rewrite column_rows. apply (in_map customer_id). exact Hp.
Qed.

(** A run of X18 on [six_days]: six customers, one of them returning. *)
Lemma journey_counts_witness :
  match analyze_customer_journey Examples.six_days with
  | Ok (Some journey) =>
      new_customers journey = 6 /\ returning_customers journey = 1
  | _ => False
  end.
Proof.
  destruct (analyze_customer_journey Examples.six_days)
    as [[journey |] | e] eqn:E.
  - destruct (journey_counts Examples.six_days journey E) as [Hn _].
    split; [rewrite Hn; vm_compute; reflexivity |].
    vm_compute in E. injection E as <-. reflexivity.
  - vm_compute in E. discriminate.
  - vm_compute in E. discriminate.
Defined.



End ValueExtras.

(** ** The density method *)

Module DensityExtras.

Import AnomalyDetector.

Lemma where_eq_spec (v : Z) (labels : list Z) (start p : nat) :
  In p (where_eq v labels start)
  <-> (start <= p)%nat /\ nth_error labels (p - start) = Some v.
Proof.
  revert start; induction labels as [| x labels IH]; intros start; simpl.
  - split; [intros [] |]. intros [_ H].
    destruct (p - start)%nat; discriminate.
  - assert (In p (where_eq v labels (S start)) <->
            (start < p)%nat /\
            nth_error (x :: labels) (p - start) = Some v) as Hrest.
    { rewrite IH. split.
      - intros [Hle Hn]. split; [lia |].
        replace (p - start)%nat with (S (p - S start)) by lia. exact Hn.
      - intros [Hlt Hn]. split; [lia |].
        replace (p - start)%nat with (S (p - S start)) in Hn by lia.
        exact Hn. }
    destruct (x =? v) eqn:E.
    + apply Z.eqb_eq in E. subst x. simpl. rewrite Hrest. split.
      * intros [<- | [Hlt Hn]].
        -- split; [lia |]. rewrite Nat.sub_diag. reflexivity.
        -- split; [lia | exact Hn].
      * intros [Hle Hn]. destruct (Nat.eq_dec start p) as [-> | Hne];
           [left; reflexivity | right; split; [lia | exact Hn]].
    + apply Z.eqb_neq in E. rewrite Hrest. split.
      * intros [Hlt Hn]. split; [lia | exact Hn].
      * intros [Hle Hn]. split; [| exact Hn].
        destruct (Nat.eq_dec start p) as [-> | Hne]; [| lia].
        rewrite Nat.sub_diag in Hn. simpl in Hn. congruence.
Qed.

Lemma mapM_Forall2 {A B : Type} (f : A -> PyResult B) (l : list A)
    (r : list B) :
  mapM f l = Ok r -> Forall2 (fun a b => f a = Ok b) l r.
Proof.
  revert r; induction l as [| a l IH]; intros r H; simpl in H.
  - injection H as <-. constructor.
  - destruct (f a) as [b | e] eqn:Ea; simpl in H; [| discriminate].
    destruct (mapM f l) as [bs | e]; simpl in H; [| discriminate].
    injection H as <-. constructor; [exact Ea | apply IH; reflexivity].
Qed.

Lemma mapM_total {A B : Type} (f : A -> PyResult B) (l : list A) :
  (forall a, In a l -> exists b, f a = Ok b) -> exists r, mapM f l = Ok r.
Proof.
  induction l as [| a l IH]; intros H; simpl.
  - exists []. reflexivity.
  - destruct (H a (or_introl eq_refl)) as [b ->].
    destruct IH as [r ->]; [intros x Hx; apply H; right; exact Hx |].
    exists (b :: r). reflexivity.
Qed.

(** Two columns read at the same positions, side by side. *)
Lemma combine_Forall2 {P A B : Type} (R : P -> A -> Prop)
    (S : P -> B -> Prop) (ps : list P) (a : list A) (b : list B) :
  Forall2 R ps a -> Forall2 S ps b ->
  (forall x y, In (x, y) (combine a b) ->
               exists p, In p ps /\ R p x /\ S p y) /\
  (forall p, In p ps ->
             exists x y, In (x, y) (combine a b) /\ R p x /\ S p y).
Proof.
  intros Ha. revert b. induction Ha as [| p x ps a HR Ha IH]; intros b Hb.
  - inversion Hb; subst. split; [intros x y [] | intros p []].
  - inversion Hb as [| p' y ps' b' HS Hb']; subst.
    destruct (IH b' Hb') as [IH1 IH2]. split.
    + intros x0 y0 [E | Hin].
      * injection E as <- <-. exists p. split; [left; reflexivity | tauto].
      * destruct (IH1 x0 y0 Hin) as [q [Hq HRS]].
        exists q. split; [right; exact Hq | exact HRS].
    + intros q [<- | Hq].
      * exists x, y. split; [left; reflexivity | tauto].
      * destruct (IH2 q Hq) as [x0 [y0 [Hin HRS]]].
        exists x0, y0. split; [right; exact Hin | exact HRS].
Qed.

Section Models.

Variable scaler_fit_transform : list FeatureRow -> PyResult (list FeatureRow).
Variable fit_predict : list FeatureRow -> PyResult (list Z).
Variable decision_function :
  list FeatureRow -> list FeatureRow -> PyResult (list float).

Local Abbreviation _isolation_forest_detection :=
  (_isolation_forest_detection scaler_fit_transform fit_predict
     decision_function).

(** X20.  When the feature table has at least 10 rows and the scaler and
    the forest answer with one label and one decision value per row of
    the table, the density method returns exactly the rows the forest
    labels -1, each with the absolute value of its decision value as
    anomaly score. *)
Theorem density_returns_marked_rows (data : Pd.Frame Transaction)
    (features_df : Pd.Frame FeatureRow) (scaled : list FeatureRow)
    (labels : list Z) (values : list float) (r : Z * AnomalyRecord) :
  (10 <= List.length features_df)%nat ->
  scaler_fit_transform (Pd.rows features_df) = Ok scaled ->
  fit_predict scaled = Ok labels ->
  decision_function scaled scaled = Ok values ->
  List.length labels = List.length data ->
  List.length values = List.length data ->
  In r (_isolation_forest_detection data features_df) <->
  exists p row value,
    nth_error labels p = Some (-1) /\
    nth_error data p = Some row /\
    nth_error values p = Some value /\
    r = plain (PrimFloat.abs value) row.
Proof.
  intros Hten Hs Hf Hd Hl Hv.
  unfold AnomalyDetector._isolation_forest_detection,
         AnomalyDetector.isolation_forest_body.
  assert ((List.length features_df <? 10)%nat = false) as ->
    by (apply Nat.ltb_ge; exact Hten).
  rewrite Hs. simpl bind. rewrite Hf. simpl bind. rewrite Hd. simpl bind.
  set (positions := where_eq (-1) labels 0).
  assert (forall p, In p positions <-> nth_error labels p = Some (-1))
    as Hpos.
  { intros p. unfold positions. rewrite where_eq_spec, Nat.sub_0_r.
    split; [tauto | intros H; split; [lia | exact H]]. }
  assert (forall p, In p positions -> (p < List.length data)%nat) as Hin.
  { intros p Hp. apply Hpos in Hp. rewrite <- Hl. apply nth_error_Some.
    congruence. }
  destruct (mapM_total (fun p => match nth_error data p with
                                 | Some row => Ok row
                                 | None => Raise (IndexError
                                     "positional indexer out of bounds")
                                 end) positions) as [anomalies Ea].
  { intros p Hp. apply Hin in Hp. apply nth_error_Some in Hp.
    destruct (nth_error data p) as [row |]; [eauto | contradiction]. }
  destruct (mapM_total (fun p => match nth_error values p with
                                 | Some s => Ok s
                                 | None => Raise (IndexError
                                     "index out of bounds")
                                 end) positions) as [scores Es].
  { intros p Hp. apply Hin in Hp. rewrite <- Hv in Hp.
    apply nth_error_Some in Hp.
    destruct (nth_error values p) as [s |]; [eauto | contradiction]. }
  pose proof (mapM_Forall2 _ _ _ Ea) as Fa.
  pose proof (mapM_Forall2 _ _ _ Es) as Fs.
  destruct (combine_Forall2 _ _ _ _ _ Fa Fs) as [Hc1 Hc2].
  assert (In r (Pd.sort_values_desc score_of
                  (map (fun p => plain (PrimFloat.abs (snd p)) (fst p))
                       (combine anomalies scores)))
          <-> exists p row value,
                nth_error labels p = Some (-1) /\
                nth_error data p = Some row /\
                nth_error values p = Some value /\
                r = plain (PrimFloat.abs value) row) as Hmain.
  { rewrite PdFacts.sort_values_desc_In, in_map_iff. split.
    - intros [[row value] [<- Hrow]].
      destruct (Hc1 row value Hrow) as [p [Hp [Hr Hval]]].
      exists p, row, value. simpl.
      destruct (nth_error data p) as [row' |]; [| discriminate].
      destruct (nth_error values p) as [value' |]; [| discriminate].
      injection Hr as ->. injection Hval as ->.
      repeat split. apply Hpos. exact Hp.
    - intros [p [row [value [Hlab [Hrow [Hval ->]]]]]].
      apply Hpos in Hlab. destruct (Hc2 p Hlab) as [x [y [Hxy [Hx Hy]]]].
      rewrite Hrow in Hx. rewrite Hval in Hy.
      injection Hx as <-. injection Hy as <-.
      exists (row, value). split; [reflexivity | exact Hxy]. }
  destruct positions as [| p0 ps] eqn:Ep.
  - simpl. split; [intros [] |].
    intros [p [row [value [Hlab _]]]]. apply Hpos in Hlab. destruct Hlab.
  - unfold Pd.iloc, take. rewrite Ea, Es. simpl bind. exact Hmain.
Qed.

End Models.

(** A run of X20 on [outlier_table] with the sample forest, which marks
    position 3 and gives the decision value -0.25. *)
Lemma density_returns_marked_rows_witness :
  In (plain 0.25%float
        (3, Examples.sale "TXN" (Examples.at_hour 12) "CUST_1001"
              20%float 1))
     (AnomalyDetector._isolation_forest_detection Examples.scaler
        Examples.forest Examples.decision Examples.outlier_table
        (_prepare_features Examples.outlier_table)).
Proof.
  apply (density_returns_marked_rows Examples.scaler Examples.forest
           Examples.decision Examples.outlier_table
           (_prepare_features Examples.outlier_table)
           (Pd.rows (_prepare_features Examples.outlier_table))
           [1; 1; 1; -1; 1; 1; 1; 1; 1; 1; 1; 1]
           (repeat (-0.25)%float 12)).
  - vm_compute. lia.
  - reflexivity.
  - vm_compute. reflexivity.
  - vm_compute. reflexivity.
  - reflexivity.
  - reflexivity.
  - exists 3%nat, (3, Examples.sale "TXN" (Examples.at_hour 12) "CUST_1001"
                        20%float 1), (-0.25)%float.
    repeat split.
Defined.

End DensityExtras.

(** ** The segment statistics *)

Module StatsExtras.

Import CustomerSegmentation RfmFacts GroupFacts SegmentFacts.

Lemma unique_names_cover (l : list string) (x : string) :
  In x l -> In x (unique_names l).
Proof.
  induction l as [| y l IH]; simpl; [tauto |].
  intros [-> | H]; [left; reflexivity |].
  destruct (string_dec x y) as [-> | Hne]; [left; reflexivity |].
  right. apply filter_In. split; [apply IH; exact H |].
  apply Bool.negb_true_iff. apply String.eqb_neq. exact Hne.
Qed.

Lemma unique_names_NoDup (l : list string) : NoDup (unique_names l).
Proof.
  induction l as [| y l IH]; simpl; constructor.
  - intros H. apply filter_In in H. destruct H as [_ H].
    rewrite String.eqb_refl in H. discriminate.
  - apply NoDup_filter. exact IH.
Qed.

(** The names of the rows, in order. *)
Lemma names_of_named (segmented : list Segmented) :
  (forall s, In s segmented -> exists n, segment_name s = Some n) ->
  List.length
    (flat_map (fun s => match segment_name s with
                        | Some n => [n]
                        | None => []
                        end) segmented)
  = List.length segmented /\
  forall k,
    List.length (filter (fun s => match segment_name s with
                                  | Some n => String.eqb n k
                                  | None => false
                                  end) segmented)
    = count_occ string_dec
        (flat_map (fun s => match segment_name s with
                            | Some n => [n]
                            | None => []
                            end) segmented) k.
Proof.
  induction segmented as [| s rest IH]; intros H; [split; reflexivity |].
  destruct IH as [IH1 IH2]; [intros x Hx; apply H; right; exact Hx |].
  destruct (H s (or_introl eq_refl)) as [n Hn].
  simpl. rewrite Hn. simpl. split; [rewrite IH1; reflexivity |].
  intros k. destruct (string_dec n k) as [-> | Hne].
  - rewrite String.eqb_refl. simpl. rewrite IH2. reflexivity.
  - apply String.eqb_neq in Hne. rewrite Hne. apply IH2.
Qed.

(** The statistics of one segment that has a customer with a
    transaction. *)
Lemma segment_stats_of_count (segmented : list Segmented)
    (data : Pd.Frame Transaction) (k : string)
    (group : list (string * SegmentStats)) :
  (forall s, In s segmented ->
     exists row, In row data /\
                 customer_id (snd row) = rfm_customer_id (rfm s)) ->
  (exists s, In s segmented /\ segment_name s = Some k) ->
  bind (segment_stats_of segmented data k)
       (fun stats => Ok (match stats with
                         | Some st => [(k, st)]
                         | None => []
                         end)) = Ok group ->
  exists st,
    group = [(k, st)] /\
    customer_count st
    = Z.of_nat (List.length
                  (filter (fun s => match segment_name s with
                                    | Some n => String.eqb n k
                                    | None => false
                                    end) segmented)) /\
    total_transactions st
    = Z.of_nat (List.length (filter (in_segment segmented k) data)).
Proof.
  intros Hdata [s [Hs Hn]]. unfold segment_stats_of.
  set (members := filter _ segmented).
  set (segment_data := filter _ data).
  assert (In s members) as Hmem.
  { apply filter_In. split; [exact Hs |]. rewrite Hn.
    apply String.eqb_refl. }
  destruct (Hdata s Hs) as [row [Hrow Hc]].
  assert (In row segment_data) as Hseg.
  { apply filter_In. split; [exact Hrow |]. apply existsb_exists.
    exists (rfm_customer_id (rfm s)). split.
    - apply in_map_iff. exists s. tauto.
    - apply String.eqb_eq. exact Hc. }
  destruct segment_data as [| r0 rest] eqn:E; [destruct Hseg |].
  cbn [Pd.empty].
  destruct (Pd.to_datetime _) as [stamps | e]; simpl bind;
    [| discriminate].
  intros H. injection H as <-. eexists. split; [reflexivity |].
  cbn [snd customer_count total_transactions].
  rewrite length_map. split; reflexivity.
Qed.

Lemma segment_stats_total (segmented : list Segmented)
    (data : Pd.Frame Transaction) (stats : list (string * SegmentStats)) :
  data <> [] ->
  (forall s, In s segmented -> exists n, segment_name s = Some n) ->
  (forall s, In s segmented ->
     exists row, In row data /\
                 customer_id (snd row) = rfm_customer_id (rfm s)) ->
  _calculate_segment_stats segmented data = Ok stats ->
  fold_right Z.add 0 (map (fun kv => customer_count (snd kv)) stats)
  = Z.of_nat (List.length segmented).
Proof.
  intros Hd Hnamed Hdata. unfold _calculate_segment_stats.
  destruct data as [| row0 data']; [contradiction |].
  cbn [Pd.empty]. set (data := row0 :: data') in *.
  set (names := flat_map _ segmented).
  destruct (mapM _ (unique_names names)) as [found | e] eqn:E; simpl;
    [| discriminate].
  intros H. injection H as <-.
  destruct (names_of_named segmented Hnamed) as [Hlen Hcount].
  fold names in Hlen, Hcount.
  rewrite <- Hlen.
  rewrite <- (SummaryFacts.count_occ_total string_dec (unique_names names)
                names (unique_names_NoDup names)
                (fun x Hx => unique_names_cover names x Hx)).
  apply DensityExtras.mapM_Forall2 in E.
  assert (forall k, In k (unique_names names) ->
            exists s, In s segmented /\ segment_name s = Some k) as Hkey.
  { intros k Hk. apply unique_names_In in Hk. apply in_flat_map in Hk.
    destruct Hk as [s [Hs Hn]]. exists s. split; [exact Hs |].
    destruct (segment_name s) as [n |]; [| destruct Hn].
    destruct Hn as [-> | []]. reflexivity. }
  clear Hlen. revert Hkey.
  induction E as [| k group keys found Hk E IH]; intros Hkey;
    [reflexivity |].
  destruct (segment_stats_of_count segmented data k group Hdata
              (Hkey k (or_introl eq_refl)) Hk) as [st [-> [Hst _]]].
  simpl. rewrite Hst, Hcount, IH; [reflexivity |].
  intros k' Hk'. apply Hkey. right. exact Hk'.
Qed.

(** A key that alone accepts a row accounts for it once. *)
Lemma one_key_accepts {K A : Type} (P : K -> A -> bool) (keys : list K)
    (a : A) (k0 : K) :
  NoDup keys -> In k0 keys -> P k0 a = true ->
  (forall k, In k keys -> P k a = true -> k = k0) ->
  fold_right Z.add 0 (map (fun k => if P k a then 1 else 0) keys) = 1.
Proof.
  intros Hnd. induction Hnd as [| k keys Hnot Hnd IH]; intros Hin Hk0 Huniq;
    [destruct Hin |].
  simpl. destruct Hin as [-> | Hin].
  - rewrite Hk0.
    assert (fold_right Z.add 0 (map (fun k => if P k a then 1 else 0) keys)
            = 0) as ->; [| reflexivity].
    clear IH. induction keys as [| k keys IHk]; [reflexivity |].
    simpl. destruct (P k a) eqn:E.
    + exfalso. apply Hnot. left.
      apply (Huniq k (or_intror (or_introl eq_refl)) E).
    + apply IHk.
      * intros F. apply Hnot. right. exact F.
      * inversion Hnd; assumption.
      * intros k' Hk' E'. apply Huniq; [| exact E'].
        destruct Hk' as [-> | Hk']; [left; reflexivity |].
        right. right. exact Hk'.
  - destruct (P k a) eqn:E.
    + exfalso. apply Hnot.
      rewrite (Huniq k (or_introl eq_refl) E). exact Hin.
    + apply IH; [exact Hin | exact Hk0 |].
      intros k' Hk' E'. apply Huniq; [right; exact Hk' | exact E'].
Qed.

(** Rows that each belong to one key only are split among the keys. *)
Lemma partition_count {K A : Type} (P : K -> A -> bool) (keys : list K)
    (rows : list A) :
  NoDup keys ->
  (forall a, In a rows ->
     exists k0, In k0 keys /\ P k0 a = true /\
                forall k, In k keys -> P k a = true -> k = k0) ->
  fold_right Z.add 0
    (map (fun k => Z.of_nat (List.length (filter (P k) rows))) keys)
  = Z.of_nat (List.length rows).
Proof.
  intros Hnd. induction rows as [| a rows IH]; intros H.
  - simpl. clear. induction keys; simpl; auto.
  - destruct (H a (or_introl eq_refl)) as [k0 [Hk0 [Ha Huniq]]].
    rewrite length_cons, Nat2Z.inj_succ,
      <- (IH (fun x Hx => H x (or_intror Hx))).
    pose proof (one_key_accepts P keys a k0 Hnd Hk0 Ha Huniq) as Hone.
    assert (forall ks,
              fold_right Z.add 0
                (map (fun k => Z.of_nat (List.length (filter (P k) (a :: rows))))
                     ks)
              = fold_right Z.add 0
                  (map (fun k => Z.of_nat (List.length (filter (P k) rows)))
                       ks)
                + fold_right Z.add 0
                    (map (fun k => if P k a then 1 else 0) ks)) as Hsplit.
    { clear. induction ks as [| k ks IHk]; [reflexivity |].
      cbn [map fold_right]. rewrite IHk. cbn [filter].
      destruct (P k a); cbn [List.length]; lia. }
    rewrite Hsplit, Hone. lia.
Qed.

Lemma same_image {A B : Type} (f : A -> B) (l : list A) (x y : A) :
  NoDup (map f l) -> In x l -> In y l -> f x = f y -> x = y.
Proof.
  induction l as [| a l IH]; intros Hnd Hx Hy E; [destruct Hx |].
  simpl in Hnd. inversion Hnd as [| ? ? Hnot Hnd']; subst.
  destruct Hx as [-> | Hx], Hy as [-> | Hy].
  - reflexivity.
  - exfalso. apply Hnot. rewrite E. apply in_map. exact Hy.
  - exfalso. apply Hnot. rewrite <- E. apply in_map. exact Hx.
  - apply IH; assumption.
Qed.

Lemma segment_transactions_total (segmented : list Segmented)
    (data : Pd.Frame Transaction) (stats : list (string * SegmentStats)) :
  data <> [] ->
  NoDup (map (fun s => rfm_customer_id (rfm s)) segmented) ->
  (forall s, In s segmented -> exists n, segment_name s = Some n) ->
  (forall s, In s segmented ->
     exists row, In row data /\
                 customer_id (snd row) = rfm_customer_id (rfm s)) ->
  (forall row, In row data ->
     exists s, In s segmented /\
               rfm_customer_id (rfm s) = customer_id (snd row)) ->
  _calculate_segment_stats segmented data = Ok stats ->
  fold_right Z.add 0 (map (fun kv => total_transactions (snd kv)) stats)
  = Z.of_nat (List.length data).
Proof.
  intros Hd Hnd Hnamed Hdata Hcover. unfold _calculate_segment_stats.
  assert (Pd.empty data = false) as ->
    by (destruct data; [contradiction | reflexivity]).
  set (names := flat_map _ segmented).
  destruct (mapM _ (unique_names names)) as [found | e] eqn:E; simpl;
    [| discriminate].
  intros H. injection H as <-.
  assert (forall k, In k (unique_names names) <->
            exists s, In s segmented /\ segment_name s = Some k) as Hkey.
  { intros k. split.
    - intros Hk. apply unique_names_In in Hk. apply in_flat_map in Hk.
      destruct Hk as [s [Hs Hn]]. exists s. split; [exact Hs |].
      destruct (segment_name s) as [n |]; [| destruct Hn].
      destruct Hn as [-> | []]. reflexivity.
    - intros [s [Hs Hn]]. apply unique_names_cover. apply in_flat_map.
      exists s. split; [exact Hs |]. rewrite Hn. left. reflexivity. }
  rewrite <- (partition_count (in_segment segmented) (unique_names names)
                data (unique_names_NoDup names)).
  - apply DensityExtras.mapM_Forall2 in E.
    assert (forall k, In k (unique_names names) ->
              exists s, In s segmented /\ segment_name s = Some k) as Hk1
      by (intros k Hk; apply Hkey; exact Hk).
    clear Hkey. revert Hk1.
    induction E as [| k group keys found Hk E IH]; intros Hk1;
      [reflexivity |].
    destruct (segment_stats_of_count segmented data k group Hdata
                (Hk1 k (or_introl eq_refl)) Hk) as [st [-> [_ Hst]]].
    simpl. rewrite Hst, IH; [reflexivity |].
    intros k' Hk'. apply Hk1. right. exact Hk'.
  - intros row Hrow. destruct (Hcover row Hrow) as [s [Hs Hc]].
    destruct (Hnamed s Hs) as [n Hn]. exists n.
    split; [apply Hkey; eauto |]. split.
    + unfold in_segment. apply existsb_exists.
      exists (rfm_customer_id (rfm s)). split.
      * apply in_map_iff. exists s. split; [reflexivity |].
        apply filter_In. split; [exact Hs |]. rewrite Hn.
        apply String.eqb_refl.
      * apply String.eqb_eq. symmetry. exact Hc.
    + intros k _ Hk. unfold in_segment in Hk. apply existsb_exists in Hk.
      destruct Hk as [c [Hc' Ec]]. apply String.eqb_eq in Ec.
      apply in_map_iff in Hc'. destruct Hc' as [s' [Es' Hs']].
      apply filter_In in Hs'. destruct Hs' as [Hs' Hn'].
      assert (s' = s) as ->.
      { apply (same_image (fun x => rfm_customer_id (rfm x)) segmented);
          try assumption. congruence. }
      rewrite Hn in Hn'. apply String.eqb_eq in Hn'. symmetry. exact Hn'.
Qed.

Section Models.

Variable scaler_fit_transform :
  list (list float) -> PyResult (list (list float)).
Variable kmeans_fit_predict :
  nat -> list (list float) -> PyResult (list Z).

Local Abbreviation segment_customers :=
  (segment_customers scaler_fit_transform kmeans_fit_predict).

(** X21.  In what segmentation returns, the segments split the
    customers and the transactions: the customer counts of the segment
    statistics add up to the number of rows of the segmented table, and,
    when that table is not empty, their transaction counts add up to the
    number of transactions of the input. *)
Theorem segment_counts_add_up (data : Pd.Frame Transaction)
    (n_clusters : nat) (segmented : list Segmented)
    (stats : list (string * SegmentStats)) :
  segment_customers data n_clusters = Ok (segmented, stats) ->
  fold_right Z.add 0 (map (fun kv => customer_count (snd kv)) stats)
  = Z.of_nat (List.length segmented) /\
  (segmented <> [] ->
   fold_right Z.add 0 (map (fun kv => total_transactions (snd kv)) stats)
   = Z.of_nat (List.length data)).
Proof.
  intros H.
  pose proof (SegmentExtras.every_row_is_named
                scaler_fit_transform kmeans_fit_predict data n_clusters
                segmented stats H) as Hnamed.
  unfold CustomerSegmentation.segment_customers in H.
  destruct (Pd.empty data) eqn:Ee;
    [injection H as <- <-; split; [reflexivity | congruence] |].
  assert (data <> []) as Hd by (intros ->; discriminate).
  destruct (calculate_rfm_metrics data) as [table | e] eqn:Et;
    simpl bind in H; [| discriminate].
  destruct table as [| r rest] eqn:Etab;
    [injection H as <- <-; split; [reflexivity | congruence] |].
  rewrite <- Etab in *. clear Etab.
  destruct (List.length table <? n_clusters)%nat;
    [injection H as <- <-; split; [reflexivity | congruence] |].
  destruct (scaler_fit_transform _) as [scaled | e]; simpl bind in H;
    [| discriminate].
  destruct (kmeans_fit_predict n_clusters scaled) as [labels | e];
    simpl bind in H; [| discriminate].
  destruct (negb (List.length labels =? List.length table)%nat) eqn:El;
    [discriminate |].
  apply Bool.negb_false_iff, Nat.eqb_eq in El.
  destruct (_calculate_segment_stats _ data) as [sts | e] eqn:Es;
    simpl bind in H; [| discriminate].
  injection H as <- <-.
  pose proof (RfmExtras.rfm_table_customers_in data table Et)
    as [Hnd Hids].
  assert (forall s, In s (map (fun p : RfmRecord * Z =>
                                 {| rfm := fst p; cluster_label := snd p;
                                    segment_name :=
                                      map_name
                                        (segment_names_of_run table labels)
                                        (snd p) |})
                              (combine table labels)) ->
            exists n, segment_name s = Some n) as Hsome.
  { intros s Hs. destruct (Hnamed s Hs) as [n [Hn _]]. eauto. }
  assert (forall s, In s (map (fun p : RfmRecord * Z =>
                                 {| rfm := fst p; cluster_label := snd p;
                                    segment_name :=
                                      map_name
                                        (segment_names_of_run table labels)
                                        (snd p) |})
                              (combine table labels)) ->
            exists row, In row data /\
                        customer_id (snd row) = rfm_customer_id (rfm s))
    as Hback.
  { intros s Hs. apply in_map_iff in Hs. destruct Hs as [[r0 c] [<- Hp]].
    simpl. apply in_combine_l in Hp.
    assert (In (rfm_customer_id r0) (Pd.column customer_id data)) as Hin
      by (apply Hids; apply in_map; exact Hp).
    unfold Pd.column in Hin. apply in_map_iff in Hin.
    destruct Hin as [row [Hc Hrow]]. exists row. tauto. }
  split.
  - apply (segment_stats_total _ data sts Hd Hsome Hback Es).
  - intros _.
    assert (map (fun s => rfm_customer_id (rfm s))
                (map (fun p : RfmRecord * Z =>
                        {| rfm := fst p; cluster_label := snd p;
                           segment_name :=
                             map_name (segment_names_of_run table labels)
                                      (snd p) |})
                     (combine table labels))
            = map rfm_customer_id table) as Eids.
    { rewrite map_map. cbn [rfm].
      rewrite <- (map_map fst rfm_customer_id).
      rewrite PdFacts.map_fst_combine by congruence. reflexivity. }
    refine (segment_transactions_total _ data sts Hd _ Hsome Hback _ Es).
    + rewrite Eids. exact Hnd.
    + intros row Hrow.
      assert (In (customer_id (snd row)) (map rfm_customer_id table))
        as Hin.
      { apply Hids. unfold Pd.column. apply in_map_iff. exists row.
        tauto. }
      rewrite <- Eids in Hin. apply in_map_iff in Hin.
      destruct Hin as [s [Hc Hs]]. exists s. tauto.
Qed.

End Models.

(** A run of X21 on [six_days] with two clusters: six customers. *)
Lemma segment_counts_add_up_witness :
  match CustomerSegmentation.segment_customers Examples.scaler
          Examples.kmeans Examples.six_days 2 with
  | Ok (segmented, stats) =>
      fold_right Z.add 0 (map (fun kv => customer_count (snd kv)) stats) = 6
  | Raise _ => False
  end.
Proof.
  destruct (CustomerSegmentation.segment_customers Examples.scaler
              Examples.kmeans Examples.six_days 2)
    as [[segmented stats] | e] eqn:E.
  - destruct (segment_counts_add_up Examples.scaler Examples.kmeans
                Examples.six_days 2 segmented stats E) as [H _].
    rewrite H. vm_compute in E. injection E as <- _. reflexivity.
  - vm_compute in E. discriminate.
Defined.

End StatsExtras.
